(** * The null graphics device (src/null/null_device.cpp)

    A shallow embedding of the software ("null") implementation of the
    graphics-device layer: buffer objects and their map/unmap snapshots,
    vertex declarations and stream binding, the vertex gather of
    [DrawElements], and the framebuffer / render-target planes of [Clear].

    Data model of the embedding.  The code is written for a 32-bit
    little-endian target (handles are object addresses cast to
    [uint32_t]), so [size_t] and [unsigned int] are 32 bits wide, [short]
    is 16 bits and plain [char] is signed.  Unsigned integers are values
    of [Z] with the wrap-around written out ([wrap16], [wrap32]).  Memory
    is a list of blocks, one per allocation; a pointer is a block and a
    byte offset.  A run of the code either completes, stops on a failed
    [assert], or has no defined behaviour. *)

From Stdlib Require Import ZArith Lia List Bool.
From Stdlib Require Import Strings.Byte.
From stdpp Require Import base list.

Local Open Scope Z_scope.

(** ** Integers *)

Definition wrap (bits : Z) (x : Z) : Z := x mod 2 ^ bits.
Definition wrap8 : Z -> Z := wrap 8.
Definition wrap16 : Z -> Z := wrap 16.
Definition wrap32 : Z -> Z := wrap 32.

(** The value of a [bits]-wide two's complement pattern [x]. *)
Definition signed (bits : Z) (x : Z) : Z :=
  if x <? 2 ^ (bits - 1) then x else x - 2 ^ bits.

(** ** Bytes and memory *)

Definition byte_of_Z (x : Z) : byte :=
  match Byte.of_N (Z.to_N (x mod 256)) with
  | Some b => b
  | None => Byte.x00
  end.

Definition Z_of_byte (b : byte) : Z := Z.of_N (Byte.to_N b).

(** A byte of storage: [new char[n]] yields indeterminate contents. *)
Inductive memval : Type :=
| Undef
| Val (b : byte).

Abbreviation block := nat (only parsing).

(** [void*], [char*]: null, or a byte offset into an allocated block. *)
Inductive ptr : Type :=
| Null
| Ptr (b : block) (ofs : Z).

(** Pointers to objects and handles made from them: [None] is null. *)
Definition handle := option block.

Definition is_null (p : ptr) : bool :=
  match p with Null => true | Ptr _ _ => false end.

Definition ptr_add (p : ptr) (n : Z) : ptr :=
  match p with
  | Null => Null
  | Ptr b ofs => Ptr b (ofs + n)
  end.

(** Little-endian value of a byte string. *)
Fixpoint decode_le (bs : list byte) : Z :=
  match bs with
  | [] => 0
  | b :: rest => Z_of_byte b + 256 * decode_le rest
  end.

Fixpoint encode_le (n : nat) (x : Z) : list byte :=
  match n with
  | O => []
  | S k => byte_of_Z x :: encode_le k (x / 256)
  end.

Fixpoint proj_bytes (vs : list memval) : option (list byte) :=
  match vs with
  | [] => Some []
  | Undef :: _ => None
  | Val b :: rest =>
      match proj_bytes rest with
      | Some bs => Some (b :: bs)
      | None => None
      end
  end.

Definition inj_bytes (bs : list byte) : list memval := map Val bs.

(** The [n] cells at offset [ofs] of an array, if they are all inside it. *)
Definition array_load (cells : list memval) (ofs n : Z) : option (list memval) :=
  if (0 <=? ofs) && (0 <=? n) && (ofs + n <=? Z.of_nat (length cells))
  then Some (take (Z.to_nat n) (drop (Z.to_nat ofs) cells))
  else None.

(** The array with [vs] written at offset [ofs], if that is inside it. *)
Definition array_store (cells : list memval) (ofs : Z) (vs : list memval)
  : option (list memval) :=
  if (0 <=? ofs) && (ofs + Z.of_nat (length vs) <=? Z.of_nat (length cells))
  then Some (take (Z.to_nat ofs) cells ++ vs
               ++ drop (Z.to_nat ofs + length vs)%nat cells)
  else None.

(** ** Enumerations of graphics_device.h *)

(** Modelled from the spec: the element type enumeration is declared in
    graphics_device.h, which is not under src/.  Its seven members are
    the index element types of the draw call (signed-8, unsigned-8,
    signed-16, unsigned-16, signed-32, unsigned-32, float-32), in the
    order of the [TYPE_SIZE] table, which is indexed by
    [type - TYPE_BYTE]. *)
Inductive Type_ : Type :=
| TYPE_BYTE
| TYPE_UNSIGNED_BYTE
| TYPE_SHORT
| TYPE_UNSIGNED_SHORT
| TYPE_INT
| TYPE_UNSIGNED_INT
| TYPE_FLOAT.

(** Modelled from the spec: the texture formats, in the order of the
    [TEXTURE_FORMAT_SIZE] table. *)
Inductive TextureFormat : Type :=
| TEXTURE_FORMAT_LUMINANCE
| TEXTURE_FORMAT_RGB
| TEXTURE_FORMAT_RGBA
| TEXTURE_FORMAT_RGB_DXT1
| TEXTURE_FORMAT_RGBA_DXT1
| TEXTURE_FORMAT_RGBA_DXT3
| TEXTURE_FORMAT_RGBA_DXT5.

Definition TYPE_SIZE (t : Type_) : Z :=
  match t with
  | TYPE_BYTE => 1
  | TYPE_UNSIGNED_BYTE => 1
  | TYPE_SHORT => 2
  | TYPE_UNSIGNED_SHORT => 2
  | TYPE_INT => 4
  | TYPE_UNSIGNED_INT => 4
  | TYPE_FLOAT => 4
  end.

Definition TEXTURE_FORMAT_SIZE (f : TextureFormat) : Z :=
  match f with
  | TEXTURE_FORMAT_LUMINANCE => 1
  | TEXTURE_FORMAT_RGB => 3
  | TEXTURE_FORMAT_RGBA => 4
  | TEXTURE_FORMAT_RGB_DXT1 => 3
  | TEXTURE_FORMAT_RGBA_DXT1 => 4
  | TEXTURE_FORMAT_RGBA_DXT3 => 4
  | TEXTURE_FORMAT_RGBA_DXT5 => 4
  end.

(** Modelled from the spec: the clear bitmask over the colour, depth and
    stencil planes; the flag values are declared in graphics_device.h.
    Only their being three distinct bits matters here. *)
Definition CLEAR_COLOUR_BUFFER : Z := 1.
Definition CLEAR_DEPTH_BUFFER : Z := 2.
Definition CLEAR_STENCIL_BUFFER : Z := 4.

(** Modelled from the spec: the number of stream slots of the device and
    of a vertex declaration ("the sum over all 32 slots"). *)
Definition MAX_VERTEX_STREAM_COUNT : nat := 32.

(** ** Structures (null_device.h, graphics_device.h)

    Modelled from the spec: the structure declarations are in
    null_device.h and graphics_device.h, which are not under src/.  The
    records below hold the fields null_device.cpp reads and writes, with
    the widths that file gives them where it shows one ([uint32_t] buffer
    sizes, the [uint16_t] stream size and stride handed to
    [SetVertexStream]). *)

Module VertexStream.
Record t : Type := mk
  { m_Source : ptr;      (* const void*: not owned *)
    m_Buffer : ptr;      (* void*: the compaction buffer of the last draw *)
    m_Size : Z;          (* uint16_t: element size in bytes *)
    m_Stride : Z }.      (* uint16_t *)
Definition zero : t := mk Null Null 0 0.
Definition set_Buffer (p : ptr) (s : t) : t :=
  mk (m_Source s) p (m_Size s) (m_Stride s).
End VertexStream.

Module VertexBuffer.
Record t : Type := mk
  { m_Buffer : ptr;      (* char*: primary storage *)
    m_Copy : ptr;        (* char*: the snapshot of an outstanding map *)
    m_Size : Z }.        (* uint32_t *)
End VertexBuffer.

Module IndexBuffer.
Record t : Type := mk
  { m_Buffer : ptr;
    m_Copy : ptr;
    m_Size : Z }.
End IndexBuffer.

Module VertexElement.
Record t : Type := mk
  { m_Stream : Z;        (* uint32_t: stream id *)
    m_Size : Z;          (* uint32_t: component count *)
    m_Type : Type_ }.
(** An element of a table cleared with [memset]. *)
Definition zero : t := mk 0 0 TYPE_BYTE.
End VertexElement.

Module VertexDeclaration.
Record t : Type := mk
  { m_Elements : list VertexElement.t }.   (* MAX_VERTEX_STREAM_COUNT slots *)
End VertexDeclaration.

Module FrameBuffer.
Record t : Type := mk
  { m_ColorBuffer : ptr;
    m_DepthBuffer : ptr;
    m_AccumBuffer : ptr;
    m_StencilBuffer : ptr }.
Definition zero : t := mk Null Null Null Null.
End FrameBuffer.

Module Texture.
Record t : Type := mk
  { m_Data : ptr;
    m_Format : TextureFormat;
    m_Width : Z;         (* uint16_t *)
    m_Height : Z }.      (* uint16_t *)
End Texture.

Module RenderTarget.
Record t : Type := mk
  { m_Texture : handle;
    m_RenderBuffer : FrameBuffer.t }.
End RenderTarget.

(** A shader constant: four binary32 bit patterns. *)
Record Vector4 : Type := mkVector4 { v_x : Z; v_y : Z; v_z : Z; v_w : Z }.

(** [FrameBuffer* m_RenderBuffer]: null, the device's own
    [m_FrameBuffer], or the [m_RenderBuffer] member of a render target. *)
Inductive RenderBufferRef : Type :=
| ref_null
| ref_FrameBuffer
| ref_RenderTarget (rt : block).

Module Device.
Record t : Type := mk
  { m_VertexStreams : list VertexStream.t;
    m_VertexProgramRegisters : list Vector4;
    m_FragmentProgramRegisters : list Vector4;
    m_DisplayWidth : Z;              (* uint32_t *)
    m_DisplayHeight : Z;             (* uint32_t *)
    m_Opened : Z;
    m_FrameBuffer : FrameBuffer.t;
    m_RenderBuffer : RenderBufferRef;
    m_VertexProgram : ptr;
    m_FragmentProgram : ptr;
    m_RedMask : bool;
    m_GreenMask : bool;
    m_BlueMask : bool;
    m_AlphaMask : bool;
    m_DepthMask : bool;
    m_IndexMask : Z;
    m_StencilMask : Z }.

Definition set_VertexStreams (x : list VertexStream.t) (d : t) : t :=
  mk x (m_VertexProgramRegisters d) (m_FragmentProgramRegisters d)
     (m_DisplayWidth d) (m_DisplayHeight d) (m_Opened d) (m_FrameBuffer d)
     (m_RenderBuffer d) (m_VertexProgram d) (m_FragmentProgram d)
     (m_RedMask d) (m_GreenMask d) (m_BlueMask d) (m_AlphaMask d)
     (m_DepthMask d) (m_IndexMask d) (m_StencilMask d).

Definition set_RenderBuffer (x : RenderBufferRef) (d : t) : t :=
  mk (m_VertexStreams d) (m_VertexProgramRegisters d)
     (m_FragmentProgramRegisters d)
     (m_DisplayWidth d) (m_DisplayHeight d) (m_Opened d) (m_FrameBuffer d)
     x (m_VertexProgram d) (m_FragmentProgram d)
     (m_RedMask d) (m_GreenMask d) (m_BlueMask d) (m_AlphaMask d)
     (m_DepthMask d) (m_IndexMask d) (m_StencilMask d).

Definition set_FrameBuffer (x : FrameBuffer.t) (d : t) : t :=
  mk (m_VertexStreams d) (m_VertexProgramRegisters d)
     (m_FragmentProgramRegisters d)
     (m_DisplayWidth d) (m_DisplayHeight d) (m_Opened d) x
     (m_RenderBuffer d) (m_VertexProgram d) (m_FragmentProgram d)
     (m_RedMask d) (m_GreenMask d) (m_BlueMask d) (m_AlphaMask d)
     (m_DepthMask d) (m_IndexMask d) (m_StencilMask d).

Definition set_Display (w h : Z) (d : t) : t :=
  mk (m_VertexStreams d) (m_VertexProgramRegisters d)
     (m_FragmentProgramRegisters d)
     w h (m_Opened d) (m_FrameBuffer d)
     (m_RenderBuffer d) (m_VertexProgram d) (m_FragmentProgram d)
     (m_RedMask d) (m_GreenMask d) (m_BlueMask d) (m_AlphaMask d)
     (m_DepthMask d) (m_IndexMask d) (m_StencilMask d).

Definition set_Opened (x : Z) (d : t) : t :=
  mk (m_VertexStreams d) (m_VertexProgramRegisters d)
     (m_FragmentProgramRegisters d)
     (m_DisplayWidth d) (m_DisplayHeight d) x (m_FrameBuffer d)
     (m_RenderBuffer d) (m_VertexProgram d) (m_FragmentProgram d)
     (m_RedMask d) (m_GreenMask d) (m_BlueMask d) (m_AlphaMask d)
     (m_DepthMask d) (m_IndexMask d) (m_StencilMask d).

Definition set_Registers (v f : list Vector4) (d : t) : t :=
  mk (m_VertexStreams d) v f
     (m_DisplayWidth d) (m_DisplayHeight d) (m_Opened d) (m_FrameBuffer d)
     (m_RenderBuffer d) (m_VertexProgram d) (m_FragmentProgram d)
     (m_RedMask d) (m_GreenMask d) (m_BlueMask d) (m_AlphaMask d)
     (m_DepthMask d) (m_IndexMask d) (m_StencilMask d).

Definition set_Programs (v f : ptr) (d : t) : t :=
  mk (m_VertexStreams d) (m_VertexProgramRegisters d)
     (m_FragmentProgramRegisters d)
     (m_DisplayWidth d) (m_DisplayHeight d) (m_Opened d) (m_FrameBuffer d)
     (m_RenderBuffer d) v f
     (m_RedMask d) (m_GreenMask d) (m_BlueMask d) (m_AlphaMask d)
     (m_DepthMask d) (m_IndexMask d) (m_StencilMask d).

(** The device as static storage holds it before [NewDevice]: all
    zero.  The capacity of the register banks is declared in
    null_device.h; it is a parameter here. *)
Definition static (register_count : nat) : t :=
  mk (replicate MAX_VERTEX_STREAM_COUNT VertexStream.zero)
     (replicate register_count (mkVector4 0 0 0 0))
     (replicate register_count (mkVector4 0 0 0 0))
     0 0 0 FrameBuffer.zero ref_null Null Null
     false false false false false 0 0.
End Device.

(** Everything [new] can allocate. *)
Inductive object : Type :=
| Array (cells : list memval)
| VertexBufferObj (vb : VertexBuffer.t)
| IndexBufferObj (ib : IndexBuffer.t)
| VertexDeclarationObj (vd : VertexDeclaration.t)
| TextureObj (tex : Texture.t)
| RenderTargetObj (rt : RenderTarget.t).

(** The state of a run: the global [gdevice] and the free store.  Block
    [b] is cell [b] of [heap]; a freed block stays as [None] and its
    address is never handed out again. *)
Record State : Type := mkState
  { gdevice : Device.t;
    heap : list (option object) }.

(** [HContext]: null, or the address of the global [gcontext]. *)
Inductive HContext : Type :=
| context_null
| context_global.

Definition GetContext : HContext := context_global.

(** ** Runs *)

Inductive outcome (A : Type) : Type :=
| Done (a : A)       (* the call returns *)
| Abort              (* an [assert] fails *)
| Undefined.         (* no defined behaviour *)
Arguments Done {A} a.
Arguments Abort {A}.
Arguments Undefined {A}.

Definition M (A : Type) : Type := State -> outcome (A * State).

#[global] Instance M_ret : MRet M := fun A a st => Done (a, st).

#[global] Instance M_bind : MBind M := fun A B f m st =>
  match m st with
  | Done (a, st') => f a st'
  | Abort => Abort
  | Undefined => Undefined
  end.

Definition assert (b : bool) : M unit :=
  fun st => if b then Done (tt, st) else Abort.

Definition undefined {A : Type} : M A := fun _ => Undefined.

Definition from_option {A : Type} (o : option A) : M A :=
  match o with
  | Some a => mret a
  | None => undefined
  end.

Definition get_device : M Device.t := fun st => Done (gdevice st, st).

Definition put_device (d : Device.t) : M unit :=
  fun st => Done (tt, mkState d (heap st)).

Definition get_heap : M (list (option object)) := fun st => Done (heap st, st).

Definition put_heap (h : list (option object)) : M unit :=
  fun st => Done (tt, mkState (gdevice st) h).

(** [for (uint32_t i = 0; i < n; ++i) body(i)] *)
Fixpoint for_each {A : Type} (l : list A) (body : A -> M unit) : M unit :=
  match l with
  | [] => mret tt
  | x :: rest => body x ;; for_each rest body
  end.

Definition for_loop (n : nat) (body : nat -> M unit) : M unit :=
  for_each (seq 0 n) body.

(** The same loop with a local variable carried from one round to the
    next. *)
Fixpoint for_each_acc {A T : Type} (l : list A) (body : A -> T -> M T) (acc : T)
  : M T :=
  match l with
  | [] => mret acc
  | x :: rest => acc' ← body x acc; for_each_acc rest body acc'
  end.

(** *** The free store *)

Definition new (o : object) : M block :=
  h ← get_heap;
  put_heap (h ++ [Some o]);;
  mret (length h).

Definition load_object (b : block) : M object :=
  h ← get_heap;
  match h !! b with
  | Some (Some o) => mret o
  | _ => undefined
  end.

Definition store_object (b : block) (o : object) : M unit :=
  h ← get_heap;
  match h !! b with
  | Some (Some _) => put_heap (<[b := Some o]> h)
  | _ => undefined
  end.

(** [delete p] for an object pointer [p]. *)
Definition delete (b : block) : M unit :=
  h ← get_heap;
  match h !! b with
  | Some (Some _) => put_heap (<[b := None]> h)
  | _ => undefined
  end.

(** [new char[n]] *)
Definition new_array (n : Z) : M ptr :=
  b ← new (Array (replicate (Z.to_nat n) Undef));
  mret (Ptr b 0).

(** [delete [] (char* ) p]: nothing for a null pointer; otherwise [p]
    must be what [new char[n]] returned, not yet deleted. *)
Definition delete_array (p : ptr) : M unit :=
  match p with
  | Null => mret tt
  | Ptr b ofs =>
      o ← load_object b;
      match o with
      | Array _ => if ofs =? 0 then delete b else undefined
      | _ => undefined
      end
  end.

Definition load_cells (p : ptr) (n : Z) : M (list memval) :=
  match p with
  | Null => undefined
  | Ptr b ofs =>
      o ← load_object b;
      match o with
      | Array cells => from_option (array_load cells ofs n)
      | _ => undefined
      end
  end.

Definition store_cells (p : ptr) (vs : list memval) : M unit :=
  match p with
  | Null => undefined
  | Ptr b ofs =>
      o ← load_object b;
      match o with
      | Array cells =>
          cells' ← from_option (array_store cells ofs vs);
          store_object b (Array cells')
      | _ => undefined
      end
  end.

(** Do the byte ranges [p, p+n) and [q, q+n) share a byte? *)
Definition overlap (p q : ptr) (n : Z) : bool :=
  match p, q with
  | Ptr b1 o1, Ptr b2 o2 =>
      (b1 =? b2)%nat && (o1 <? o2 + n) && (o2 <? o1 + n)
  | _, _ => false
  end.

(** [memcpy(dst, src, n)]: copying nothing touches no memory; otherwise
    both ranges must lie inside live arrays and must not overlap. *)
Definition memcpy (dst src : ptr) (n : Z) : M unit :=
  if n =? 0 then mret tt
  else if overlap dst src n then undefined
  else
    vs ← load_cells src n;
    store_cells dst vs.

(** Reading a value of [n] bytes: the bytes must all have been written. *)
Definition load_bytes (p : ptr) (n : Z) : M (list byte) :=
  vs ← load_cells p n;
  from_option (proj_bytes vs).

Definition store_bytes (p : ptr) (bs : list byte) : M unit :=
  store_cells p (inj_bytes bs).

Definition load_uint (size : Z) (p : ptr) (index : Z) : M Z :=
  bs ← load_bytes (ptr_add p (size * index)) size;
  mret (decode_le bs).

(** [((uint32_t* ) p)[index] = v] *)
Definition store_uint32 (p : ptr) (index : Z) (v : Z) : M unit :=
  store_bytes (ptr_add p (4 * index)) (encode_le 4 v).

(** Conversion of a [float], given by its binary32 pattern, to
    [uint32_t]: the value is truncated toward zero; there is no defined
    result when the truncated value is not a [uint32_t] (negative, too
    large, infinite or not a number). *)
Definition float_to_uint32 (bits : Z) : option Z :=
  let sign := Z.testbit bits 31 in
  let e := Z.land (Z.shiftr bits 23) 255 in
  let m := Z.land bits (2 ^ 23 - 1) in
  if e =? 255 then None
  else
    let significand := if e =? 0 then m else m + 2 ^ 23 in
    let exponent := if e =? 0 then -149 else e - 150 in
    let magnitude :=
      if 0 <=? exponent then significand * 2 ^ exponent
      else significand / 2 ^ (- exponent) in
    if magnitude =? 0 then Some 0
    else if sign then None
    else if magnitude <? 2 ^ 32 then Some magnitude
    else None.

(** ** The device (null_device.cpp) *)

Definition HVertexBuffer := handle.
Definition HIndexBuffer := handle.
Definition HVertexDeclaration := handle.
Definition HTexture := handle.
Definition HRenderTarget := handle.

(** Enumerations the null device receives and does not inspect. *)
Definition BufferUsage := Z.
Definition BufferAccess := Z.
Definition PrimitiveType := Z.

Module CreateDeviceParams.
Record t : Type := mk
  { m_DisplayWidth : Z;      (* uint32_t *)
    m_DisplayHeight : Z }.   (* uint32_t *)
End CreateDeviceParams.

Definition context_ok (context : HContext) : bool :=
  match context with context_null => false | context_global => true end.

Definition handle_ok (h : handle) : bool :=
  match h with None => false | Some _ => true end.

Definition modify_device (f : Device.t -> Device.t) : M unit :=
  d ← get_device; put_device (f d).

(** [gdevice.m_VertexStreams[i]], read and written. *)
Definition get_stream (i : nat) : M VertexStream.t :=
  d ← get_device;
  from_option (Device.m_VertexStreams d !! i).

Definition set_stream (i : nat) (s : VertexStream.t) : M unit :=
  d ← get_device;
  if (i <? length (Device.m_VertexStreams d))%nat
  then put_device (Device.set_VertexStreams (<[i := s]> (Device.m_VertexStreams d)) d)
  else undefined.

(** The four planes of a target of [width] x [height] pixels. *)
Definition new_planes (width height : Z) : M FrameBuffer.t :=
  color ← new_array (wrap32 (4 * width * height));
  depth ← new_array (wrap32 (4 * width * height));
  accum ← new_array (wrap32 (4 * width * height));
  stencil ← new_array (wrap32 (4 * width * height));
  mret (FrameBuffer.mk color depth accum stencil).

Definition delete_planes (fb : FrameBuffer.t) : M unit :=
  delete_array (FrameBuffer.m_ColorBuffer fb);;
  delete_array (FrameBuffer.m_DepthBuffer fb);;
  delete_array (FrameBuffer.m_AccumBuffer fb);;
  delete_array (FrameBuffer.m_StencilBuffer fb).

Definition NewDevice (params : option CreateDeviceParams.t) : M unit :=
  assert (bool_decide (is_Some params));;
  params ← from_option params;
  modify_device (fun d =>
    Device.set_VertexStreams
      (map (fun _ => VertexStream.zero) (Device.m_VertexStreams d)) d);;
  modify_device (fun d =>
    Device.set_Registers
      (map (fun _ => mkVector4 0 0 0 0) (Device.m_VertexProgramRegisters d))
      (map (fun _ => mkVector4 0 0 0 0) (Device.m_FragmentProgramRegisters d)) d);;
  modify_device (Device.set_Display (CreateDeviceParams.m_DisplayWidth params)
                                    (CreateDeviceParams.m_DisplayHeight params));;
  modify_device (Device.set_Opened 1);;
  fb ← new_planes (CreateDeviceParams.m_DisplayWidth params)
                  (CreateDeviceParams.m_DisplayHeight params);
  modify_device (Device.set_FrameBuffer fb);;
  modify_device (Device.set_RenderBuffer ref_FrameBuffer);;
  modify_device (Device.set_Programs Null Null).

(** [*gdevice.m_RenderBuffer] *)
Definition render_buffer : M FrameBuffer.t :=
  d ← get_device;
  match Device.m_RenderBuffer d with
  | ref_null => undefined
  | ref_FrameBuffer => mret (Device.m_FrameBuffer d)
  | ref_RenderTarget b =>
      o ← load_object b;
      match o with
      | RenderTargetObj rt => mret (RenderTarget.m_RenderBuffer rt)
      | _ => undefined
      end
  end.

(** [red], [green], [blue] and [alpha] are [uint8_t]; [depth] is the
    binary32 pattern of the [float] argument. *)
Definition Clear (context : HContext) (flags : Z) (red green blue alpha : Z)
    (depth : Z) (stencil : Z) : M unit :=
  assert (context_ok context);;
  d ← get_device;
  let buffer_size := wrap32 (Device.m_DisplayWidth d * Device.m_DisplayHeight d) in
  (if Z.land flags CLEAR_COLOUR_BUFFER =? 0 then mret tt
   else
     let colour :=
       wrap32 (Z.lor (Z.lor (Z.lor (Z.shiftl red 24) (Z.shiftl green 16))
                            (Z.shiftl blue 8)) alpha) in
     rb ← render_buffer;
     let buffer := FrameBuffer.m_ColorBuffer rb in
     for_loop (Z.to_nat buffer_size) (fun i =>
       store_uint32 buffer (Z.of_nat i) colour));;
  (if Z.land flags CLEAR_DEPTH_BUFFER =? 0 then mret tt
   else
     rb ← render_buffer;
     let buffer := FrameBuffer.m_DepthBuffer rb in
     for_loop (Z.to_nat buffer_size) (fun i =>
       store_uint32 buffer (Z.of_nat i) depth));;
  (if Z.land flags CLEAR_STENCIL_BUFFER =? 0 then mret tt
   else
     rb ← render_buffer;
     let buffer := FrameBuffer.m_StencilBuffer rb in
     for_loop (Z.to_nat buffer_size) (fun i =>
       store_uint32 buffer (Z.of_nat i) stencil)).

(** *** Vertex and index buffers *)

Definition load_VertexBuffer (buffer : HVertexBuffer) : M VertexBuffer.t :=
  b ← from_option buffer;
  o ← load_object b;
  match o with
  | VertexBufferObj vb => mret vb
  | _ => undefined
  end.

Definition store_VertexBuffer (buffer : HVertexBuffer) (vb : VertexBuffer.t) : M unit :=
  b ← from_option buffer;
  store_object b (VertexBufferObj vb).

Definition NewVertexBuffer (size : Z) (data : ptr) (buffer_usage : BufferUsage)
  : M HVertexBuffer :=
  vb ← new (VertexBufferObj (VertexBuffer.mk Null Null 0));
  p ← new_array size;
  store_VertexBuffer (Some vb) (VertexBuffer.mk p Null size);;
  (if (0 <? size) && negb (is_null data) then memcpy p data size else mret tt);;
  mret (Some vb).

Definition DeleteVertexBuffer (buffer : HVertexBuffer) : M unit :=
  vb ← load_VertexBuffer buffer;
  assert (is_null (VertexBuffer.m_Copy vb));;
  delete_array (VertexBuffer.m_Buffer vb);;
  b ← from_option buffer;
  delete b.

Definition MapVertexBuffer (buffer : HVertexBuffer) (access : BufferAccess) : M ptr :=
  vb ← load_VertexBuffer buffer;
  copy ← new_array (VertexBuffer.m_Size vb);
  store_VertexBuffer buffer
    (VertexBuffer.mk (VertexBuffer.m_Buffer vb) copy (VertexBuffer.m_Size vb));;
  memcpy copy (VertexBuffer.m_Buffer vb) (VertexBuffer.m_Size vb);;
  mret copy.

Definition UnmapVertexBuffer (buffer : HVertexBuffer) : M bool :=
  vb ← load_VertexBuffer buffer;
  memcpy (VertexBuffer.m_Buffer vb) (VertexBuffer.m_Copy vb) (VertexBuffer.m_Size vb);;
  delete_array (VertexBuffer.m_Copy vb);;
  store_VertexBuffer buffer
    (VertexBuffer.mk (VertexBuffer.m_Buffer vb) Null (VertexBuffer.m_Size vb));;
  mret true.

Definition load_IndexBuffer (buffer : HIndexBuffer) : M IndexBuffer.t :=
  b ← from_option buffer;
  o ← load_object b;
  match o with
  | IndexBufferObj ib => mret ib
  | _ => undefined
  end.

Definition store_IndexBuffer (buffer : HIndexBuffer) (ib : IndexBuffer.t) : M unit :=
  b ← from_option buffer;
  store_object b (IndexBufferObj ib).

Definition NewIndexBuffer (size : Z) (data : ptr) (buffer_usage : BufferUsage)
  : M HIndexBuffer :=
  ib ← new (IndexBufferObj (IndexBuffer.mk Null Null 0));
  p ← new_array size;
  store_IndexBuffer (Some ib) (IndexBuffer.mk p Null size);;
  memcpy p data size;;
  mret (Some ib).

Definition DeleteIndexBuffer (buffer : HIndexBuffer) : M unit :=
  ib ← load_IndexBuffer buffer;
  assert (is_null (IndexBuffer.m_Copy ib));;
  delete_array (IndexBuffer.m_Buffer ib);;
  b ← from_option buffer;
  delete b.

Definition MapIndexBuffer (buffer : HIndexBuffer) (access : BufferAccess) : M ptr :=
  ib ← load_IndexBuffer buffer;
  copy ← new_array (IndexBuffer.m_Size ib);
  store_IndexBuffer buffer
    (IndexBuffer.mk (IndexBuffer.m_Buffer ib) copy (IndexBuffer.m_Size ib));;
  memcpy copy (IndexBuffer.m_Buffer ib) (IndexBuffer.m_Size ib);;
  mret copy.

Definition UnmapIndexBuffer (buffer : HIndexBuffer) : M bool :=
  ib ← load_IndexBuffer buffer;
  memcpy (IndexBuffer.m_Buffer ib) (IndexBuffer.m_Copy ib) (IndexBuffer.m_Size ib);;
  delete_array (IndexBuffer.m_Copy ib);;
  store_IndexBuffer buffer
    (IndexBuffer.mk (IndexBuffer.m_Buffer ib) Null (IndexBuffer.m_Size ib));;
  mret true.

(** *** Vertex declarations and streams *)

Definition load_VertexDeclaration (h : HVertexDeclaration) : M VertexDeclaration.t :=
  b ← from_option h;
  o ← load_object b;
  match o with
  | VertexDeclarationObj vd => mret vd
  | _ => undefined
  end.

(** [element] is the caller's array of [count] elements. *)
Definition NewVertexDeclaration (element : list VertexElement.t) (count : Z)
  : M HVertexDeclaration :=
  vd ← new (VertexDeclarationObj
              (VertexDeclaration.mk
                 (replicate MAX_VERTEX_STREAM_COUNT VertexElement.zero)));
  for_loop (Z.to_nat count) (fun i =>
    e ← from_option (element !! i);
    d ← load_VertexDeclaration (Some vd);
    let slot := Z.to_nat (VertexElement.m_Stream e) in
    old ← from_option (VertexDeclaration.m_Elements d !! slot);
    assert (VertexElement.m_Size old =? 0);;
    store_object vd
      (VertexDeclarationObj
         (VertexDeclaration.mk (<[slot := e]> (VertexDeclaration.m_Elements d)))));;
  mret (Some vd).

(** [stream], [size] and [stride] are [uint16_t]. *)
Definition SetVertexStream (context : HContext) (stream : Z) (size : Z)
    (type : Type_) (stride : Z) (vertex_buffer : ptr) : M unit :=
  assert (context_ok context);;
  assert (negb (is_null vertex_buffer));;
  s ← get_stream (Z.to_nat stream);
  assert (is_null (VertexStream.m_Source s));;
  assert (is_null (VertexStream.m_Buffer s));;
  set_stream (Z.to_nat stream)
    (VertexStream.mk vertex_buffer (VertexStream.m_Buffer s)
                     (wrap16 (size * TYPE_SIZE type)) stride).

Definition DisableVertexStream (context : HContext) (stream : Z) : M unit :=
  assert (context_ok context);;
  s ← get_stream (Z.to_nat stream);
  (if is_null (VertexStream.m_Buffer s) then mret tt
   else delete_array (VertexStream.m_Buffer s));;
  set_stream (Z.to_nat stream)
    (VertexStream.mk Null Null 0 (VertexStream.m_Stride s)).

Definition EnableVertexDeclaration (context : HContext)
    (vertex_declaration : HVertexDeclaration) (vertex_buffer : HVertexBuffer)
  : M unit :=
  assert (context_ok context);;
  assert (handle_ok vertex_declaration);;
  assert (handle_ok vertex_buffer);;
  stride ← for_each_acc (seq 0 MAX_VERTEX_STREAM_COUNT) (fun i stride =>
    vd ← load_VertexDeclaration vertex_declaration;
    e ← from_option (VertexDeclaration.m_Elements vd !! i);
    mret (wrap16 (stride + wrap32 (VertexElement.m_Size e
                                   * TYPE_SIZE (VertexElement.m_Type e))))) 0;
  for_each_acc (seq 0 MAX_VERTEX_STREAM_COUNT) (fun i offset =>
    vd ← load_VertexDeclaration vertex_declaration;
    ve ← from_option (VertexDeclaration.m_Elements vd !! i);
    if 0 <? VertexElement.m_Size ve then
      vb ← load_VertexBuffer vertex_buffer;
      SetVertexStream context (Z.of_nat i) (wrap16 (VertexElement.m_Size ve))
        (VertexElement.m_Type ve) stride
        (ptr_add (VertexBuffer.m_Buffer vb) offset);;
      mret (wrap32 (offset + wrap32 (VertexElement.m_Size ve
                                     * TYPE_SIZE (VertexElement.m_Type ve))))
    else mret offset) 0;;
  mret tt.

Definition DisableVertexDeclaration (context : HContext)
    (vertex_declaration : HVertexDeclaration) : M unit :=
  assert (context_ok context);;
  assert (handle_ok vertex_declaration);;
  for_loop MAX_VERTEX_STREAM_COUNT (fun i =>
    vd ← load_VertexDeclaration vertex_declaration;
    e ← from_option (VertexDeclaration.m_Elements vd !! i);
    if 0 <? VertexElement.m_Size e
    then DisableVertexStream context (Z.of_nat i)
    else mret tt).

(** *** Drawing *)

(** The [index]-th element of the index buffer, read with the C type of
    [type] and converted to [uint32_t].  [result] starts as [~0]; each
    of the seven cases of the switch assigns it. *)
Definition GetIndex (type : Type_) (index_buffer : ptr) (index : Z) : M Z :=
  match type with
  | TYPE_BYTE =>
      v ← load_uint 1 index_buffer index; mret (wrap32 (signed 8 v))
  | TYPE_UNSIGNED_BYTE =>
      v ← load_uint 1 index_buffer index; mret (wrap32 v)
  | TYPE_SHORT =>
      v ← load_uint 2 index_buffer index; mret (wrap32 (signed 16 v))
  | TYPE_UNSIGNED_SHORT =>
      v ← load_uint 2 index_buffer index; mret (wrap32 v)
  | TYPE_INT =>
      v ← load_uint 4 index_buffer index; mret (wrap32 (signed 32 v))
  | TYPE_UNSIGNED_INT =>
      v ← load_uint 4 index_buffer index; mret (wrap32 v)
  | TYPE_FLOAT =>
      v ← load_uint 4 index_buffer index; from_option (float_to_uint32 v)
  end.

(** [count] is [uint32_t]. *)
Definition DrawElements (context : HContext) (prim_type : PrimitiveType)
    (count : Z) (type : Type_) (index_buffer : ptr) : M unit :=
  assert (context_ok context);;
  assert (negb (is_null index_buffer));;
  for_loop MAX_VERTEX_STREAM_COUNT (fun i =>
    vs ← get_stream i;
    if 0 <? VertexStream.m_Size vs then
      p ← new_array (wrap32 (VertexStream.m_Size vs * count));
      set_stream i (VertexStream.set_Buffer p vs)
    else mret tt);;
  for_loop (Z.to_nat count) (fun i =>
    index ← GetIndex type index_buffer (Z.of_nat i);
    for_loop MAX_VERTEX_STREAM_COUNT (fun j =>
      vs ← get_stream j;
      if 0 <? VertexStream.m_Size vs then
        memcpy (ptr_add (VertexStream.m_Buffer vs)
                        (wrap32 (Z.of_nat i * VertexStream.m_Size vs)))
               (ptr_add (VertexStream.m_Source vs)
                        (wrap32 (index * VertexStream.m_Stride vs)))
               (VertexStream.m_Size vs)
      else mret tt)).

(** *** Viewport, textures and render targets *)

(** [width] and [height] are [int]. *)
Definition SetViewport (context : HContext) (width height : Z) : M unit :=
  assert (context_ok context);;
  modify_device (Device.set_Display (wrap32 width) (wrap32 height));;
  d ← get_device;
  delete_planes (Device.m_FrameBuffer d);;
  fb ← new_planes (Device.m_DisplayWidth d) (Device.m_DisplayHeight d);
  modify_device (Device.set_FrameBuffer fb).

Definition load_Texture (h : HTexture) : M Texture.t :=
  b ← from_option h;
  o ← load_object b;
  match o with
  | TextureObj tex => mret tex
  | _ => undefined
  end.

Definition NewTexture : M HTexture :=
  tex ← new (TextureObj (Texture.mk Null TEXTURE_FORMAT_LUMINANCE 0 0));
  mret (Some tex).

(** [mip_map], [width] and [height] are [uint16_t]; the size of the
    storage is computed in [int]. *)
Definition SetTextureData (texture : HTexture) (mip_map : Z) (width height : Z)
    (texture_format : TextureFormat) (data : ptr) (data_size : Z) : M unit :=
  assert (handle_ok texture);;
  tex ← load_Texture texture;
  (if is_null (Texture.m_Data tex) then mret tt
   else delete_array (Texture.m_Data tex));;
  let n := TEXTURE_FORMAT_SIZE texture_format * width * height in
  (if n <? 2 ^ 31 then mret tt else undefined);;
  p ← new_array n;
  b ← from_option texture;
  store_object b (TextureObj (Texture.mk p texture_format width height));;
  memcpy p data data_size.

(** [width] and [height] are [uint32_t]. *)
Definition NewRenderTarget (width height : Z) (format : TextureFormat)
  : M HRenderTarget :=
  rt ← new (RenderTargetObj (RenderTarget.mk None FrameBuffer.zero));
  tex ← NewTexture;
  store_object rt (RenderTargetObj (RenderTarget.mk tex FrameBuffer.zero));;
  SetTextureData tex 0 (wrap16 width) (wrap16 height) format Null 0;;
  fb ← new_planes width height;
  store_object rt (RenderTargetObj (RenderTarget.mk tex fb));;
  mret (Some rt).

Definition EnableRenderTarget (context : HContext) (rendertarget : HRenderTarget)
  : M unit :=
  assert (context_ok context);;
  assert (handle_ok rendertarget);;
  rt ← from_option rendertarget;
  modify_device (Device.set_RenderBuffer (ref_RenderTarget rt)).

Definition DisableRenderTarget (context : HContext) (rendertarget : HRenderTarget)
  : M unit :=
  assert (context_ok context);;
  assert (handle_ok rendertarget);;
  modify_device (Device.set_RenderBuffer ref_FrameBuffer).

(** The state before the first call: the zeroed static device and an
    empty free store. *)
Definition initial_State (register_count : nat) : State :=
  mkState (Device.static register_count) [].

(** ** Reading the free store

    The loads of the code do not change the state; these are their
    values as functions of the heap. *)

Definition read_array (h : list (option object)) (b : block) : option (list memval) :=
  match h !! b with
  | Some (Some (Array cells)) => Some cells
  | _ => None
  end.

Definition read_cells (h : list (option object)) (p : ptr) (n : Z)
  : option (list memval) :=
  match p with
  | Null => None
  | Ptr b ofs =>
      match read_array h b with
      | Some cells => array_load cells ofs n
      | None => None
      end
  end.

Definition read_bytes (h : list (option object)) (p : ptr) (n : Z)
  : option (list byte) :=
  match read_cells h p n with
  | Some vs => proj_bytes vs
  | None => None
  end.

Definition read_uint (h : list (option object)) (size : Z) (p : ptr) (index : Z)
  : option Z :=
  match read_bytes h (ptr_add p (size * index)) size with
  | Some bs => Some (decode_le bs)
  | None => None
  end.

Definition lift {A : Type} (o : option A) (st : State) : outcome (A * State) :=
  match o with
  | Some a => Done (a, st)
  | None => Undefined
  end.

(** ** Index element types *)

Definition is_signed (t : Type_) : bool :=
  match t with
  | TYPE_BYTE | TYPE_SHORT | TYPE_INT => true
  | _ => false
  end.

(** Width in bits of an index element of type [t]. *)
Definition index_bits (t : Type_) : Z := 8 * TYPE_SIZE t.

(** A one-byte index buffer holding the pattern 0xFF, and a two-byte one
    holding 0xFFFF. *)
Definition state_ff : State :=
  mkState (Device.static 0)
          [Some (Array (inj_bytes [xff])); Some (Array (inj_bytes [xff; xff]))].

(** ** Stream slots *)

Definition streams (st : State) : list VertexStream.t :=
  Device.m_VertexStreams (gdevice st).

(** The state with slot [i] of the device replaced. *)
Definition with_stream (i : nat) (s : VertexStream.t) (st : State) : State :=
  mkState (Device.set_VertexStreams (<[i := s]> (streams st)) (gdevice st))
          (heap st).

(** A device whose slot 0 is bound over block 0 and holds the compaction
    buffer of a draw in block 1. *)
Definition state_bound : State :=
  with_stream 0 (VertexStream.mk (Ptr 0%nat 0) (Ptr 1%nat 0) 4 4)
    (mkState (Device.static 0)
       [Some (Array (inj_bytes [x01; x02; x03; x04]));
        Some (Array (inj_bytes [x01; x02; x03; x04]))]).

(** ** Vertex and index buffers, uniformly

    [VertexBuffer] and [IndexBuffer] have the same fields and their
    functions the same code; a [BufferKind] selects one of the two. *)

Inductive BufferKind : Type :=
| vertex_buffer
| index_buffer.

Definition buffer_object (k : BufferKind) (buf copy : ptr) (size : Z) : object :=
  match k with
  | vertex_buffer => VertexBufferObj (VertexBuffer.mk buf copy size)
  | index_buffer => IndexBufferObj (IndexBuffer.mk buf copy size)
  end.

Definition map_buffer (k : BufferKind) : handle -> BufferAccess -> M ptr :=
  match k with
  | vertex_buffer => MapVertexBuffer
  | index_buffer => MapIndexBuffer
  end.

Definition unmap_buffer (k : BufferKind) : handle -> M bool :=
  match k with
  | vertex_buffer => UnmapVertexBuffer
  | index_buffer => UnmapIndexBuffer
  end.

Definition delete_buffer (k : BufferKind) : handle -> M unit :=
  match k with
  | vertex_buffer => DeleteVertexBuffer
  | index_buffer => DeleteIndexBuffer
  end.

(** The heap after a map: one more block holding the snapshot. *)
Definition mapped_heap (h : list (option object)) (b : block) (o : object)
    (cells : list memval) : list (option object) :=
  <[b := Some o]> (h ++ [Some (Array cells)]).

(** Four bytes of caller data in block 0. *)
Definition state_data : State :=
  mkState (Device.static 0) [Some (Array (inj_bytes [x01; x02; x03; x04]))].

(** A buffer of four bytes in blocks 0 (object) and 1 (storage), with a
    map outstanding whose snapshot is block 2. *)
Definition state_mapped (k : BufferKind) : State :=
  mkState (Device.static 0)
    [Some (buffer_object k (Ptr 1%nat 0) (Ptr 2%nat 0) 4);
     Some (Array (inj_bytes [x01; x02; x03; x04]));
     Some (Array (inj_bytes [x01; x02; x03; x04]))].

(** The same buffer with no map outstanding. *)
Definition state_buffer (k : BufferKind) : State :=
  mkState (Device.static 0)
    [Some (buffer_object k (Ptr 1%nat 0) Null 4);
     Some (Array (inj_bytes [x01; x02; x03; x04]))].

(** ** Vertex declarations *)

(** Bytes of one element: component count times the size of its type. *)
Definition element_bytes (e : VertexElement.t) : Z :=
  VertexElement.m_Size e * TYPE_SIZE (VertexElement.m_Type e).

(** Sum of the element bytes of a list of slots. *)
Definition vertex_bytes (elements : list VertexElement.t) : Z :=
  foldr (fun e acc => element_bytes e + acc) 0 elements.

Definition non_empty (e : VertexElement.t) : bool := 0 <? VertexElement.m_Size e.

(** Sum of the element bytes of the non-empty slots with ids below [i]. *)
Definition offset_before (elements : list VertexElement.t) (i : nat) : Z :=
  vertex_bytes (filter (fun e => non_empty e = true) (take i elements)).

(** What enabling a declaration over the storage [base] records in the
    slot of the element [e] at slot [i]. *)
Definition enabled_stream (elements : list VertexElement.t) (base : ptr)
    (i : nat) (e : VertexElement.t) : VertexStream.t :=
  VertexStream.mk
    (ptr_add base (wrap32 (offset_before elements i)))
    Null
    (wrap16 (wrap16 (VertexElement.m_Size e) * TYPE_SIZE (VertexElement.m_Type e)))
    (wrap16 (vertex_bytes elements)).

(** A declaration whose single element, 16384 floats in slot 0, is
    65536 bytes wide. *)
Definition wide_element : list VertexElement.t :=
  [VertexElement.mk 0 16384 TYPE_FLOAT].

(** Position (3 floats, slot 0) and colour (4 unsigned bytes, slot 1). *)
Definition position_colour : list VertexElement.t :=
  [VertexElement.mk 0 3 TYPE_FLOAT; VertexElement.mk 1 4 TYPE_UNSIGNED_BYTE].

(** The table of a declaration made from the elements [l], which fill
    slots [0 .. length l - 1]. *)
Definition declared (l : list VertexElement.t) : list VertexElement.t :=
  l ++ replicate (MAX_VERTEX_STREAM_COUNT - length l) VertexElement.zero.

(** A declaration (block 0) and a vertex buffer of 48 bytes (blocks 1
    and 2) on a device with every slot disabled. *)
Definition state_declared (l : list VertexElement.t) : State :=
  mkState (Device.static 0)
    [Some (VertexDeclarationObj (VertexDeclaration.mk (declared l)));
     Some (VertexBufferObj (VertexBuffer.mk (Ptr 2%nat 0) Null 48));
     Some (Array (replicate 48 Undef))].

(** ** Planes *)

(** The plane set [gdevice.m_RenderBuffer] points to. *)
Definition active_planes (st : State) : option FrameBuffer.t :=
  match Device.m_RenderBuffer (gdevice st) with
  | ref_null => None
  | ref_FrameBuffer => Some (Device.m_FrameBuffer (gdevice st))
  | ref_RenderTarget b =>
      match heap st !! b with
      | Some (Some (RenderTargetObj rt)) => Some (RenderTarget.m_RenderBuffer rt)
      | _ => None
      end
  end.

(** The word [Clear] writes for the components [red green blue alpha]. *)
Definition packed_colour (red green blue alpha : Z) : Z :=
  wrap32 (Z.lor (Z.lor (Z.lor (Z.shiftl red 24) (Z.shiftl green 16))
                       (Z.shiftl blue 8)) alpha).

(** Number of pixel words [Clear] writes: the display's. *)
Definition display_pixels (st : State) : Z :=
  wrap32 (Device.m_DisplayWidth (gdevice st) * Device.m_DisplayHeight (gdevice st)).

Definition planes_of (fb : FrameBuffer.t) : list ptr :=
  [FrameBuffer.m_ColorBuffer fb; FrameBuffer.m_DepthBuffer fb;
   FrameBuffer.m_AccumBuffer fb; FrameBuffer.m_StencilBuffer fb].

(** The colour plane is requested, the depth and stencil planes are
    not. *)
Definition colour_only (flags : Z) : Prop :=
  Z.land flags CLEAR_COLOUR_BUFFER <> 0 /\
  Z.land flags CLEAR_DEPTH_BUFFER = 0 /\
  Z.land flags CLEAR_STENCIL_BUFFER = 0.

(** The state a sequence of calls leaves. *)
Definition state_after {A : Type} (m : M A) (st : State) : State :=
  match m st with
  | Done (_, st') => st'
  | _ => st
  end.

(** A device opened at 2 x 2 and a render target of 2 x 2: the default
    planes are blocks 0 to 3, the target is block 4, its texture blocks
    5 and 6, its planes blocks 7 to 10. *)
Definition state_target : State :=
  state_after
    (NewDevice (Some (CreateDeviceParams.mk 2 2));;
     NewRenderTarget 2 2 TEXTURE_FORMAT_RGBA)
    (initial_State 0).

(** Clearing a [tw] x [th] render target on a device opened at
    [dw] x [dh]. *)
Definition clear_target (dw dh tw th : Z) (red green blue alpha : Z)
  : M HRenderTarget :=
  NewDevice (Some (CreateDeviceParams.mk dw dh));;
  rt ← NewRenderTarget tw th TEXTURE_FORMAT_RGBA;
  EnableRenderTarget GetContext rt;;
  Clear GetContext CLEAR_COLOUR_BUFFER red green blue alpha 0 0;;
  mret rt.

(** ** Drawing *)

(** The value [GetIndex] decodes, as a function of the heap. *)
Definition read_index (h : list (option object)) (type : Type_)
    (index_buffer : ptr) (index : Z) : option Z :=
  match read_uint h (TYPE_SIZE type) index_buffer index with
  | Some v =>
      match type with
      | TYPE_BYTE | TYPE_SHORT | TYPE_INT => Some (wrap32 (signed (index_bits type) v))
      | TYPE_UNSIGNED_BYTE | TYPE_UNSIGNED_SHORT | TYPE_UNSIGNED_INT => Some (wrap32 v)
      | TYPE_FLOAT => float_to_uint32 v
      end
  | None => None
  end.

(** A stream is gathered by a draw when its recorded size is positive. *)
Definition active (s : VertexStream.t) : Prop := 0 < VertexStream.m_Size s.

(** What a draw may have done to the slot that held [s]: nothing, or
    (only if the stream is active) replaced its compaction buffer by a
    block that did not exist before. *)
Definition slot_drawn (n0 : nat) (s s' : VertexStream.t) : Prop :=
  s' = s \/
  (active s /\ exists b, s' = VertexStream.set_Buffer (Ptr b 0) s /\ (n0 <= b)%nat).

(** The frame of a draw, relative to the state [st] it started in. *)
Record draw_frame (st s : State) : Prop := mk_draw_frame
  { df_device : gdevice s = Device.set_VertexStreams (streams s) (gdevice st);
    df_length : length (streams s) = length (streams st);
    df_heap_length : (length (heap st) <= length (heap s))%nat;
    df_heap : forall b, (b < length (heap st))%nat -> heap s !! b = heap st !! b;
    df_slots : forall j sj, streams st !! j = Some sj ->
               exists sj', streams s !! j = Some sj' /\
                           slot_drawn (length (heap st)) sj sj' }.

(** The active slots below [k] have their compaction buffer in a block
    allocated by this draw. *)
Definition buffers_fresh (n0 k : nat) (s : State) : Prop :=
  forall j sj, (j < k)%nat -> streams s !! j = Some sj -> active sj ->
               exists b, VertexStream.m_Buffer sj = Ptr b 0 /\ (n0 <= b)%nat.


(** Row [i] of the compaction buffer [cells] of the stream that was
    [sj] at the start of the draw holds the element the [i]-th index
    selects in the stream's source. *)
Definition row_gathered (st : State) (type : Type_) (index_buffer : ptr)
    (sj : VertexStream.t) (cells : list memval) (i : nat) : Prop :=
  forall idx,
    read_index (heap st) type index_buffer (Z.of_nat i) = Some idx ->
    array_load cells (Z.of_nat i * VertexStream.m_Size sj) (VertexStream.m_Size sj)
    = read_cells (heap st)
        (ptr_add (VertexStream.m_Source sj) (idx * VertexStream.m_Stride sj))
        (VertexStream.m_Size sj).

(** The state of a draw started in [st]: the active slots below [k]
    have their new compaction buffer, of which slot [j] has its first
    [rows j] rows gathered. *)
Record gathering (st : State) (count : Z) (type : Type_) (index_buffer : ptr)
    (k : nat) (rows : nat -> nat) (s : State) : Prop := mk_gathering
  { g_device : gdevice s = Device.set_VertexStreams (streams s) (gdevice st);
    g_length : length (streams s) = length (streams st);
    g_heap : forall b, (b < length (heap st))%nat -> heap s !! b = heap st !! b;
    g_inactive : forall j sj,
        streams st !! j = Some sj -> (k <= j)%nat \/ ~ active sj ->
        streams s !! j = Some sj;
    g_active : forall j sj,
        (j < k)%nat -> streams st !! j = Some sj -> active sj ->
        exists b cells,
          streams s !! j = Some (VertexStream.set_Buffer (Ptr b 0) sj) /\
          (length (heap st) <= b)%nat /\
          heap s !! b = Some (Some (Array cells)) /\
          Z.of_nat (length cells) = VertexStream.m_Size sj * count /\
          forall i, (i < rows j)%nat ->
                    row_gathered st type index_buffer sj cells i;
    g_distinct : forall j j' sj sj',
        j <> j' -> (j < k)%nat -> (j' < k)%nat ->
        streams s !! j = Some sj -> streams s !! j' = Some sj' ->
        active sj -> active sj' ->
        VertexStream.m_Buffer sj <> VertexStream.m_Buffer sj' }.

(** *** The gather example of the spec

    Three interleaved vertices of 16 bytes, position (3 floats) then
    colour (4 unsigned bytes), with bytes 1, 2, ..., 48; and an index
    buffer of three unsigned 16-bit indices. *)

Definition bytes_range (first n : nat) : list byte :=
  map (fun k => byte_of_Z (Z.of_nat k)) (seq first n).

Definition vertex_data : list byte := bytes_range 1 48.

Definition position_of (v : nat) : list byte := bytes_range (16 * v + 1) 12.
Definition colour_of (v : nat) : list byte := bytes_range (16 * v + 13) 4.

Definition indices_012 : list byte := [x00; x00; x01; x00; x02; x00].
Definition indices_201 : list byte := [x02; x00; x00; x00; x01; x00].

(** Caller data in blocks 0 (vertices) and 1 (indices); a vertex buffer
    (blocks 2 and 3) and the declaration (block 4) enabled over it. *)
Definition state_draw (indices : list byte) : State :=
  state_after
    (vb ← NewVertexBuffer 48 (Ptr 0%nat 0) 0;
     vd ← NewVertexDeclaration position_colour 2;
     EnableVertexDeclaration GetContext vd vb)
    (mkState (Device.static 0)
       [Some (Array (inj_bytes vertex_data)); Some (Array (inj_bytes indices))]).

(** The state after drawing the three indices. *)
Definition state_drawn (indices : list byte) : State :=
  state_after
    (DrawElements GetContext 0 3 TYPE_UNSIGNED_SHORT (Ptr 1%nat 0))
    (state_draw indices).

(** ** The other entry points of null_device.cpp *)

(** [HDevice]: null, or the address of the global [gdevice]. *)
Inductive HDevice : Type :=
| device_null
| device_global.

(** [DeleteDevice] does not look at its handle: it works on the global
    [gdevice].  The loop over the stream slots clears the two pointers
    of each slot and nothing else. *)
Definition DeleteDevice (device : HDevice) : M unit :=
  modify_device (Device.set_Opened 0);;
  d ← get_device;
  delete_planes (Device.m_FrameBuffer d);;
  for_loop MAX_VERTEX_STREAM_COUNT (fun i =>
    vs ← get_stream i;
    set_stream i (VertexStream.mk Null Null
                    (VertexStream.m_Size vs) (VertexStream.m_Stride vs))).

Definition Flip : M unit := mret tt.

(** *** Updates of vertex and index buffers

    [size] and [offset] are [uint32_t]. *)

Definition SetVertexBufferData (buffer : HVertexBuffer) (size : Z) (data : ptr)
    (buffer_usage : BufferUsage) : M unit :=
  vb ← load_VertexBuffer buffer;
  memcpy (VertexBuffer.m_Buffer vb) data size.

Definition SetVertexBufferSubData (buffer : HVertexBuffer) (offset size : Z)
    (data : ptr) : M unit :=
  vb ← load_VertexBuffer buffer;
  memcpy (ptr_add (VertexBuffer.m_Buffer vb) offset) data size.

Definition SetIndexBufferData (buffer : HIndexBuffer) (size : Z) (data : ptr)
    (buffer_usage : BufferUsage) : M unit :=
  ib ← load_IndexBuffer buffer;
  memcpy (IndexBuffer.m_Buffer ib) data size.

Definition SetIndexBufferSubData (buffer : HIndexBuffer) (offset size : Z)
    (data : ptr) : M unit :=
  ib ← load_IndexBuffer buffer;
  memcpy (ptr_add (IndexBuffer.m_Buffer ib) offset) data size.

(** [delete vertex_declaration]: nothing for a null pointer. *)
Definition DeleteVertexDeclaration (vertex_declaration : HVertexDeclaration)
  : M unit :=
  match vertex_declaration with
  | None => mret tt
  | Some b =>
      o ← load_object b;
      match o with
      | VertexDeclarationObj _ => delete b
      | _ => undefined
      end
  end.

(** *** Draw calls that gather nothing *)

Definition DrawRangeElements (context : HContext) (prim_type : PrimitiveType)
    (start count : Z) (type : Type_) (index_buffer : HIndexBuffer) : M unit :=
  assert (context_ok context).

Definition Draw (context : HContext) (prim_type : PrimitiveType)
    (first count : Z) : M unit :=
  assert (context_ok context).

(** *** Programs and constant registers

    A program handle is the address of the program's bytes, cast to
    [uint32_t]. *)

Definition HVertexProgram := ptr.
Definition HFragmentProgram := ptr.

Definition NewVertexProgram (program : ptr) (program_size : Z) : M HVertexProgram :=
  assert (negb (is_null program));;
  p ← new_array program_size;
  memcpy p program program_size;;
  mret p.

Definition NewFragmentProgram (program : ptr) (program_size : Z)
  : M HFragmentProgram :=
  assert (negb (is_null program));;
  p ← new_array program_size;
  memcpy p program program_size;;
  mret p.

Definition DeleteVertexProgram (program : HVertexProgram) : M unit :=
  assert (negb (is_null program));;
  delete_array program.

Definition DeleteFragmentProgram (program : HFragmentProgram) : M unit :=
  assert (negb (is_null program));;
  delete_array program.

Definition SetVertexProgram (context : HContext) (program : HVertexProgram)
  : M unit :=
  assert (context_ok context);;
  modify_device (fun d =>
    Device.set_Programs program (Device.m_FragmentProgram d) d).

Definition SetFragmentProgram (context : HContext) (program : HFragmentProgram)
  : M unit :=
  assert (context_ok context);;
  modify_device (fun d =>
    Device.set_Programs (Device.m_VertexProgram d) program d).

(** [memcpy(&registers[base_register], data, size)] on a register bank,
    [data] being the caller's array of vectors and [size] a multiple of
    [sizeof(Vector4)].  Modelled from the spec: a [Vector4] is a
    4-component vector of floats, 16 bytes.  Copying nothing touches no
    memory; otherwise [size / 16] vectors are read from the start of
    [data] and written from register [base_register] on, and both
    ranges must lie inside their arrays. *)
Definition copy_registers (registers : list Vector4) (base_register : Z)
    (data : list Vector4) (size : Z) : option (list Vector4) :=
  if size =? 0 then Some registers
  else if (0 <=? base_register)
          && (base_register + size / 16 <=? Z.of_nat (length registers))
          && (size / 16 <=? Z.of_nat (length data))
  then Some (take (Z.to_nat base_register) registers
               ++ take (Z.to_nat (size / 16)) data
               ++ drop (Z.to_nat base_register + Z.to_nat (size / 16))%nat registers)
  else None.

(** [base_register] and [num_vectors] are [int]; the byte count
    [sizeof(Vector4) * num_vectors] is computed in [size_t]. *)
Definition SetFragmentConstant (context : HContext) (data : list Vector4)
    (base_register : Z) : M unit :=
  assert (context_ok context);;
  d ← get_device;
  assert (negb (is_null (Device.m_FragmentProgram d)));;
  regs ← from_option
           (copy_registers (Device.m_FragmentProgramRegisters d) base_register data 16);
  put_device (Device.set_Registers (Device.m_VertexProgramRegisters d) regs d).

Definition SetVertexConstantBlock (context : HContext) (data : list Vector4)
    (base_register num_vectors : Z) : M unit :=
  assert (context_ok context);;
  d ← get_device;
  assert (negb (is_null (Device.m_VertexProgram d)));;
  regs ← from_option
           (copy_registers (Device.m_VertexProgramRegisters d) base_register data
              (wrap32 (16 * num_vectors)));
  put_device (Device.set_Registers regs (Device.m_FragmentProgramRegisters d) d).

Definition SetFragmentConstantBlock (context : HContext) (data : list Vector4)
    (base_register num_vectors : Z) : M unit :=
  assert (context_ok context);;
  d ← get_device;
  assert (negb (is_null (Device.m_FragmentProgram d)));;
  regs ← from_option
           (copy_registers (Device.m_FragmentProgramRegisters d) base_register data
              (wrap32 (16 * num_vectors)));
  put_device (Device.set_Registers (Device.m_VertexProgramRegisters d) regs d).

(** *** Textures and render targets *)

Definition load_RenderTarget (h : HRenderTarget) : M RenderTarget.t :=
  b ← from_option h;
  o ← load_object b;
  match o with
  | RenderTargetObj rt => mret rt
  | _ => undefined
  end.

Definition SetTexture (context : HContext) (t : HTexture) : M unit :=
  assert (context_ok context);;
  assert (handle_ok t).

Definition DeleteTexture (t : HTexture) : M unit :=
  assert (handle_ok t);;
  tex ← load_Texture t;
  (if is_null (Texture.m_Data tex) then mret tt
   else delete_array (Texture.m_Data tex));;
  b ← from_option t;
  delete b.

Definition DeleteRenderTarget (rt : HRenderTarget) : M unit :=
  r ← load_RenderTarget rt;
  DeleteTexture (RenderTarget.m_Texture r);;
  delete_planes (RenderTarget.m_RenderBuffer r);;
  b ← from_option rt;
  delete b.

Definition GetRenderTargetTexture (rendertarget : HRenderTarget) : M HTexture :=
  r ← load_RenderTarget rendertarget;
  mret (RenderTarget.m_Texture r).

(** *** Render state

    The null device accepts the fixed-function state and records the
    write masks only. *)

Definition RenderState := Z.
Definition BlendFactor := Z.
Definition FaceType := Z.

Definition EnableState (context : HContext) (state : RenderState) : M unit :=
  assert (context_ok context).

Definition DisableState (context : HContext) (state : RenderState) : M unit :=
  assert (context_ok context).

Definition SetBlendFunc (context : HContext)
    (source_factor destinaton_factor : BlendFactor) : M unit :=
  assert (context_ok context).

Definition set_ColorMask (red green blue alpha : bool) (d : Device.t) : Device.t :=
  Device.mk (Device.m_VertexStreams d) (Device.m_VertexProgramRegisters d)
    (Device.m_FragmentProgramRegisters d)
    (Device.m_DisplayWidth d) (Device.m_DisplayHeight d) (Device.m_Opened d)
    (Device.m_FrameBuffer d) (Device.m_RenderBuffer d)
    (Device.m_VertexProgram d) (Device.m_FragmentProgram d)
    red green blue alpha
    (Device.m_DepthMask d) (Device.m_IndexMask d) (Device.m_StencilMask d).

Definition set_DepthMask (mask : bool) (d : Device.t) : Device.t :=
  Device.mk (Device.m_VertexStreams d) (Device.m_VertexProgramRegisters d)
    (Device.m_FragmentProgramRegisters d)
    (Device.m_DisplayWidth d) (Device.m_DisplayHeight d) (Device.m_Opened d)
    (Device.m_FrameBuffer d) (Device.m_RenderBuffer d)
    (Device.m_VertexProgram d) (Device.m_FragmentProgram d)
    (Device.m_RedMask d) (Device.m_GreenMask d) (Device.m_BlueMask d)
    (Device.m_AlphaMask d)
    mask (Device.m_IndexMask d) (Device.m_StencilMask d).

Definition set_IndexMask (mask : Z) (d : Device.t) : Device.t :=
  Device.mk (Device.m_VertexStreams d) (Device.m_VertexProgramRegisters d)
    (Device.m_FragmentProgramRegisters d)
    (Device.m_DisplayWidth d) (Device.m_DisplayHeight d) (Device.m_Opened d)
    (Device.m_FrameBuffer d) (Device.m_RenderBuffer d)
    (Device.m_VertexProgram d) (Device.m_FragmentProgram d)
    (Device.m_RedMask d) (Device.m_GreenMask d) (Device.m_BlueMask d)
    (Device.m_AlphaMask d)
    (Device.m_DepthMask d) mask (Device.m_StencilMask d).

Definition set_StencilMask (mask : Z) (d : Device.t) : Device.t :=
  Device.mk (Device.m_VertexStreams d) (Device.m_VertexProgramRegisters d)
    (Device.m_FragmentProgramRegisters d)
    (Device.m_DisplayWidth d) (Device.m_DisplayHeight d) (Device.m_Opened d)
    (Device.m_FrameBuffer d) (Device.m_RenderBuffer d)
    (Device.m_VertexProgram d) (Device.m_FragmentProgram d)
    (Device.m_RedMask d) (Device.m_GreenMask d) (Device.m_BlueMask d)
    (Device.m_AlphaMask d)
    (Device.m_DepthMask d) (Device.m_IndexMask d) mask.

Definition SetColorMask (context : HContext) (red green blue alpha : bool)
  : M unit :=
  assert (context_ok context);;
  modify_device (set_ColorMask red green blue alpha).

Definition SetDepthMask (context : HContext) (mask : bool) : M unit :=
  assert (context_ok context);;
  modify_device (set_DepthMask mask).

(** [mask] is [uint32_t]. *)
Definition SetIndexMask (context : HContext) (mask : Z) : M unit :=
  assert (context_ok context);;
  modify_device (set_IndexMask mask).

Definition SetStencilMask (context : HContext) (mask : Z) : M unit :=
  assert (context_ok context);;
  modify_device (set_StencilMask mask).

Definition SetCullFace (context : HContext) (face_type : FaceType) : M unit :=
  assert (context_ok context).

(** *** Window queries *)

(** Modelled from the spec: the window parameters are declared in
    graphics_device.h; null_device.cpp names one of them, the query
    "whether the device is currently open", and answers 0 for every
    other. *)
Inductive WindowParam : Type :=
| WINDOW_PARAM_OPENED
| WINDOW_PARAM_other (n : Z).

Definition GetWindowParam (param : WindowParam) : M Z :=
  d ← get_device;
  match param with
  | WINDOW_PARAM_OPENED => mret (Device.m_Opened d)
  | WINDOW_PARAM_other _ => mret 0
  end.

Definition GetWindowWidth : M Z :=
  d ← get_device; mret (Device.m_DisplayWidth d).

Definition GetWindowHeight : M Z :=
  d ← get_device; mret (Device.m_DisplayHeight d).

(** ** Buffer updates, uniformly *)

Definition new_buffer (k : BufferKind) : Z -> ptr -> BufferUsage -> M handle :=
  match k with
  | vertex_buffer => NewVertexBuffer
  | index_buffer => NewIndexBuffer
  end.

Definition set_buffer_data (k : BufferKind)
  : handle -> Z -> ptr -> BufferUsage -> M unit :=
  match k with
  | vertex_buffer => SetVertexBufferData
  | index_buffer => SetIndexBufferData
  end.

Definition set_buffer_sub_data (k : BufferKind) : handle -> Z -> Z -> ptr -> M unit :=
  match k with
  | vertex_buffer => SetVertexBufferSubData
  | index_buffer => SetIndexBufferSubData
  end.

(** A buffer of four bytes (blocks 0 and 1) and four bytes of caller
    data (block 2). *)
Definition state_buffer_data (k : BufferKind) : State :=
  mkState (Device.static 0)
    [Some (buffer_object k (Ptr 1%nat 0) Null 4);
     Some (Array (inj_bytes [x01; x02; x03; x04]));
     Some (Array (inj_bytes [x0a; x0b; x0c; x0d]))].

(** ** Unbinding *)

(** The slot [DisableVertexStream] leaves in place of [s]. *)
Definition disabled_stream (s : VertexStream.t) : VertexStream.t :=
  VertexStream.mk Null Null 0 (VertexStream.m_Stride s).

(** Slot [i] is filled by the declaration table [elements], and holds
    the stream [s] on the device. *)
Definition filled_slot (elements : list VertexElement.t) (st : State)
    (i : nat) (s : VertexStream.t) : Prop :=
  exists e, elements !! i = Some e /\ non_empty e = true /\
            streams st !! i = Some s.

(** The declaration of [state_declared], enabled and drawn once: slots
    0 and 1 hold compaction buffers in blocks 3 and 4. *)
Definition state_enabled_drawn : State :=
  state_after
    (EnableVertexDeclaration GetContext (Some 0%nat) (Some 1%nat);;
     DrawElements GetContext 0 0 TYPE_UNSIGNED_SHORT (Ptr 2%nat 0))
    (state_declared position_colour).

(** ** Planes, generally *)

(** Block [b] is a live plane of at least [pixels] 32-bit words. *)
Definition plane_holds (h : list (option object)) (b : block) (pixels : Z) : Prop :=
  exists cells, h !! b = Some (Some (Array cells)) /\
                4 * pixels <= Z.of_nat (length cells).

(** What [Clear] run in [st] leaves in the plane of block [b]: every
    pixel word of the display is [v] when [flag] is among [flags],
    and the block is as it was when it is not. *)
Definition plane_cleared (flags flag : Z) (v : Z) (b : block) (st st' : State)
  : Prop :=
  if Z.land flags flag =? 0 then heap st' !! b = heap st !! b
  else forall i, 0 <= i < display_pixels st ->
                 read_uint (heap st') 4 (Ptr b 0) i = Some (wrap32 v).

(** The heap with the blocks [bs] freed. *)
Definition free_blocks (bs : list block) (h : list (option object))
  : list (option object) :=
  foldr (fun b h => <[b := None]> h) h bs.

(** The four blocks of planes that [new_planes] made. *)
Definition plane_blocks (fb : FrameBuffer.t) : list block :=
  omap (fun p => match p with Ptr b _ => Some b | Null => None end) (planes_of fb).

(** [n] blocks of [size] indeterminate bytes. *)
Definition fresh_arrays (n : nat) (size : Z) : list (option object) :=
  replicate n (Some (Array (replicate (Z.to_nat size) Undef))).

(** The planes [new_planes] allocates on a heap of [n] blocks. *)
Definition planes_at (n : nat) : FrameBuffer.t :=
  FrameBuffer.mk (Ptr n 0) (Ptr (S n) 0) (Ptr (S (S n)) 0) (Ptr (S (S (S n))) 0).

(** The four planes of [fb] are live arrays in four different blocks,
    each pointed to at its start. *)
Definition planes_live (h : list (option object)) (fb : FrameBuffer.t) : Prop :=
  exists c d a s,
    fb = FrameBuffer.mk (Ptr c 0) (Ptr d 0) (Ptr a 0) (Ptr s 0) /\
    NoDup [c; d; a; s] /\
    forall b, b ∈ [c; d; a; s] -> exists cells, h !! b = Some (Some (Array cells)).

(** The device [NewDevice] leaves for a display of [width] x [height],
    with its planes in the four blocks from [n] on: the slots and
    registers are zeroed, no program is bound, the default framebuffer
    is active; the write masks are not touched. *)
Definition opened_device (width height : Z) (n : nat) (d : Device.t) : Device.t :=
  Device.mk
    (map (fun _ => VertexStream.zero) (Device.m_VertexStreams d))
    (map (fun _ => mkVector4 0 0 0 0) (Device.m_VertexProgramRegisters d))
    (map (fun _ => mkVector4 0 0 0 0) (Device.m_FragmentProgramRegisters d))
    width height 1 (planes_at n) ref_FrameBuffer Null Null
    (Device.m_RedMask d) (Device.m_GreenMask d) (Device.m_BlueMask d)
    (Device.m_AlphaMask d) (Device.m_DepthMask d) (Device.m_IndexMask d)
    (Device.m_StencilMask d).

(** At least one of the three planes is requested. *)
Definition requests_plane (flags : Z) : Prop :=
  Z.land flags CLEAR_COLOUR_BUFFER <> 0 \/
  Z.land flags CLEAR_DEPTH_BUFFER <> 0 \/
  Z.land flags CLEAR_STENCIL_BUFFER <> 0.

(** The slot [DeleteDevice] leaves in place of [s]: the two pointers
    are cleared, size and stride stay. *)
Definition closed_stream (s : VertexStream.t) : VertexStream.t :=
  VertexStream.mk Null Null (VertexStream.m_Size s) (VertexStream.m_Stride s).

(** ** Programs and constants, uniformly *)

Inductive ProgramKind : Type :=
| vertex_program
| fragment_program.

Definition new_program (k : ProgramKind) : ptr -> Z -> M ptr :=
  match k with
  | vertex_program => NewVertexProgram
  | fragment_program => NewFragmentProgram
  end.

Definition delete_program (k : ProgramKind) : ptr -> M unit :=
  match k with
  | vertex_program => DeleteVertexProgram
  | fragment_program => DeleteFragmentProgram
  end.

Definition set_program (k : ProgramKind) : HContext -> ptr -> M unit :=
  match k with
  | vertex_program => SetVertexProgram
  | fragment_program => SetFragmentProgram
  end.

Definition set_constant_block (k : ProgramKind)
  : HContext -> list Vector4 -> Z -> Z -> M unit :=
  match k with
  | vertex_program => SetVertexConstantBlock
  | fragment_program => SetFragmentConstantBlock
  end.

(** The program of kind [k] bound on the device, and its register
    bank. *)
Definition bound_program (k : ProgramKind) (d : Device.t) : ptr :=
  match k with
  | vertex_program => Device.m_VertexProgram d
  | fragment_program => Device.m_FragmentProgram d
  end.

Definition registers (k : ProgramKind) (d : Device.t) : list Vector4 :=
  match k with
  | vertex_program => Device.m_VertexProgramRegisters d
  | fragment_program => Device.m_FragmentProgramRegisters d
  end.

Definition other_kind (k : ProgramKind) : ProgramKind :=
  match k with
  | vertex_program => fragment_program
  | fragment_program => vertex_program
  end.

(** A device with four registers per bank and a vertex program bound
    to block 0. *)
Definition state_program : State :=
  mkState (Device.set_Programs (Ptr 0%nat 0) Null (Device.static 4))
          [Some (Array (inj_bytes [x01; x02]))].

(** ** Drawing again *)

(** The state after a second draw of the same three indices. *)
Definition state_drawn_twice (indices : list byte) : State :=
  state_after
    (DrawElements GetContext 0 3 TYPE_UNSIGNED_SHORT (Ptr 1%nat 0))
    (state_drawn indices).

(** The rows that a draw of three [uint16_t] indices over the example
    vertex data leaves in the compaction buffers [p] (positions) and
    [c] (colours), for the vertices [v0], [v1], [v2]. *)
Definition gathered_rows (st' : State) (p c : ptr) (v0 v1 v2 : nat) : Prop :=
  load_cells (ptr_add p 0) 12 st' = Done (inj_bytes (position_of v0), st') /\
  load_cells (ptr_add p 12) 12 st' = Done (inj_bytes (position_of v1), st') /\
  load_cells (ptr_add p 24) 12 st' = Done (inj_bytes (position_of v2), st') /\
  load_cells (ptr_add c 0) 4 st' = Done (inj_bytes (colour_of v0), st') /\
  load_cells (ptr_add c 4) 4 st' = Done (inj_bytes (colour_of v1), st') /\
  load_cells (ptr_add c 8) 4 st' = Done (inj_bytes (colour_of v2), st').

(** ** Render targets smaller than the display *)

(** A device opened at [width] x [height] and nothing else. *)
Definition state_opened (width height : Z) : State :=
  state_after (NewDevice (Some (CreateDeviceParams.mk width height)))
              (initial_State 0).

(** * Properties *)

(** ** Runs *)

Lemma run_bind {A B : Type} (m : M A) (f : A -> M B) (st : State) :
  (m ≫= f) st =
  match m st with
  | Done (a, st') => f a st'
  | Abort => Abort
  | Undefined => Undefined
  end.
Proof. reflexivity. Qed.

Lemma run_ret {A : Type} (a : A) (st : State) : (mret a : M A) st = Done (a, st).
Proof. reflexivity. Qed.

Lemma bind_Done_inv {A B : Type} (m : M A) (f : A -> M B) st r :
  (m ≫= f) st = Done r ->
  exists a st', m st = Done (a, st') /\ f a st' = Done r.
Proof.
  rewrite run_bind. destruct (m st) as [[a st']| |]; try discriminate.
  eauto.
Qed.

Lemma bind_Done {A B : Type} (m : M A) (f : A -> M B) st a st' :
  m st = Done (a, st') -> (m ≫= f) st = f a st'.
Proof. intros H. rewrite run_bind, H. reflexivity. Qed.

(** Run the calls at the head of a computation. *)
Ltac run :=
  repeat (progress (unfold mbind, mret;
                    cbn [M_bind M_ret assert undefined from_option lift
                         context_ok handle_ok is_null negb andb])).

Lemma M_bind_Done {A B : Type} (m : M A) (f : A -> M B) st a st' :
  m st = Done (a, st') -> M_bind A B f m st = f a st'.
Proof. intros H. unfold M_bind. rewrite H. reflexivity. Qed.

Lemma M_bind_assoc {A B C : Type} (m : M A) (f : A -> M B) (g : B -> M C) st :
  M_bind B C g (M_bind A B f m) st
  = M_bind A C (fun x => M_bind B C g (f x)) m st.
Proof.
  unfold M_bind. destruct (m st) as [[a st']| |]; reflexivity.
Qed.

(** Run a call whose result [H] gives. *)
Ltac step H := rewrite ?M_bind_assoc; rewrite (M_bind_Done _ _ _ _ _ H); run.

Lemma from_option_Done {A : Type} (o : option A) st r :
  from_option o st = Done r <-> exists a, o = Some a /\ r = (a, st).
Proof.
  destruct o; cbn; split.
  - intros [= <-]. eauto.
  - intros (? & [= <-] & ->). reflexivity.
  - discriminate.
  - intros (? & ? & _). discriminate.
Qed.

Lemma assert_Done (b : bool) st r :
  assert b st = Done r <-> b = true /\ r = (tt, st).
Proof.
  unfold assert. destruct b; split.
  - intros [= <-]. auto.
  - intros [_ ->]. reflexivity.
  - discriminate.
  - intros [? _]. discriminate.
Qed.

(** ** Integers and bytes *)

Lemma wrap32_small (x : Z) : 0 <= x < 2 ^ 32 -> wrap32 x = x.
Proof. intros H. unfold wrap32, wrap. apply Z.mod_small. assumption. Qed.

Lemma wrap16_small (x : Z) : 0 <= x < 2 ^ 16 -> wrap16 x = x.
Proof. intros H. unfold wrap16, wrap. apply Z.mod_small. assumption. Qed.

Lemma wrap32_range (x : Z) : 0 <= wrap32 x < 2 ^ 32.
Proof. unfold wrap32, wrap. apply Z.mod_pos_bound. lia. Qed.

Lemma wrap16_range (x : Z) : 0 <= wrap16 x < 2 ^ 16.
Proof. unfold wrap16, wrap. apply Z.mod_pos_bound. lia. Qed.

Lemma Z_of_byte_range (b : byte) : 0 <= Z_of_byte b < 256.
Proof.
  unfold Z_of_byte. pose proof (Byte.to_N_bounded b). lia.
Qed.

Lemma decode_le_range (bs : list byte) :
  0 <= decode_le bs < 2 ^ (8 * Z.of_nat (length bs)).
Proof.
  induction bs as [|b bs IH]; cbn [decode_le length].
  - cbn. lia.
  - pose proof (Z_of_byte_range b).
    replace (8 * Z.of_nat (S (length bs))) with (8 + 8 * Z.of_nat (length bs)) by lia.
    rewrite Z.pow_add_r by lia. change (2 ^ 8) with 256. lia.
Qed.

Lemma testbit_above (w raw k : Z) :
  0 <= raw < 2 ^ w -> w <= k -> Z.testbit raw k = false.
Proof.
  intros Hraw Hk.
  destruct (Z.eq_dec raw 0) as [->|]; [apply Z.bits_0|].
  destruct (Z.le_gt_cases 0 w).
  - apply Z.bits_above_log2; [lia|].
    apply Z.lt_le_trans with w; [apply Z.log2_lt_pow2; lia | lia].
  - rewrite Z.pow_neg_r in Hraw by lia. lia.
Qed.

(** Converting the value of a [w]-bit two's complement pattern to
    [uint32_t] copies the top bit of the pattern into bits [w..31]. *)
Lemma testbit_sign_extend (w raw k : Z) :
  0 < w <= 32 -> 0 <= raw < 2 ^ w -> 0 <= k < 32 ->
  Z.testbit (wrap32 (signed w raw)) k =
  (if k <? w then Z.testbit raw k else Z.testbit raw (w - 1)).
Proof.
  intros Hw Hraw Hk. unfold wrap32, wrap.
  rewrite Z.mod_pow2_bits_low by lia.
  unfold signed.
  assert (Hp : 2 ^ w = 2 * 2 ^ (w - 1)).
  { rewrite <- Z.pow_succ_r by lia. f_equal. lia. }
  assert (Hpos : 0 < 2 ^ (w - 1)) by (apply Z.pow_pos_nonneg; lia).
  destruct (Z.ltb_spec raw (2 ^ (w - 1))) as [Hlt|Hge].
  - assert (Hhigh : forall j, w - 1 <= j -> Z.testbit raw j = false).
    { intros j Hj. apply testbit_above with (w - 1); lia. }
    destruct (Z.ltb_spec k w); [reflexivity|].
    rewrite !Hhigh by lia. reflexivity.
  - assert (Htop : Z.testbit raw (w - 1) = true).
    { rewrite Z.testbit_true by lia.
      replace (raw / 2 ^ (w - 1)) with 1; [reflexivity|].
      apply Z.div_unique with (raw - 2 ^ (w - 1)); lia. }
    destruct (Z.ltb_spec k w).
    + rewrite <- (Z.mod_pow2_bits_low (raw - 2 ^ w) w k) by lia.
      rewrite <- (Z.mod_pow2_bits_low raw w k) by lia.
      f_equal. replace (raw - 2 ^ w) with (raw + (-1) * 2 ^ w) by lia.
      apply Z.mod_add. lia.
    + rewrite Htop. apply Z.bits_above_log2_neg; [lia|].
      destruct (Z.eq_dec (Z.pred (- (raw - 2 ^ w))) 0) as [->|Hne].
      * cbn. lia.
      * apply Z.lt_le_trans with (w - 1); [apply Z.log2_lt_pow2; lia | lia].
Qed.

(** ** Arrays *)

Lemma array_load_length cells ofs n vs :
  array_load cells ofs n = Some vs -> length vs = Z.to_nat n.
Proof.
  unfold array_load. case_match; [|discriminate]. intros [= <-].
  rewrite length_take, length_drop. lia.
Qed.

Lemma proj_bytes_length vs bs :
  proj_bytes vs = Some bs -> length bs = length vs.
Proof.
  revert bs. induction vs as [|[|b] vs IH]; cbn; intros bs H.
  - injection H as <-. reflexivity.
  - discriminate.
  - destruct (proj_bytes vs); [|discriminate]. injection H as <-.
    cbn. f_equal. auto.
Qed.

Lemma proj_inj_bytes bs : proj_bytes (inj_bytes bs) = Some bs.
Proof.
  induction bs as [|b bs IH]; cbn; [reflexivity|].
  unfold inj_bytes in IH. rewrite IH. reflexivity.
Qed.

(** ** Loads *)

Lemma load_cells_read p n st :
  load_cells p n st = lift (read_cells (heap st) p n) st.
Proof.
  destruct p as [|b ofs]; [reflexivity|].
  unfold load_cells, read_cells, read_array, load_object.
  rewrite !run_bind. cbn.
  destruct (heap st !! b) as [[[]|]|]; cbn; try reflexivity.
  destruct (array_load _ _ _); reflexivity.
Qed.

Lemma load_bytes_read p n st :
  load_bytes p n st = lift (read_bytes (heap st) p n) st.
Proof.
  unfold load_bytes, read_bytes. rewrite run_bind, load_cells_read.
  destruct (read_cells _ _ _); cbn; [|reflexivity].
  destruct (proj_bytes _); reflexivity.
Qed.

Lemma load_uint_read size p index st :
  load_uint size p index st = lift (read_uint (heap st) size p index) st.
Proof.
  unfold load_uint, read_uint. rewrite run_bind, load_bytes_read.
  destruct (read_bytes _ _ _); reflexivity.
Qed.

Lemma lift_Done {A : Type} (o : option A) st a st' :
  lift o st = Done (a, st') <-> o = Some a /\ st' = st.
Proof.
  destruct o; cbn; split.
  - intros [= <- <-]. auto.
  - intros [[= <-] ->]. reflexivity.
  - discriminate.
  - intros [? _]. discriminate.
Qed.

Lemma read_bytes_length h p n bs :
  read_bytes h p n = Some bs -> length bs = Z.to_nat n.
Proof.
  unfold read_bytes, read_cells. destruct p; [discriminate|].
  destruct (read_array h b); [|discriminate].
  destruct (array_load _ _ _) eqn:E; [|discriminate].
  intros H. apply proj_bytes_length in H. apply array_load_length in E. lia.
Qed.

Lemma read_uint_range h size p index v :
  0 <= size -> read_uint h size p index = Some v -> 0 <= v < 2 ^ (8 * size).
Proof.
  unfold read_uint. intros Hs.
  destruct (read_bytes _ _ _) eqn:E; [|discriminate]. intros [= <-].
  apply read_bytes_length in E. pose proof (decode_le_range l).
  replace (8 * size) with (8 * Z.of_nat (length l)) by lia. assumption.
Qed.

Lemma array_load_Some cells ofs n vs :
  array_load cells ofs n = Some vs <->
  0 <= ofs /\ 0 <= n /\ ofs + n <= Z.of_nat (length cells) /\
  vs = take (Z.to_nat n) (drop (Z.to_nat ofs) cells).
Proof.
  unfold array_load.
  destruct (Z.leb_spec 0 ofs), (Z.leb_spec 0 n),
    (Z.leb_spec (ofs + n) (Z.of_nat (length cells))); cbn;
    (split; [intros [= <-] || discriminate | intros (? & ? & ? & ->)]);
    try lia; auto.
Qed.

Lemma array_store_Some cells ofs vs cells' :
  array_store cells ofs vs = Some cells' <->
  0 <= ofs /\ ofs + Z.of_nat (length vs) <= Z.of_nat (length cells) /\
  cells' = take (Z.to_nat ofs) cells ++ vs
             ++ drop (Z.to_nat ofs + length vs)%nat cells.
Proof.
  unfold array_store.
  destruct (Z.leb_spec 0 ofs),
    (Z.leb_spec (ofs + Z.of_nat (length vs)) (Z.of_nat (length cells))); cbn;
    (split; [intros [= <-] || discriminate | intros (? & ? & ->)]);
    try lia; auto.
Qed.

Lemma array_store_length cells ofs vs cells' :
  array_store cells ofs vs = Some cells' -> length cells' = length cells.
Proof.
  intros (H1 & H2 & ->)%array_store_Some.
  rewrite !length_app, length_take, length_drop. lia.
Qed.

Lemma array_store_lookup cells ofs vs cells' (k : nat) :
  array_store cells ofs vs = Some cells' ->
  cells' !! k =
  if decide (Z.to_nat ofs <= k < Z.to_nat ofs + length vs)%nat
  then vs !! (k - Z.to_nat ofs)%nat
  else cells !! k.
Proof.
  intros (H1 & H2 & ->)%array_store_Some.
  assert (Hlen : length (take (Z.to_nat ofs) cells) = Z.to_nat ofs)
    by (rewrite length_take; lia).
  destruct (decide (k < Z.to_nat ofs)%nat) as [Hlt|Hge].
  - rewrite lookup_app_l by lia. rewrite lookup_take_lt by lia.
    case_decide; [lia|reflexivity].
  - rewrite lookup_app_r by lia. rewrite Hlen.
    destruct (decide (k - Z.to_nat ofs < length vs)%nat).
    + rewrite lookup_app_l by lia. case_decide; [reflexivity|lia].
    + rewrite lookup_app_r by lia. rewrite lookup_drop.
      case_decide; [lia|]. f_equal. lia.
Qed.

Lemma array_load_lookup cells ofs n vs (k : nat) :
  array_load cells ofs n = Some vs ->
  vs !! k = if decide (k < Z.to_nat n)%nat then cells !! (Z.to_nat ofs + k)%nat
            else None.
Proof.
  intros (H1 & H2 & H3 & ->)%array_load_Some.
  case_decide.
  - rewrite lookup_take_lt by lia. apply lookup_drop.
  - apply lookup_take_ge. lia.
Qed.

Lemma array_load_store_same cells ofs vs cells' :
  array_store cells ofs vs = Some cells' ->
  array_load cells' ofs (Z.of_nat (length vs)) = Some vs.
Proof.
  intros Hst. pose proof (array_store_length _ _ _ _ Hst) as Hlen.
  pose proof Hst as (H1 & H2 & _)%array_store_Some.
  apply array_load_Some. repeat split; try lia.
  apply list_eq. intros k.
  destruct (decide (k < length vs)%nat) as [Hk|Hk].
  - rewrite lookup_take_lt by lia. rewrite lookup_drop.
    rewrite (array_store_lookup _ _ _ _ _ Hst).
    case_decide; [|lia]. f_equal. lia.
  - rewrite lookup_take_ge by lia. apply lookup_ge_None. lia.
Qed.

Lemma array_load_store_other cells ofs vs cells' ofs' n :
  array_store cells ofs vs = Some cells' ->
  ofs' + n <= ofs \/ ofs + Z.of_nat (length vs) <= ofs' ->
  array_load cells' ofs' n = array_load cells ofs' n.
Proof.
  intros Hst Hdisj. pose proof (array_store_length _ _ _ _ Hst) as Hlen.
  pose proof Hst as (H1 & H2 & _)%array_store_Some.
  unfold array_load. rewrite Hlen.
  destruct (_ && _) eqn:Hb; [|reflexivity].
  apply andb_true_iff in Hb as [[Ha Hb]%andb_true_iff Hc].
  apply Z.leb_le in Ha, Hb, Hc.
  f_equal. apply list_eq. intros k.
  destruct (decide (k < Z.to_nat n)%nat) as [Hk|Hk].
  - rewrite !lookup_take_lt by lia. rewrite !lookup_drop.
    rewrite (array_store_lookup _ _ _ _ _ Hst).
    case_decide; [lia|reflexivity].
  - rewrite !lookup_take_ge by lia. reflexivity.
Qed.

Lemma array_load_all cells :
  array_load cells 0 (Z.of_nat (length cells)) = Some cells.
Proof.
  apply array_load_Some. repeat split; try lia.
  cbn. rewrite Nat2Z.id, firstn_all. reflexivity.
Qed.

Lemma array_store_all cells vs :
  length vs = length cells -> array_store cells 0 vs = Some vs.
Proof.
  intros Hlen. apply array_store_Some. repeat split; try lia.
  cbn. rewrite drop_ge by lia. rewrite app_nil_r. reflexivity.
Qed.

(** ** The free store *)

Lemma read_array_Some h b cells :
  read_array h b = Some cells <-> h !! b = Some (Some (Array cells)).
Proof.
  unfold read_array. destruct (h !! b) as [[[]|]|]; split; congruence.
Qed.

Lemma new_run (o : object) st :
  new o st = Done (length (heap st), mkState (gdevice st) (heap st ++ [Some o])).
Proof. reflexivity. Qed.

Lemma new_array_run (n : Z) st :
  new_array n st =
  Done (Ptr (length (heap st)) 0,
        mkState (gdevice st)
                (heap st ++ [Some (Array (replicate (Z.to_nat n) Undef))])).
Proof. reflexivity. Qed.

Lemma load_object_run b o st :
  heap st !! b = Some (Some o) -> load_object b st = Done (o, st).
Proof.
  intros H. unfold load_object. rewrite run_bind. cbn. rewrite H. reflexivity.
Qed.

Lemma load_object_Done b st o st' :
  load_object b st = Done (o, st') <-> heap st !! b = Some (Some o) /\ st' = st.
Proof.
  unfold load_object. rewrite run_bind. cbn.
  destruct (heap st !! b) as [[o'|]|]; cbn; split;
    try discriminate; try (intros [? _]; discriminate).
  - intros [= <- <-]. auto.
  - intros [[= <-] ->]. reflexivity.
Qed.

Lemma store_object_run b o o0 st :
  heap st !! b = Some (Some o0) ->
  store_object b o st = Done (tt, mkState (gdevice st) (<[b := Some o]> (heap st))).
Proof.
  intros H. unfold store_object. rewrite run_bind. cbn. rewrite H. reflexivity.
Qed.

Lemma store_object_Done b o st r :
  store_object b o st = Done r ->
  is_Some (heap st !! b) /\
  r = (tt, mkState (gdevice st) (<[b := Some o]> (heap st))).
Proof.
  unfold store_object. rewrite run_bind. cbn.
  destruct (heap st !! b) as [[o'|]|]; cbn; try discriminate.
  intros [= <-]. eauto.
Qed.

Lemma delete_run b o st :
  heap st !! b = Some (Some o) ->
  delete b st = Done (tt, mkState (gdevice st) (<[b := None]> (heap st))).
Proof.
  intros H. unfold delete. rewrite run_bind. cbn. rewrite H. reflexivity.
Qed.

Lemma delete_array_run b cells st :
  heap st !! b = Some (Some (Array cells)) ->
  delete_array (Ptr b 0) st =
  Done (tt, mkState (gdevice st) (<[b := None]> (heap st))).
Proof.
  intros H. unfold delete_array.
  rewrite (bind_Done _ _ _ _ _ (load_object_run _ _ _ H)). cbn.
  eapply delete_run. eassumption.
Qed.

Lemma store_cells_run b ofs vs cells cells' st :
  heap st !! b = Some (Some (Array cells)) ->
  array_store cells ofs vs = Some cells' ->
  store_cells (Ptr b ofs) vs st =
  Done (tt, mkState (gdevice st) (<[b := Some (Array cells')]> (heap st))).
Proof.
  intros H Hst. unfold store_cells.
  rewrite (bind_Done _ _ _ _ _ (load_object_run _ _ _ H)).
  rewrite run_bind, Hst. cbn. eapply store_object_run. eassumption.
Qed.

Lemma store_cells_Done p vs st r :
  store_cells p vs st = Done r ->
  exists b ofs cells cells',
    p = Ptr b ofs /\
    heap st !! b = Some (Some (Array cells)) /\
    array_store cells ofs vs = Some cells' /\
    r = (tt, mkState (gdevice st) (<[b := Some (Array cells')]> (heap st))).
Proof.
  destruct p as [|b ofs]; [discriminate|].
  unfold store_cells. intros (o & st1 & H1 & H2)%bind_Done_inv.
  apply load_object_Done in H1 as [H1 ->].
  destruct o; try discriminate.
  apply bind_Done_inv in H2 as (cells' & st2 & H2 & H3).
  apply from_option_Done in H2 as (? & H2 & [= <- <-]).
  apply store_object_Done in H3 as [_ ->]. eauto 10.
Qed.

Lemma memcpy_zero dst src st : memcpy dst src 0 st = Done (tt, st).
Proof. reflexivity. Qed.

Lemma memcpy_run dst src n vs b ofs cells cells' st :
  n <> 0 ->
  overlap dst src n = false ->
  read_cells (heap st) src n = Some vs ->
  dst = Ptr b ofs ->
  heap st !! b = Some (Some (Array cells)) ->
  array_store cells ofs vs = Some cells' ->
  memcpy dst src n st =
  Done (tt, mkState (gdevice st) (<[b := Some (Array cells')]> (heap st))).
Proof.
  intros Hn Hov Hrd -> Hb Hst. unfold memcpy.
  destruct (Z.eqb_spec n 0); [contradiction|]. rewrite Hov.
  rewrite run_bind, load_cells_read, Hrd. cbn.
  eapply store_cells_run; eassumption.
Qed.

Lemma memcpy_Done dst src n st r :
  memcpy dst src n st = Done r ->
  r = (tt, st) \/
  exists b ofs cells cells',
    dst = Ptr b ofs /\
    heap st !! b = Some (Some (Array cells)) /\
    length cells' = length cells /\
    r = (tt, mkState (gdevice st) (<[b := Some (Array cells')]> (heap st))).
Proof.
  unfold memcpy. destruct (n =? 0); [intros [= <-]; auto|].
  destruct (overlap dst src n); [discriminate|].
  intros (vs & st1 & H1 & H2)%bind_Done_inv.
  rewrite load_cells_read in H1. apply lift_Done in H1 as [_ ->].
  apply store_cells_Done in H2 as (b & ofs & cells & cells' & -> & Hb & Hst & ->).
  right. exists b, ofs, cells, cells'. repeat split; try assumption.
  eapply array_store_length; eassumption.
Qed.

(** ** Loops *)

Lemma for_each_app {A : Type} (l1 l2 : list A) (body : A -> M unit) st :
  for_each (l1 ++ l2) body st =
  match for_each l1 body st with
  | Done (_, st') => for_each l2 body st'
  | Abort => Abort
  | Undefined => Undefined
  end.
Proof.
  revert st. induction l1 as [|x l1 IH]; intros st; cbn [for_each app].
  - reflexivity.
  - run. unfold M_bind. destruct (body x st) as [[[] st']| |]; auto.
Qed.

(** A loop all of whose rounds complete, keeping an invariant indexed by
    the number of rounds done. *)
Lemma for_seq_total (start n : nat) (body : nat -> M unit)
    (I : nat -> State -> Prop) (st : State) :
  I start st ->
  (forall k s, (start <= k < start + n)%nat -> I k s ->
               exists s', body k s = Done (tt, s') /\ I (S k) s') ->
  exists st', for_each (seq start n) body st = Done (tt, st') /\
              I (start + n)%nat st'.
Proof.
  revert start st. induction n as [|n IH]; intros start st H0 Hstep.
  - exists st. rewrite Nat.add_0_r. split; [reflexivity|assumption].
  - cbn [seq for_each]. run.
    destruct (Hstep start st ltac:(lia) H0) as (s1 & Hb & H1).
    rewrite (M_bind_Done _ _ _ _ _ Hb).
    destruct (IH (S start) s1 H1) as (st' & Hrun & Hinv).
    { intros k s Hk. apply Hstep. lia. }
    exists st'. split; [assumption|].
    replace (start + S n)%nat with (S start + n)%nat by lia. assumption.
Qed.

Lemma for_loop_total (n : nat) (body : nat -> M unit)
    (I : nat -> State -> Prop) (st : State) :
  I 0%nat st ->
  (forall k s, (k < n)%nat -> I k s ->
               exists s', body k s = Done (tt, s') /\ I (S k) s') ->
  exists st', for_loop n body st = Done (tt, st') /\ I n st'.
Proof.
  intros H0 Hstep. unfold for_loop.
  destruct (for_seq_total 0 n body I st H0) as (st' & Hrun & Hinv).
  { intros k s Hk. apply Hstep. lia. }
  exists st'. split; assumption.
Qed.

(** A loop that returns keeps every invariant its rounds keep. *)
Lemma for_seq_invariant (start n : nat) (body : nat -> M unit)
    (I : nat -> State -> Prop) (st st' : State) :
  (forall k s s', (start <= k < start + n)%nat -> I k s ->
                  body k s = Done (tt, s') -> I (S k) s') ->
  I start st ->
  for_each (seq start n) body st = Done (tt, st') ->
  I (start + n)%nat st'.
Proof.
  revert start st. induction n as [|n IH]; intros start st Hstep H0 Hrun.
  - cbn in Hrun. injection Hrun as <-. rewrite Nat.add_0_r. assumption.
  - cbn [seq for_each] in Hrun.
    apply bind_Done_inv in Hrun as ([] & s1 & Hb & Hrest).
    replace (start + S n)%nat with (S start + n)%nat by lia.
    apply (IH (S start) s1).
    + intros k s s' Hk. apply Hstep. lia.
    + apply (Hstep start st s1); [lia | assumption | assumption].
    + assumption.
Qed.

Lemma for_loop_invariant (n : nat) (body : nat -> M unit)
    (I : nat -> State -> Prop) (st st' : State) :
  (forall k s s', (k < n)%nat -> I k s -> body k s = Done (tt, s') -> I (S k) s') ->
  I 0%nat st ->
  for_loop n body st = Done (tt, st') ->
  I n st'.
Proof.
  intros Hstep H0 Hrun.
  apply (for_seq_invariant 0 n body I st st'); try assumption.
  intros k s s' Hk. apply Hstep. lia.
Qed.

(** The same for a loop that carries a local variable. *)
Lemma for_seq_acc_total {T : Type} (start n : nat) (body : nat -> T -> M T)
    (I : nat -> T -> State -> Prop) (acc : T) (st : State) :
  I start acc st ->
  (forall k a s, (start <= k < start + n)%nat -> I k a s ->
                 exists a' s', body k a s = Done (a', s') /\ I (S k) a' s') ->
  exists acc' st', for_each_acc (seq start n) body acc st = Done (acc', st') /\
                   I (start + n)%nat acc' st'.
Proof.
  revert start acc st. induction n as [|n IH]; intros start acc st H0 Hstep.
  - exists acc, st. rewrite Nat.add_0_r. split; [reflexivity|assumption].
  - cbn [seq for_each_acc]. run.
    destruct (Hstep start acc st ltac:(lia) H0) as (a1 & s1 & Hb & H1).
    rewrite (M_bind_Done _ _ _ _ _ Hb).
    destruct (IH (S start) a1 s1 H1) as (acc' & st' & Hrun & Hinv).
    { intros k a s Hk. apply Hstep. lia. }
    exists acc', st'. split; [assumption|].
    replace (start + S n)%nat with (S start + n)%nat by lia. assumption.
Qed.

(** ** Index decoding *)

(** C2 (as the code has it).  For every integer index element type,
    decoding the i-th index yields a 32-bit value whose low bits are the
    stored pattern and whose remaining bits are zero for the unsigned
    types and copies of the pattern's top bit for the signed types (the
    element is read with its C type and then converted to [uint32_t]);
    for the unsigned types the result is the stored value itself. *)
Theorem GetIndex_widening
    (ty : Type_) (ib : ptr) (i : Z) (st st' : State) (raw : Z) :
  ty <> TYPE_FLOAT ->
  load_uint (TYPE_SIZE ty) ib i st = Done (raw, st') ->
  exists v,
    GetIndex ty ib i st = Done (v, st) /\
    0 <= v < 2 ^ 32 /\
    (forall k, 0 <= k < 32 ->
       Z.testbit v k =
       if k <? index_bits ty then Z.testbit raw k
       else is_signed ty && Z.testbit raw (index_bits ty - 1)) /\
    (is_signed ty = false -> v = raw).
Proof.
  intros Hty Hload. rewrite load_uint_read in Hload.
  destruct (read_uint (heap st) (TYPE_SIZE ty) ib i) as [raw'|] eqn:E;
    [|discriminate].
  cbn in Hload. injection Hload as -> ->.
  assert (Hsz : 0 < index_bits ty <= 32)
    by (unfold index_bits; destruct ty; cbn [TYPE_SIZE]; lia).
  assert (Hts : 0 <= TYPE_SIZE ty) by (destruct ty; cbn [TYPE_SIZE]; lia).
  pose proof (read_uint_range _ _ _ _ _ Hts E) as Hr.
  fold (index_bits ty) in Hr.
  assert (H32 : 2 ^ index_bits ty <= 2 ^ 32) by (apply Z.pow_le_mono_r; lia).
  destruct (is_signed ty) eqn:Hs.
  - exists (wrap32 (signed (index_bits ty) raw)).
    split; [|split; [apply wrap32_range|split; [|discriminate]]].
    + destruct ty; try discriminate; cbn [TYPE_SIZE] in E; unfold GetIndex;
        rewrite run_bind, load_uint_read, E; reflexivity.
    + intros k Hk. rewrite testbit_sign_extend by lia. reflexivity.
  - exists raw.
    split; [|split; [lia|split; [|reflexivity]]].
    + destruct ty; try discriminate; try congruence; cbn [TYPE_SIZE] in E;
        unfold GetIndex; rewrite run_bind, load_uint_read, E; cbn;
        rewrite wrap32_small by lia; reflexivity.
    + intros k Hk. destruct (Z.ltb_spec k (index_bits ty)); [reflexivity|].
      cbn. apply testbit_above with (index_bits ty); lia.
Qed.

Lemma GetIndex_widening_witness :
  exists v,
    GetIndex TYPE_SHORT (Ptr 1%nat 0) 0 state_ff = Done (v, state_ff) /\
    0 <= v < 2 ^ 32 /\
    (forall k, 0 <= k < 32 ->
       Z.testbit v k =
       if k <? 16 then Z.testbit 0xFFFF k else true && Z.testbit 0xFFFF 15) /\
    (true = false -> v = 0xFFFF).
Proof.
  apply (GetIndex_widening TYPE_SHORT (Ptr 1%nat 0) 0 state_ff state_ff 0xFFFF).
  - discriminate.
  - reflexivity.
Defined.

(** C2 (as stated) fails: a signed byte whose stored pattern is 0xFF
    decodes to 0xFFFFFFFF, not to 0x000000FF, and likewise a signed
    16-bit 0xFFFF. *)
Lemma GetIndex_zero_extension_counterexample :
  GetIndex TYPE_BYTE (Ptr 0%nat 0) 0 state_ff = Done (0xFFFFFFFF, state_ff) /\
  GetIndex TYPE_SHORT (Ptr 1%nat 0) 0 state_ff = Done (0xFFFFFFFF, state_ff) /\
  ~ (forall (ty : Type_) (ib : ptr) (i : Z) (st : State) (v raw : Z),
        ty <> TYPE_FLOAT ->
        load_uint (TYPE_SIZE ty) ib i st = Done (raw, st) ->
        GetIndex ty ib i st = Done (v, st) ->
        v = raw).
Proof.
  split; [reflexivity|split; [reflexivity|]].
  intros H.
  specialize (H TYPE_BYTE (Ptr 0%nat 0) 0 state_ff 0xFFFFFFFF 0xFF).
  discriminate H; [discriminate | reflexivity | reflexivity].
Qed.

(** ** Stream binding *)

Lemma get_stream_run i s st :
  streams st !! i = Some s -> get_stream i st = Done (s, st).
Proof.
  intros H. unfold get_stream. rewrite run_bind. cbn.
  unfold streams in H. rewrite H. reflexivity.
Qed.

Lemma get_stream_Done i st s st' :
  get_stream i st = Done (s, st') <-> streams st !! i = Some s /\ st' = st.
Proof.
  unfold get_stream, streams. rewrite run_bind. cbn.
  destruct (Device.m_VertexStreams (gdevice st) !! i); cbn; split;
    try discriminate; try (intros [? _]; discriminate).
  - intros [= <- <-]. auto.
  - intros [[= <-] ->]. reflexivity.
Qed.

Lemma set_stream_run i s st :
  (i < length (streams st))%nat ->
  set_stream i s st = Done (tt, with_stream i s st).
Proof.
  intros H. unfold set_stream. rewrite run_bind. unfold get_device.
  cbv beta iota.
  destruct (Nat.ltb_spec i (length (Device.m_VertexStreams (gdevice st))));
    [reflexivity|]. unfold streams in H. lia.
Qed.

Lemma set_stream_Done i s st r :
  set_stream i s st = Done r ->
  (i < length (streams st))%nat /\ r = (tt, with_stream i s st).
Proof.
  unfold set_stream. rewrite run_bind. unfold get_device.
  cbv beta iota.
  destruct (Nat.ltb_spec i (length (Device.m_VertexStreams (gdevice st))));
    [|discriminate].
  intros [= <-]. auto.
Qed.

Lemma streams_with_stream i s st :
  streams (with_stream i s st) = <[i := s]> (streams st).
Proof. reflexivity. Qed.

Lemma heap_with_stream i s st : heap (with_stream i s st) = heap st.
Proof. reflexivity. Qed.

Lemma is_null_true p : is_null p = true <-> p = Null.
Proof. destruct p; cbn; split; congruence. Qed.

Lemma is_null_false p : is_null p = false <-> p <> Null.
Proof. destruct p; cbn; split; congruence. Qed.

(** C6.  The stream bind primitive on a slot that already has a
    non-null source pointer or a non-null compaction buffer fails an
    assertion; it completes only on a slot whose source and compaction
    buffer are both null, and there (with a context and a non-null
    source) it does complete, recording source, element size and
    stride. *)
Theorem SetVertexStream_only_on_disabled_slot
    (context : HContext) (stream size : Z) (type : Type_) (stride : Z)
    (vertex_buffer : ptr) (st : State) (s : VertexStream.t) :
  streams st !! Z.to_nat stream = Some s ->
  (VertexStream.m_Source s <> Null \/ VertexStream.m_Buffer s <> Null ->
   SetVertexStream context stream size type stride vertex_buffer st = Abort) /\
  (forall r,
     SetVertexStream context stream size type stride vertex_buffer st = Done r ->
     VertexStream.m_Source s = Null /\ VertexStream.m_Buffer s = Null) /\
  (context = context_global -> vertex_buffer <> Null ->
   VertexStream.m_Source s = Null -> VertexStream.m_Buffer s = Null ->
   SetVertexStream context stream size type stride vertex_buffer st =
   Done (tt, with_stream (Z.to_nat stream)
               (VertexStream.mk vertex_buffer Null
                  (wrap16 (size * TYPE_SIZE type)) stride) st)).
Proof.
  intros Hs. unfold SetVertexStream.
  assert (Hlen : (Z.to_nat stream < length (streams st))%nat)
    by (eapply lookup_lt_Some; eassumption).
  destruct context; run.
  { repeat split; intros; congruence. }
  destruct vertex_buffer as [|vb ofs]; run.
  { repeat split; intros; congruence. }
  step (get_stream_run _ _ _ Hs).
  destruct s as [src buf sz str]; cbn [VertexStream.m_Source VertexStream.m_Buffer] in *.
  destruct src as [|sb so]; run;
    [|repeat split; intros; try congruence; intuition congruence].
  destruct buf as [|bb bo]; run;
    [|repeat split; intros; try congruence; intuition congruence].
  rewrite (set_stream_run _ _ _ Hlen).
  repeat split; intros; try congruence; intuition congruence.
Qed.

Lemma SetVertexStream_only_on_disabled_slot_witness :
  SetVertexStream context_global 0 3 TYPE_FLOAT 16 (Ptr 0%nat 0) state_bound
  = Abort.
Proof.
  apply (SetVertexStream_only_on_disabled_slot context_global 0 3 TYPE_FLOAT 16
           (Ptr 0%nat 0) state_bound
           (VertexStream.mk (Ptr 0%nat 0) (Ptr 1%nat 0) 4 4)).
  - reflexivity.
  - left. discriminate.
Defined.

(** C10.  The stream unbind primitive needs no bound stream: on any
    slot (bound or not, with or without a compaction buffer) it
    completes and leaves the slot with size 0, a null source and a null
    compaction buffer; applied again it completes and changes
    nothing. *)
Theorem DisableVertexStream_idempotent
    (stream : Z) (st : State) (s : VertexStream.t) :
  streams st !! Z.to_nat stream = Some s ->
  (VertexStream.m_Buffer s = Null \/
   exists b cells, VertexStream.m_Buffer s = Ptr b 0 /\
                   heap st !! b = Some (Some (Array cells))) ->
  exists st1,
    DisableVertexStream context_global stream st = Done (tt, st1) /\
    streams st1 !! Z.to_nat stream
      = Some (VertexStream.mk Null Null 0 (VertexStream.m_Stride s)) /\
    DisableVertexStream context_global stream st1 = Done (tt, st1).
Proof.
  intros Hs Hbuf.
  assert (Hlen : (Z.to_nat stream < length (streams st))%nat)
    by (eapply lookup_lt_Some; eassumption).
  set (s' := VertexStream.mk Null Null 0 (VertexStream.m_Stride s)).
  assert (Hagain : forall st1,
            streams st1 !! Z.to_nat stream = Some s' ->
            DisableVertexStream context_global stream st1 = Done (tt, st1)).
  { intros st1 H1. unfold DisableVertexStream. run.
    step (get_stream_run _ _ _ H1). cbn [VertexStream.m_Buffer s']. run.
    rewrite set_stream_run by (eapply lookup_lt_Some; eassumption).
    unfold with_stream. cbn [VertexStream.m_Stride s'].
    fold s'. rewrite (list_insert_id _ _ _ H1).
    destruct st1 as [[] ?]. reflexivity. }
  destruct Hbuf as [Hnull|(b & cells & Hptr & Hb)].
  - exists (with_stream (Z.to_nat stream) s' st).
    assert (H1 : streams (with_stream (Z.to_nat stream) s' st) !! Z.to_nat stream
                 = Some s')
      by (rewrite streams_with_stream; apply list_lookup_insert_eq; assumption).
    split; [|split; [exact H1 | apply Hagain; exact H1]].
    unfold DisableVertexStream. run.
    step (get_stream_run _ _ _ Hs). rewrite Hnull. run.
    apply set_stream_run. assumption.
  - set (st0 := mkState (gdevice st) (<[b := None]> (heap st))).
    exists (with_stream (Z.to_nat stream) s' st0).
    assert (H1 : streams (with_stream (Z.to_nat stream) s' st0) !! Z.to_nat stream
                 = Some s')
      by (rewrite streams_with_stream; apply list_lookup_insert_eq; assumption).
    split; [|split; [exact H1 | apply Hagain; exact H1]].
    unfold DisableVertexStream. run.
    step (get_stream_run _ _ _ Hs). rewrite Hptr. run.
    step (delete_array_run _ _ _ Hb).
    apply set_stream_run. assumption.
Qed.

Lemma DisableVertexStream_idempotent_witness :
  exists st1,
    DisableVertexStream context_global 0 state_bound = Done (tt, st1) /\
    streams st1 !! Z.to_nat 0 = Some (VertexStream.mk Null Null 0 4) /\
    DisableVertexStream context_global 0 st1 = Done (tt, st1).
Proof.
  apply (DisableVertexStream_idempotent 0 state_bound
           (VertexStream.mk (Ptr 0%nat 0) (Ptr 1%nat 0) 4 4)).
  - reflexivity.
  - right. exists 1%nat, (inj_bytes [x01; x02; x03; x04]). split; reflexivity.
Defined.

(** ** Buffers: map and unmap *)

Lemma load_VertexBuffer_run b vb st :
  heap st !! b = Some (Some (VertexBufferObj vb)) ->
  load_VertexBuffer (Some b) st = Done (vb, st).
Proof.
  intros H. unfold load_VertexBuffer. run.
  step (load_object_run _ _ _ H). reflexivity.
Qed.

Lemma load_IndexBuffer_run b ib st :
  heap st !! b = Some (Some (IndexBufferObj ib)) ->
  load_IndexBuffer (Some b) st = Done (ib, st).
Proof.
  intros H. unfold load_IndexBuffer. run.
  step (load_object_run _ _ _ H). reflexivity.
Qed.

Lemma store_VertexBuffer_run b vb o st :
  heap st !! b = Some (Some o) ->
  store_VertexBuffer (Some b) vb st =
  Done (tt, mkState (gdevice st) (<[b := Some (VertexBufferObj vb)]> (heap st))).
Proof.
  intros H. unfold store_VertexBuffer. run. eapply store_object_run. eassumption.
Qed.

Lemma store_IndexBuffer_run b ib o st :
  heap st !! b = Some (Some o) ->
  store_IndexBuffer (Some b) ib st =
  Done (tt, mkState (gdevice st) (<[b := Some (IndexBufferObj ib)]> (heap st))).
Proof.
  intros H. unfold store_IndexBuffer. run. eapply store_object_run. eassumption.
Qed.

Lemma replicate_store_all (cells : list memval) (n : Z) :
  Z.of_nat (length cells) = n ->
  array_store (replicate (Z.to_nat n) Undef) 0 cells = Some cells.
Proof.
  intros H. apply array_store_all. rewrite length_replicate. lia.
Qed.

Lemma map_buffer_result k b pb copy size cells access st :
  heap st !! b = Some (Some (buffer_object k (Ptr pb 0) copy size)) ->
  heap st !! pb = Some (Some (Array cells)) ->
  Z.of_nat (length cells) = size ->
  map_buffer k (Some b) access st =
  Done (Ptr (length (heap st)) 0,
        mkState (gdevice st)
          (mapped_heap (heap st) b
             (buffer_object k (Ptr pb 0) (Ptr (length (heap st)) 0) size) cells)).
Proof.
  intros Hb Hpb Hlen.
  assert (Hltb : (b < length (heap st))%nat) by (eapply lookup_lt_Some; eassumption).
  assert (Hltp : (pb < length (heap st))%nat) by (eapply lookup_lt_Some; eassumption).
  assert (Hne : b <> pb) by (intros ->; destruct k; cbn in Hb; congruence).
  set (c := length (heap st)).
  set (h1 := heap st ++ [Some (Array (replicate (Z.to_nat size) Undef))]).
  assert (Hb1 : h1 !! b = Some (Some (buffer_object k (Ptr pb 0) copy size)))
    by (unfold h1; rewrite lookup_app_l by assumption; assumption).
  assert (Hfinal :
    forall o, memcpy (Ptr c 0) (Ptr pb 0) size (mkState (gdevice st) (<[b := Some o]> h1))
              = Done (tt, mkState (gdevice st) (mapped_heap (heap st) b o cells))).
  { intros o. destruct (Z.eq_dec size 0) as [Hz|Hnz].
    - rewrite Hz. rewrite memcpy_zero. unfold mapped_heap, h1.
      destruct cells; [|cbn in Hlen; lia]. rewrite Hz. reflexivity.
    - rewrite (memcpy_run (Ptr c 0) (Ptr pb 0) size cells c 0
                 (replicate (Z.to_nat size) Undef) cells).
      + cbn [heap gdevice]. unfold mapped_heap, h1. f_equal. f_equal.
        rewrite list_insert_insert_ne by (unfold c; lia).
        f_equal. fold c. replace c with (length (heap st) + 0)%nat at 1 by lia.
        rewrite insert_app_r. reflexivity.
      + assumption.
      + cbn. destruct (Nat.eqb_spec c pb); [unfold c in *; lia | reflexivity].
      + cbn [heap read_cells]. unfold read_array.
        rewrite list_lookup_insert_ne by assumption.
        unfold h1. rewrite lookup_app_l by assumption. rewrite Hpb.
        rewrite <- Hlen. apply array_load_all.
      + reflexivity.
      + cbn [heap]. rewrite list_lookup_insert_ne by (unfold c; lia).
        unfold h1, c. rewrite lookup_app_r by lia.
        rewrite Nat.sub_diag. reflexivity.
      + apply replicate_store_all. assumption. }
  destruct k; cbn [map_buffer buffer_object] in *.
  - unfold MapVertexBuffer. run.
    step (load_VertexBuffer_run _ _ _ Hb). cbn [VertexBuffer.m_Size VertexBuffer.m_Buffer].
    step (new_array_run size st).
    erewrite (M_bind_Done (store_VertexBuffer _ _));
      [|eapply store_VertexBuffer_run; cbn [heap]; fold h1; exact Hb1].
    cbn [heap gdevice]. fold h1 c.
    rewrite (M_bind_Done _ _ _ _ _ (Hfinal _)). reflexivity.
  - unfold MapIndexBuffer. run.
    step (load_IndexBuffer_run _ _ _ Hb). cbn [IndexBuffer.m_Size IndexBuffer.m_Buffer].
    step (new_array_run size st).
    erewrite (M_bind_Done (store_IndexBuffer _ _));
      [|eapply store_IndexBuffer_run; cbn [heap]; fold h1; exact Hb1].
    cbn [heap gdevice]. fold h1 c.
    rewrite (M_bind_Done _ _ _ _ _ (Hfinal _)). reflexivity.
Qed.

Lemma unmap_buffer_result k b pb c size cells snapshot st :
  heap st !! b = Some (Some (buffer_object k (Ptr pb 0) (Ptr c 0) size)) ->
  heap st !! pb = Some (Some (Array cells)) ->
  heap st !! c = Some (Some (Array snapshot)) ->
  Z.of_nat (length cells) = size ->
  Z.of_nat (length snapshot) = size ->
  pb <> c ->
  unmap_buffer k (Some b) st =
  Done (true,
        mkState (gdevice st)
          (<[b := Some (buffer_object k (Ptr pb 0) Null size)]>
             (<[c := None]> (<[pb := Some (Array snapshot)]> (heap st))))).
Proof.
  intros Hb Hpb Hc Hlen Hlens Hne.
  set (h1 := <[pb := Some (Array snapshot)]> (heap st)).
  assert (Hcopy : memcpy (Ptr pb 0) (Ptr c 0) size st
                  = Done (tt, mkState (gdevice st) h1)).
  { destruct (Z.eq_dec size 0) as [Hz|Hnz].
    - rewrite Hz, memcpy_zero. unfold h1.
      destruct cells; [|cbn in Hlen; lia].
      destruct snapshot; [|cbn in Hlens; lia].
      rewrite (list_insert_id _ _ _ Hpb). destruct st; reflexivity.
    - apply (memcpy_run _ _ _ snapshot pb 0 cells snapshot); try assumption.
      + cbn. destruct (Nat.eqb_spec pb c); [contradiction | reflexivity].
      + cbn [read_cells]. unfold read_array. rewrite Hc.
        rewrite <- Hlens. apply array_load_all.
      + reflexivity.
      + apply array_store_all. lia. }
  assert (Hc1 : h1 !! c = Some (Some (Array snapshot)))
    by (unfold h1; rewrite list_lookup_insert_ne by assumption; assumption).
  assert (Hb1 : <[c := None]> h1 !! b
                = Some (Some (buffer_object k (Ptr pb 0) (Ptr c 0) size))).
  { assert (b <> c) by (intros ->; destruct k; cbn in Hb; congruence).
    assert (b <> pb) by (intros ->; destruct k; cbn in Hb; congruence).
    unfold h1. rewrite !list_lookup_insert_ne by auto. assumption. }
  destruct k; cbn [unmap_buffer buffer_object] in *.
  - unfold UnmapVertexBuffer. run.
    step (load_VertexBuffer_run _ _ _ Hb).
    cbn [VertexBuffer.m_Size VertexBuffer.m_Buffer VertexBuffer.m_Copy].
    step Hcopy.
    erewrite (M_bind_Done (delete_array _));
      [|eapply delete_array_run; cbn [heap]; exact Hc1].
    cbn [heap gdevice].
    erewrite (M_bind_Done (store_VertexBuffer _ _));
      [|eapply store_VertexBuffer_run; cbn [heap]; exact Hb1].
    reflexivity.
  - unfold UnmapIndexBuffer. run.
    step (load_IndexBuffer_run _ _ _ Hb).
    cbn [IndexBuffer.m_Size IndexBuffer.m_Buffer IndexBuffer.m_Copy].
    step Hcopy.
    erewrite (M_bind_Done (delete_array _));
      [|eapply delete_array_run; cbn [heap]; exact Hc1].
    cbn [heap gdevice].
    erewrite (M_bind_Done (store_IndexBuffer _ _));
      [|eapply store_IndexBuffer_run; cbn [heap]; exact Hb1].
    reflexivity.
Qed.

Lemma store_bytes_all b cells bs st :
  heap st !! b = Some (Some (Array cells)) ->
  length bs = length cells ->
  store_bytes (Ptr b 0) bs st =
  Done (tt, mkState (gdevice st) (<[b := Some (Array (inj_bytes bs))]> (heap st))).
Proof.
  intros Hb Hlen. unfold store_bytes.
  eapply store_cells_run; [eassumption|].
  apply array_store_all. unfold inj_bytes. rewrite length_map. assumption.
Qed.

(** C4.  For a vertex or index buffer with [size] bytes of primary
    storage and any [size] bytes [D]: map, overwriting the returned view
    with [D], then unmap all complete, and leave the primary storage
    equal to [D], the snapshot freed and the buffer's copy pointer
    null; the device is untouched. *)
Theorem map_write_unmap_roundtrip
    (k : BufferKind) (b pb : block) (copy : ptr) (size : Z)
    (cells : list memval) (D : list byte) (access : BufferAccess) (st : State) :
  heap st !! b = Some (Some (buffer_object k (Ptr pb 0) copy size)) ->
  heap st !! pb = Some (Some (Array cells)) ->
  Z.of_nat (length cells) = size ->
  Z.of_nat (length D) = size ->
  exists (view : block) (st1 st2 st3 : State),
    map_buffer k (Some b) access st = Done (Ptr view 0, st1) /\
    store_bytes (Ptr view 0) D st1 = Done (tt, st2) /\
    unmap_buffer k (Some b) st2 = Done (true, st3) /\
    heap st3 !! pb = Some (Some (Array (inj_bytes D))) /\
    heap st3 !! b = Some (Some (buffer_object k (Ptr pb 0) Null size)) /\
    heap st3 !! view = Some None /\
    heap st !! view = None /\
    gdevice st3 = gdevice st.
Proof.
  intros Hb Hpb Hlen HD.
  assert (Hltb : (b < length (heap st))%nat) by (eapply lookup_lt_Some; eassumption).
  assert (Hltp : (pb < length (heap st))%nat) by (eapply lookup_lt_Some; eassumption).
  assert (Hne : b <> pb) by (intros ->; destruct k; cbn in Hb; congruence).
  set (c := length (heap st)).
  set (o1 := buffer_object k (Ptr pb 0) (Ptr c 0) size).
  set (h1 := mapped_heap (heap st) b o1 cells).
  assert (Hlen1 : length h1 = S c).
  { unfold h1, mapped_heap. rewrite length_insert, length_app. cbn. lia. }
  assert (Hc1 : h1 !! c = Some (Some (Array cells))).
  { unfold h1, mapped_heap. rewrite list_lookup_insert_ne by (unfold c; lia).
    unfold c. rewrite lookup_app_r by lia. rewrite Nat.sub_diag. reflexivity. }
  assert (Hb1 : h1 !! b = Some (Some o1)).
  { unfold h1, mapped_heap. apply list_lookup_insert_eq.
    rewrite length_app. lia. }
  assert (Hp1 : h1 !! pb = Some (Some (Array cells))).
  { unfold h1, mapped_heap. rewrite list_lookup_insert_ne by assumption.
    rewrite lookup_app_l by assumption. assumption. }
  set (h2 := <[c := Some (Array (inj_bytes D))]> h1).
  exists c, (mkState (gdevice st) h1), (mkState (gdevice st) h2).
  eexists. split; [|split; [|split]].
  - apply (map_buffer_result k b pb copy size cells access st); assumption.
  - apply (store_bytes_all c cells D (mkState (gdevice st) h1) Hc1). lia.
  - apply (unmap_buffer_result k b pb c size cells (inj_bytes D)
             (mkState (gdevice st) h2)); cbn [heap]; unfold h2.
    + rewrite list_lookup_insert_ne by (unfold c; lia). exact Hb1.
    + rewrite list_lookup_insert_ne by (unfold c; lia). exact Hp1.
    + apply list_lookup_insert_eq. lia.
    + assumption.
    + unfold inj_bytes. rewrite length_map. assumption.
    + unfold c. lia.
  - cbn [heap gdevice]. repeat split.
    + rewrite !list_lookup_insert_ne by (unfold c; lia || auto).
      apply list_lookup_insert_eq. unfold h2. rewrite length_insert. lia.
    + apply list_lookup_insert_eq. rewrite !length_insert.
      unfold h2. rewrite length_insert. lia.
    + rewrite list_lookup_insert_ne by (unfold c; lia).
      apply list_lookup_insert_eq. rewrite length_insert. unfold h2.
      rewrite length_insert. lia.
    + apply lookup_ge_None. unfold c. lia.
Qed.

Lemma map_write_unmap_roundtrip_witness :
  exists (view : block) (st1 st2 st3 : State),
    MapIndexBuffer (Some 0%nat) 0 (state_buffer index_buffer)
      = Done (Ptr view 0, st1) /\
    store_bytes (Ptr view 0) [x0a; x14; x1e; xff] st1 = Done (tt, st2) /\
    UnmapIndexBuffer (Some 0%nat) st2 = Done (true, st3) /\
    heap st3 !! 1%nat = Some (Some (Array (inj_bytes [x0a; x14; x1e; xff]))) /\
    heap st3 !! 0%nat
      = Some (Some (IndexBufferObj (IndexBuffer.mk (Ptr 1%nat 0) Null 4))) /\
    heap st3 !! view = Some None /\
    heap (state_buffer index_buffer) !! view = None /\
    gdevice st3 = gdevice (state_buffer index_buffer).
Proof.
  apply (map_write_unmap_roundtrip index_buffer 0%nat 1%nat Null 4
           (inj_bytes [x01; x02; x03; x04]) [x0a; x14; x1e; xff] 0
           (state_buffer index_buffer)); reflexivity.
Defined.

Lemma delete_buffer_mapped k b buf copy size st :
  heap st !! b = Some (Some (buffer_object k buf copy size)) ->
  copy <> Null ->
  delete_buffer k (Some b) st = Abort.
Proof.
  intros Hb Hcopy. apply is_null_false in Hcopy.
  destruct k; cbn [delete_buffer buffer_object] in *.
  - unfold DeleteVertexBuffer. run. step (load_VertexBuffer_run _ _ _ Hb).
    cbn [VertexBuffer.m_Copy]. rewrite Hcopy. reflexivity.
  - unfold DeleteIndexBuffer. run. step (load_IndexBuffer_run _ _ _ Hb).
    cbn [IndexBuffer.m_Copy]. rewrite Hcopy. reflexivity.
Qed.

(** C3 (as the code has it).  Map never checks for an outstanding map:
    on every vertex or index buffer with its primary storage in place,
    whatever its copy pointer, map completes, allocates a new snapshot
    equal to the primary storage and records it as the buffer's copy;
    every other block, an earlier snapshot included, is left as it was
    (neither freed nor written back).  The only check of an outstanding
    map is the assertion of delete. *)
Theorem map_buffer_replaces_snapshot
    (k : BufferKind) (b pb : block) (copy : ptr) (size : Z)
    (cells : list memval) (access : BufferAccess) (st : State) :
  heap st !! b = Some (Some (buffer_object k (Ptr pb 0) copy size)) ->
  heap st !! pb = Some (Some (Array cells)) ->
  Z.of_nat (length cells) = size ->
  exists (view : block) (st' : State),
    map_buffer k (Some b) access st = Done (Ptr view 0, st') /\
    heap st !! view = None /\
    heap st' !! view = Some (Some (Array cells)) /\
    heap st' !! b = Some (Some (buffer_object k (Ptr pb 0) (Ptr view 0) size)) /\
    (forall x, x <> b -> x <> view -> heap st' !! x = heap st !! x) /\
    gdevice st' = gdevice st /\
    (copy <> Null -> delete_buffer k (Some b) st = Abort).
Proof.
  intros Hb Hpb Hlen.
  assert (Hltb : (b < length (heap st))%nat) by (eapply lookup_lt_Some; eassumption).
  exists (length (heap st)). eexists.
  split; [apply (map_buffer_result k b pb copy size cells access st); assumption|].
  cbn [heap gdevice]. unfold mapped_heap. repeat split.
  - apply lookup_ge_None. lia.
  - rewrite list_lookup_insert_ne by lia.
    rewrite lookup_app_r by lia. rewrite Nat.sub_diag. reflexivity.
  - apply list_lookup_insert_eq. rewrite length_app. lia.
  - intros x Hx Hv. rewrite list_lookup_insert_ne by auto.
    destruct (decide (x < length (heap st))%nat).
    + apply lookup_app_l. assumption.
    + rewrite (lookup_ge_None_2 (heap st)) by lia.
      apply lookup_ge_None. rewrite length_app. cbn. lia.
  - intros Hcopy. eapply delete_buffer_mapped; eassumption.
Qed.

Lemma map_buffer_replaces_snapshot_witness :
  exists (view : block) (st' : State),
    MapVertexBuffer (Some 0%nat) 0 (state_mapped vertex_buffer)
      = Done (Ptr view 0, st') /\
    heap (state_mapped vertex_buffer) !! view = None /\
    heap st' !! view = Some (Some (Array (inj_bytes [x01; x02; x03; x04]))) /\
    heap st' !! 0%nat
      = Some (Some (VertexBufferObj (VertexBuffer.mk (Ptr 1%nat 0) (Ptr view 0) 4))) /\
    (forall x, x <> 0%nat -> x <> view ->
               heap st' !! x = heap (state_mapped vertex_buffer) !! x) /\
    gdevice st' = gdevice (state_mapped vertex_buffer) /\
    (Ptr 2%nat 0 <> Null ->
     DeleteVertexBuffer (Some 0%nat) (state_mapped vertex_buffer) = Abort).
Proof.
  apply (map_buffer_replaces_snapshot vertex_buffer 0%nat 1%nat (Ptr 2%nat 0) 4
           (inj_bytes [x01; x02; x03; x04]) 0 (state_mapped vertex_buffer));
    reflexivity.
Defined.

(** C3 (as stated) fails: a buffer made by [NewVertexBuffer] or
    [NewIndexBuffer] can be mapped twice in a row; the second map
    returns a second snapshot instead of failing. *)
Lemma map_twice_counterexample :
  (exists st',
     (vb ← NewVertexBuffer 4 (Ptr 0%nat 0) 0;
      MapVertexBuffer vb 0;; MapVertexBuffer vb 0) state_data
     = Done (Ptr 4%nat 0, st')) /\
  (exists st',
     (ib ← NewIndexBuffer 4 (Ptr 0%nat 0) 0;
      MapIndexBuffer ib 0;; MapIndexBuffer ib 0) state_data
     = Done (Ptr 4%nat 0, st')) /\
  ~ (forall (k : BufferKind) (b : block) (buf copy : ptr) (size : Z)
            (access : BufferAccess) (st : State),
        heap st !! b = Some (Some (buffer_object k buf copy size)) ->
        copy <> Null ->
        map_buffer k (Some b) access st = Abort).
Proof.
  split; [eexists; vm_compute; reflexivity|].
  split; [eexists; vm_compute; reflexivity|].
  intros H.
  specialize (H vertex_buffer 0%nat (Ptr 1%nat 0) (Ptr 2%nat 0) 4 0
                (state_mapped vertex_buffer)).
  discriminate H; [reflexivity | discriminate].
Qed.

(** ** Enabling a vertex declaration *)

Lemma SetVertexStream_run (stream size : Z) (type : Type_) (stride : Z)
    (b : block) (ofs : Z) (st : State) (s : VertexStream.t) :
  streams st !! Z.to_nat stream = Some s ->
  VertexStream.m_Source s = Null ->
  VertexStream.m_Buffer s = Null ->
  SetVertexStream context_global stream size type stride (Ptr b ofs) st =
  Done (tt, with_stream (Z.to_nat stream)
              (VertexStream.mk (Ptr b ofs) Null
                 (wrap16 (size * TYPE_SIZE type)) stride) st).
Proof.
  intros Hs Hsrc Hbuf. unfold SetVertexStream. run.
  step (get_stream_run _ _ _ Hs). rewrite Hsrc, Hbuf. run.
  apply set_stream_run. eapply lookup_lt_Some. eassumption.
Qed.

Lemma load_VertexDeclaration_run d vd st :
  heap st !! d = Some (Some (VertexDeclarationObj vd)) ->
  load_VertexDeclaration (Some d) st = Done (vd, st).
Proof.
  intros H. unfold load_VertexDeclaration. run.
  step (load_object_run _ _ _ H). reflexivity.
Qed.

Lemma wrap16_add_wrap32 (a x : Z) : wrap16 (a + wrap32 x) = wrap16 (a + x).
Proof.
  unfold wrap16, wrap32, wrap.
  rewrite (Z.mod_eq x (2 ^ 32)) by lia.
  replace (a + (x - 2 ^ 32 * (x / 2 ^ 32)))
    with (a + x + (- (2 ^ 16 * (x / 2 ^ 32))) * 2 ^ 16) by lia.
  apply Z.mod_add. lia.
Qed.

Lemma wrap16_add_l (a b : Z) : wrap16 (wrap16 a + b) = wrap16 (a + b).
Proof. unfold wrap16, wrap. apply Z.add_mod_idemp_l. lia. Qed.

Lemma wrap32_add (a b : Z) : wrap32 (wrap32 a + wrap32 b) = wrap32 (a + b).
Proof. unfold wrap32, wrap. symmetry. apply Z.add_mod. lia. Qed.

Lemma vertex_bytes_app l1 l2 :
  vertex_bytes (l1 ++ l2) = vertex_bytes l1 + vertex_bytes l2.
Proof.
  induction l1 as [|e l1 IH]; cbn; [reflexivity|].
  unfold vertex_bytes in *. cbn. rewrite IH. lia.
Qed.

Lemma vertex_bytes_take_S elements k e :
  elements !! k = Some e ->
  vertex_bytes (take (S k) elements)
  = vertex_bytes (take k elements) + element_bytes e.
Proof.
  intros H. rewrite (take_S_r _ _ _ H), vertex_bytes_app.
  unfold vertex_bytes. cbn. lia.
Qed.

Lemma offset_before_S elements k e :
  elements !! k = Some e ->
  offset_before elements (S k)
  = offset_before elements k + (if non_empty e then element_bytes e else 0).
Proof.
  intros H. unfold offset_before.
  rewrite (take_S_r _ _ _ H), filter_app, vertex_bytes_app.
  f_equal. rewrite filter_cons, filter_nil.
  destruct (non_empty e); case_decide; try congruence; unfold vertex_bytes; cbn; lia.
Qed.

Lemma stride_loop (d : block) (elements : list VertexElement.t) (st : State) :
  heap st !! d = Some (Some (VertexDeclarationObj (VertexDeclaration.mk elements))) ->
  length elements = MAX_VERTEX_STREAM_COUNT ->
  for_each_acc (seq 0 MAX_VERTEX_STREAM_COUNT) (fun i stride =>
    vd ← load_VertexDeclaration (Some d);
    e ← from_option (VertexDeclaration.m_Elements vd !! i);
    mret (wrap16 (stride + wrap32 (VertexElement.m_Size e
                                   * TYPE_SIZE (VertexElement.m_Type e))))) 0 st
  = Done (wrap16 (vertex_bytes elements), st).
Proof.
  intros Hd Hlen.
  match goal with |- for_each_acc _ ?body _ _ = _ =>
    destruct (for_seq_acc_total 0 MAX_VERTEX_STREAM_COUNT body
                (fun (k : nat) (acc : Z) (s : State) =>
                   s = st /\ acc = wrap16 (vertex_bytes (take k elements)))
                0 st)
      as (acc' & st' & Hrun & -> & ->); [| |rewrite Hrun]
  end.
  - split; reflexivity.
  - intros k a s Hk [-> ->].
    destruct (lookup_lt_is_Some_2 elements k ltac:(lia)) as [e He].
    eexists _, st. split.
    + run. step (load_VertexDeclaration_run _ _ _ Hd).
      cbn [VertexDeclaration.m_Elements]. rewrite He. run. reflexivity.
    + split; [reflexivity|].
      rewrite (vertex_bytes_take_S _ _ _ He).
      rewrite wrap16_add_wrap32, wrap16_add_l. reflexivity.
  - rewrite <- Hlen at 1. cbn [Nat.add]. rewrite firstn_all. reflexivity.
Qed.

(** C5 (as the code has it).  Enabling a declaration over a vertex
    buffer, when the slots the declaration fills are all disabled,
    completes; it binds every non-empty slot, and no other, on the
    buffer's storage at the sum of the element bytes of the non-empty
    slots with smaller ids (in 32-bit arithmetic), all with one stride:
    the sum over all 32 slots of component count times type size,
    reduced modulo 2^16 since the stride is a [uint16_t]. *)
Theorem EnableVertexDeclaration_binds
    (d b : block) (elements : list VertexElement.t) (vb : VertexBuffer.t)
    (st : State) :
  heap st !! d = Some (Some (VertexDeclarationObj (VertexDeclaration.mk elements))) ->
  heap st !! b = Some (Some (VertexBufferObj vb)) ->
  VertexBuffer.m_Buffer vb <> Null ->
  length elements = MAX_VERTEX_STREAM_COUNT ->
  length (streams st) = MAX_VERTEX_STREAM_COUNT ->
  (forall i e s, elements !! i = Some e -> non_empty e = true ->
                 streams st !! i = Some s ->
                 VertexStream.m_Source s = Null /\ VertexStream.m_Buffer s = Null) ->
  exists st',
    EnableVertexDeclaration context_global (Some d) (Some b) st = Done (tt, st') /\
    heap st' = heap st /\
    (forall i e, elements !! i = Some e ->
       streams st' !! i =
       if non_empty e
       then Some (enabled_stream elements (VertexBuffer.m_Buffer vb) i e)
       else streams st !! i).
Proof.
  intros Hd Hb Hbuf Hlen Hslots Hfree.
  destruct (VertexBuffer.m_Buffer vb) as [|pb po] eqn:Hpb; [congruence|].
  unfold EnableVertexDeclaration. run.
  step (stride_loop d elements st Hd Hlen).
  match goal with |- context [for_each_acc _ ?body _] =>
    destruct (for_seq_acc_total 0 MAX_VERTEX_STREAM_COUNT body
                (fun (k : nat) (offset : Z) (s : State) =>
                   heap s = heap st /\
                   offset = wrap32 (offset_before elements k) /\
                   length (streams s) = MAX_VERTEX_STREAM_COUNT /\
                   forall i e, elements !! i = Some e ->
                     streams s !! i =
                     if (i <? k)%nat && non_empty e
                     then Some (enabled_stream elements (Ptr pb po) i e)
                     else streams st !! i)
                0 st)
      as (acc' & st' & Hrun & Hheap & _ & _ & Hres);
      [| |rewrite (M_bind_Done _ _ _ _ _ Hrun)]
  end.
  - repeat split; auto.
  - intros k offset s Hk (Hh & -> & Hl & Hinv).
    destruct (lookup_lt_is_Some_2 elements k ltac:(lia)) as [e He].
    assert (Hd' : heap s !! d
                  = Some (Some (VertexDeclarationObj (VertexDeclaration.mk elements))))
      by (rewrite Hh; assumption).
    assert (Hb' : heap s !! b = Some (Some (VertexBufferObj vb)))
      by (rewrite Hh; assumption).
    run. step (load_VertexDeclaration_run _ _ _ Hd').
    cbn [VertexDeclaration.m_Elements]. rewrite He. run.
    pose proof (Hinv k e He) as Hk0.
    rewrite Nat.ltb_irrefl in Hk0. cbn [andb] in Hk0.
    fold (non_empty e). destruct (non_empty e) eqn:Hne.
    + destruct (lookup_lt_is_Some_2 (streams st) k ltac:(lia)) as [sk Hsk].
      destruct (Hfree k e sk He Hne Hsk) as [Hsrc Hnull].
      rewrite Hsk in Hk0.
      step (load_VertexBuffer_run _ _ _ Hb'). rewrite Hpb. cbn [ptr_add].
      erewrite (M_bind_Done (SetVertexStream _ _ _ _ _ _));
        [|apply (SetVertexStream_run _ _ _ _ _ _ _ sk);
          [rewrite Nat2Z.id; exact Hk0 | exact Hsrc | exact Hnull]].
      run. rewrite Nat2Z.id. eexists _, _. split; [reflexivity|].
      rewrite heap_with_stream, streams_with_stream, length_insert.
      repeat split; try assumption.
      * rewrite (offset_before_S _ _ _ He), Hne. fold (element_bytes e).
        unfold wrap32 at 1 2 3, wrap.
        rewrite Z.add_mod_idemp_l, Z.add_mod_idemp_r by lia. reflexivity.
      * intros i e' He'. destruct (decide (i = k)) as [->|Hik].
        -- rewrite list_lookup_insert_eq by lia.
           assert (e' = e) by congruence. subst e'.
           rewrite (proj2 (Nat.ltb_lt k (S k))) by lia. rewrite Hne. reflexivity.
        -- rewrite list_lookup_insert_ne by auto. rewrite (Hinv i e' He').
           replace (i <? S k)%nat with (i <? k)%nat; [reflexivity|].
           destruct (Nat.ltb_spec i k), (Nat.ltb_spec i (S k)); auto; lia.
    + eexists _, _. split; [reflexivity|]. repeat split; try assumption.
      * rewrite (offset_before_S _ _ _ He), Hne. f_equal. lia.
      * intros i e' He'. rewrite (Hinv i e' He').
        destruct (decide (i = k)) as [->|Hik].
        -- assert (e' = e) by congruence. subst e'. rewrite Hne, !andb_false_r.
           reflexivity.
        -- replace (i <? S k)%nat with (i <? k)%nat; [reflexivity|].
           destruct (Nat.ltb_spec i k), (Nat.ltb_spec i (S k)); auto; lia.
  - run. exists st'. split; [reflexivity|]. split; [assumption|].
    intros i e He. rewrite (Hres i e He).
    assert (Hi : (i < MAX_VERTEX_STREAM_COUNT)%nat)
      by (rewrite <- Hlen; eapply lookup_lt_Some; eassumption).
    cbn [Nat.add]. rewrite (proj2 (Nat.ltb_lt _ _) Hi). reflexivity.
Qed.

Lemma EnableVertexDeclaration_binds_witness :
  exists st',
    EnableVertexDeclaration context_global (Some 0%nat) (Some 1%nat)
      (state_declared position_colour) = Done (tt, st') /\
    heap st' = heap (state_declared position_colour) /\
    (forall i e, declared position_colour !! i = Some e ->
       streams st' !! i =
       if non_empty e
       then Some (enabled_stream (declared position_colour) (Ptr 2%nat 0) i e)
       else streams (state_declared position_colour) !! i).
Proof.
  apply (EnableVertexDeclaration_binds 0%nat 1%nat (declared position_colour)
           (VertexBuffer.mk (Ptr 2%nat 0) Null 48)
           (state_declared position_colour)); try reflexivity.
  - discriminate.
  - intros i e s _ _ Hs.
    change (replicate MAX_VERTEX_STREAM_COUNT VertexStream.zero !! i = Some s) in Hs.
    apply lookup_replicate in Hs as [-> _]. split; reflexivity.
Defined.

(** C5 (as stated) fails on the stride: a declaration whose vertex is
    65536 bytes wide is bound with stride 0, not 65536.  (And enabling
    a declaration a second time, with its slots still bound, stops on
    the assertion of the bind primitive.) *)
Lemma EnableVertexDeclaration_stride_counterexample :
  (exists st' s,
     (vb ← NewVertexBuffer 0 Null 0;
      vd ← NewVertexDeclaration wide_element 1;
      EnableVertexDeclaration context_global vd vb) (initial_State 0)
     = Done (tt, st') /\
     streams st' !! 0%nat = Some s /\
     VertexStream.m_Stride s = 0) /\
  vertex_bytes (declared wide_element) = 65536 /\
  ~ (forall (d b : block) (elements : list VertexElement.t)
            (vb : VertexBuffer.t) (st st' : State),
        heap st !! d
          = Some (Some (VertexDeclarationObj (VertexDeclaration.mk elements))) ->
        heap st !! b = Some (Some (VertexBufferObj vb)) ->
        EnableVertexDeclaration context_global (Some d) (Some b) st
          = Done (tt, st') ->
        forall i e s,
          elements !! i = Some e -> non_empty e = true ->
          streams st' !! i = Some s ->
          VertexStream.m_Stride s = vertex_bytes elements) /\
  (vb ← NewVertexBuffer 48 Null 0;
   vd ← NewVertexDeclaration position_colour 2;
   EnableVertexDeclaration context_global vd vb;;
   EnableVertexDeclaration context_global vd vb) (initial_State 0) = Abort.
Proof.
  split; [|split; [reflexivity|split]].
  - eexists _, _. split; [vm_compute; reflexivity|]. split; reflexivity.
  - intros H.
    assert (Hrun : exists st' s,
               EnableVertexDeclaration context_global (Some 0%nat) (Some 1%nat)
                 (state_declared wide_element) = Done (tt, st') /\
               streams st' !! 0%nat = Some s /\ VertexStream.m_Stride s = 0).
    { eexists _, _. split; [vm_compute; reflexivity|]. split; reflexivity. }
    destruct Hrun as (st' & s & Hrun & Hs & Hstride).
    specialize (H 0%nat 1%nat (declared wide_element)
                  (VertexBuffer.mk (Ptr 2%nat 0) Null 48)
                  (state_declared wide_element) st' eq_refl eq_refl Hrun
                  0%nat (VertexElement.mk 0 16384 TYPE_FLOAT) s
                  eq_refl eq_refl Hs).
    rewrite Hstride in H. vm_compute in H. discriminate H.
  - vm_compute. reflexivity.
Qed.

(** ** Clear and render targets *)

Lemma Z_of_byte_of_Z (x : Z) : Z_of_byte (byte_of_Z x) = x mod 256.
Proof.
  unfold Z_of_byte, byte_of_Z.
  assert (0 <= x mod 256 < 256) by (apply Z.mod_pos_bound; lia).
  destruct (Byte.of_N (Z.to_N (x mod 256))) as [b|] eqn:E.
  - apply Byte.to_of_N in E. rewrite E. lia.
  - apply Byte.of_N_None_iff in E. lia.
Qed.

Lemma encode_le_length (n : nat) (x : Z) : length (encode_le n x) = n.
Proof. revert x. induction n; intros x; cbn; [reflexivity|]. f_equal. auto. Qed.

Lemma decode_encode_le (n : nat) (x : Z) :
  decode_le (encode_le n x) = x mod 256 ^ Z.of_nat n.
Proof.
  revert x. induction n as [|n IH]; intros x.
  - cbn. symmetry. apply Z.mod_1_r.
  - cbn [encode_le decode_le]. rewrite IH, Z_of_byte_of_Z.
    replace (256 ^ Z.of_nat (S n)) with (256 * 256 ^ Z.of_nat n)
      by (rewrite Nat2Z.inj_succ, Z.pow_succ_r by lia; reflexivity).
    symmetry. apply Z.rem_mul_r; [lia|]. apply Z.pow_pos_nonneg; lia.
Qed.

Lemma decode_encode_uint32 (x : Z) : decode_le (encode_le 4 x) = wrap32 x.
Proof. rewrite decode_encode_le. reflexivity. Qed.

Lemma render_buffer_read st :
  render_buffer st = lift (active_planes st) st.
Proof.
  unfold render_buffer, active_planes. rewrite run_bind. unfold get_device.
  cbv beta iota.
  destruct (Device.m_RenderBuffer (gdevice st)) as [| |r]; try reflexivity.
  rewrite run_bind. unfold load_object. rewrite run_bind. unfold get_heap.
  cbv beta iota.
  destruct (heap st !! r) as [[[]|]|]; reflexivity.
Qed.

(** The rounds of one of the loops of [Clear]: [count] words [v]
    written from the start of block [c]. *)
Lemma clear_loop (c : block) (v : Z) (count : nat) (cells : list memval) (st : State) :
  heap st !! c = Some (Some (Array cells)) ->
  4 * Z.of_nat count <= Z.of_nat (length cells) ->
  exists st' cells',
    for_loop count (fun i => store_uint32 (Ptr c 0) (Z.of_nat i) v) st
      = Done (tt, st') /\
    gdevice st' = gdevice st /\
    length (heap st') = length (heap st) /\
    (forall x, x <> c -> heap st' !! x = heap st !! x) /\
    heap st' !! c = Some (Some (Array cells')) /\
    length cells' = length cells /\
    (forall i, (i < count)%nat ->
       array_load cells' (4 * Z.of_nat i) 4 = Some (inj_bytes (encode_le 4 v))) /\
    (forall ofs n, 4 * Z.of_nat count <= ofs ->
       array_load cells' ofs n = array_load cells ofs n).
Proof.
  intros Hc Hlen.
  destruct (for_loop_total count
              (fun i => store_uint32 (Ptr c 0) (Z.of_nat i) v)
              (fun k s =>
                 gdevice s = gdevice st /\
                 length (heap s) = length (heap st) /\
                 (forall x, x <> c -> heap s !! x = heap st !! x) /\
                 exists cells',
                   heap s !! c = Some (Some (Array cells')) /\
                   length cells' = length cells /\
                   (forall i, (i < k)%nat ->
                      array_load cells' (4 * Z.of_nat i) 4
                      = Some (inj_bytes (encode_le 4 v))) /\
                   (forall ofs n, 4 * Z.of_nat k <= ofs ->
                      array_load cells' ofs n = array_load cells ofs n))
              st) as (st' & Hrun & Hd & Hl & Hx & cells' & Hc' & Hl' & Hw & Hr).
  - repeat split; auto. exists cells. repeat split; auto. intros i Hi. lia.
  - intros k s Hk (Hd & Hl & Hx & cells' & Hc' & Hl' & Hw & Hr).
    assert (Hword : length (inj_bytes (encode_le 4 v)) = 4%nat)
      by (unfold inj_bytes; rewrite length_map; apply encode_le_length).
    destruct (array_store cells' (4 * Z.of_nat k) (inj_bytes (encode_le 4 v)))
      as [cells''|] eqn:Hst.
    2:{ exfalso. unfold array_store in Hst. rewrite Hword in Hst.
        destruct (Z.leb_spec 0 (4 * Z.of_nat k)); [|lia].
        destruct (Z.leb_spec (4 * Z.of_nat k + Z.of_nat 4) (Z.of_nat (length cells')));
          [discriminate|lia]. }
    eexists. split.
    + unfold store_uint32, store_bytes. cbn [ptr_add]. rewrite Z.add_0_l.
      eapply store_cells_run; eassumption.
    + cbn [gdevice heap]. rewrite length_insert.
      split; [assumption|]. split; [assumption|]. split.
      { intros x Hne. rewrite list_lookup_insert_ne by auto. auto. }
      exists cells''. split; [|split; [|split]].
      * apply list_lookup_insert_eq. eapply lookup_lt_Some. eassumption.
      * rewrite (array_store_length _ _ _ _ Hst). assumption.
      * intros i Hi. destruct (decide (i = k)) as [->|Hik].
        -- rewrite <- Hword at 1.
           change (Z.of_nat 4) with 4. replace 4 with (Z.of_nat 4) at 2 by reflexivity.
           rewrite <- Hword. eapply array_load_store_same. eassumption.
        -- rewrite (array_load_store_other _ _ _ _ _ _ Hst) by (left; lia).
           apply Hw. lia.
      * intros ofs n Hofs.
        rewrite (array_load_store_other _ _ _ _ _ _ Hst) by (right; rewrite Hword; lia).
        apply Hr. lia.
  - exists st', cells'. repeat split; assumption.
Qed.

Lemma read_uint32_word (h : list (option object)) (c : block)
    (cells : list memval) (i v : Z) :
  h !! c = Some (Some (Array cells)) ->
  array_load cells (4 * i) 4 = Some (inj_bytes (encode_le 4 v)) ->
  read_uint h 4 (Ptr c 0) i = Some (wrap32 v).
Proof.
  intros Hc Hld. unfold read_uint, read_bytes, read_cells, read_array.
  cbn [ptr_add]. rewrite Hc, Z.add_0_l, Hld, proj_inj_bytes.
  rewrite decode_encode_uint32. reflexivity.
Qed.

Lemma read_uint_same_cells (h h' : list (option object)) (c : block)
    (cells cells' : list memval) (size i : Z) :
  h !! c = Some (Some (Array cells)) ->
  h' !! c = Some (Some (Array cells')) ->
  array_load cells' (size * i) size = array_load cells (size * i) size ->
  read_uint h' size (Ptr c 0) i = read_uint h size (Ptr c 0) i.
Proof.
  intros Hc Hc' Hld. unfold read_uint, read_bytes, read_cells, read_array.
  cbn [ptr_add]. rewrite Hc, Hc', Z.add_0_l, Hld. reflexivity.
Qed.

Lemma wrap32_idem (x : Z) : wrap32 (wrap32 x) = wrap32 x.
Proof. apply wrap32_small, wrap32_range. Qed.

(** [Clear] of the colour plane alone: it runs over as many pixel words
    as the display has, at the start of the active colour plane, which
    must hold that many; nothing else changes. *)
Lemma Clear_colour_fills
    (flags red green blue alpha depth stencil : Z) (fb : FrameBuffer.t)
    (c : block) (cells : list memval) (st : State) :
  colour_only flags ->
  active_planes st = Some fb ->
  FrameBuffer.m_ColorBuffer fb = Ptr c 0 ->
  heap st !! c = Some (Some (Array cells)) ->
  4 * display_pixels st <= Z.of_nat (length cells) ->
  exists st',
    Clear context_global flags red green blue alpha depth stencil st
      = Done (tt, st') /\
    gdevice st' = gdevice st /\
    length (heap st') = length (heap st) /\
    (forall x, x <> c -> heap st' !! x = heap st !! x) /\
    (forall i, 0 <= i < display_pixels st ->
       load_uint 4 (Ptr c 0) i st'
       = Done (packed_colour red green blue alpha, st')) /\
    (forall i, display_pixels st <= i ->
       read_uint (heap st') 4 (Ptr c 0) i = read_uint (heap st) 4 (Ptr c 0) i).
Proof.
  intros (Hcol & Hdep & Hsten) Hact Hptr Hc Hlen.
  pose proof (wrap32_range (Device.m_DisplayWidth (gdevice st)
                            * Device.m_DisplayHeight (gdevice st))) as Hn.
  fold (display_pixels st) in Hn.
  destruct (clear_loop c (packed_colour red green blue alpha)
              (Z.to_nat (display_pixels st)) cells st Hc)
    as (st' & cells' & Hrun & Hd & Hl & Hx & Hc' & Hl' & Hw & Hr); [lia|].
  exists st'. split; [|split; [assumption|split; [assumption|split; [assumption|split]]]].
  - unfold Clear. run. unfold get_device at 1. cbv beta iota.
    apply Z.eqb_neq in Hcol. apply Z.eqb_eq in Hdep, Hsten.
    rewrite Hcol, Hdep, Hsten. run.
    assert (Hrb : render_buffer st = Done (fb, st))
      by (rewrite render_buffer_read, Hact; reflexivity).
    step Hrb. rewrite Hptr.
    fold (display_pixels st). fold (packed_colour red green blue alpha).
    rewrite (M_bind_Done _ _ _ _ _ Hrun). reflexivity.
  - intros i Hi. rewrite load_uint_read.
    rewrite (read_uint32_word _ c cells' i (packed_colour red green blue alpha) Hc').
    + unfold packed_colour. rewrite wrap32_idem. reflexivity.
    + replace i with (Z.of_nat (Z.to_nat i)) by lia. apply Hw. lia.
  - intros i Hi. apply (read_uint_same_cells _ _ c cells cells'); try assumption.
    apply Hr. lia.
Qed.

Lemma EnableRenderTarget_run (r : block) (st : State) :
  EnableRenderTarget context_global (Some r) st
  = Done (tt, mkState (Device.set_RenderBuffer (ref_RenderTarget r) (gdevice st))
                      (heap st)).
Proof. reflexivity. Qed.

Lemma DisableRenderTarget_run (r : block) (st : State) :
  DisableRenderTarget context_global (Some r) st
  = Done (tt, mkState (Device.set_RenderBuffer ref_FrameBuffer (gdevice st))
                      (heap st)).
Proof. reflexivity. Qed.

(** Where the planes hold at least the display's number of pixels, a
    clear of the colour plane alone goes to the active plane set.  On a
    device whose default colour plane is block [c0]: after
    enable-render-target(RT) it writes the packed colour into RT's own
    colour plane (a block other than [c0]) and leaves the default
    framebuffer's colour plane as it was; after disable-render-target
    it writes it into the default framebuffer's colour plane and leaves
    every render target and each of its planes (those not shared with
    that plane) as they were. *)
Theorem clear_follows_render_target
    (flags red green blue alpha depth stencil : Z) (c0 : block) (st : State) :
  colour_only flags ->
  FrameBuffer.m_ColorBuffer (Device.m_FrameBuffer (gdevice st)) = Ptr c0 0 ->
  (forall (r c : block) (rt : RenderTarget.t) (cells : list memval),
     heap st !! r = Some (Some (RenderTargetObj rt)) ->
     FrameBuffer.m_ColorBuffer (RenderTarget.m_RenderBuffer rt) = Ptr c 0 ->
     heap st !! c = Some (Some (Array cells)) ->
     c <> c0 ->
     4 * display_pixels st <= Z.of_nat (length cells) ->
     exists st1,
       (EnableRenderTarget context_global (Some r);;
        Clear context_global flags red green blue alpha depth stencil) st
       = Done (tt, st1) /\
       Device.m_RenderBuffer (gdevice st1) = ref_RenderTarget r /\
       (forall i, 0 <= i < display_pixels st ->
          load_uint 4 (Ptr c 0) i st1
          = Done (packed_colour red green blue alpha, st1)) /\
       heap st1 !! c0 = heap st !! c0) /\
  (forall (r : block) (cells0 : list memval),
     heap st !! c0 = Some (Some (Array cells0)) ->
     4 * display_pixels st <= Z.of_nat (length cells0) ->
     exists st2,
       (DisableRenderTarget context_global (Some r);;
        Clear context_global flags red green blue alpha depth stencil) st
       = Done (tt, st2) /\
       Device.m_RenderBuffer (gdevice st2) = ref_FrameBuffer /\
       (forall i, 0 <= i < display_pixels st ->
          load_uint 4 (Ptr c0 0) i st2
          = Done (packed_colour red green blue alpha, st2)) /\
       (forall r' rt', heap st !! r' = Some (Some (RenderTargetObj rt')) ->
          heap st2 !! r' = heap st !! r' /\
          forall p ofs, Ptr p ofs ∈ planes_of (RenderTarget.m_RenderBuffer rt') ->
                        p <> c0 -> heap st2 !! p = heap st !! p)).
Proof.
  intros Hflags Hptr0. split.
  - intros r c rt cells Hr Hptr Hc Hne Hlen.
    set (st0 := mkState (Device.set_RenderBuffer (ref_RenderTarget r) (gdevice st))
                        (heap st)).
    destruct (Clear_colour_fills flags red green blue alpha depth stencil
                (RenderTarget.m_RenderBuffer rt) c cells st0 Hflags)
      as (st1 & Hrun & Hd & Hl & Hx & Hw & _); try assumption.
    { unfold active_planes. cbn. rewrite Hr. reflexivity. }
    exists st1. split; [|split; [|split]].
    + run. step (EnableRenderTarget_run r st). exact Hrun.
    + rewrite Hd. reflexivity.
    + exact Hw.
    + apply Hx. auto.
  - intros r cells0 Hc0 Hlen0.
    set (st0 := mkState (Device.set_RenderBuffer ref_FrameBuffer (gdevice st))
                        (heap st)).
    destruct (Clear_colour_fills flags red green blue alpha depth stencil
                (Device.m_FrameBuffer (gdevice st)) c0 cells0 st0 Hflags)
      as (st2 & Hrun & Hd & Hl & Hx & Hw & _); try assumption.
    { reflexivity. }
    exists st2. split; [|split; [|split]].
    + run. step (DisableRenderTarget_run r st). exact Hrun.
    + rewrite Hd. reflexivity.
    + exact Hw.
    + intros r' rt' Hr'. split.
      * apply Hx. intros ->. cbn [heap st0] in *. congruence.
      * intros p ofs _ Hp. apply Hx. exact Hp.
Qed.

Lemma clear_follows_render_target_witness :
  (exists st1,
     (EnableRenderTarget context_global (Some 4%nat);;
      Clear context_global CLEAR_COLOUR_BUFFER 10 20 30 255 0 0) state_target
     = Done (tt, st1) /\
     Device.m_RenderBuffer (gdevice st1) = ref_RenderTarget 4 /\
     (forall i, 0 <= i < display_pixels state_target ->
        load_uint 4 (Ptr 7%nat 0) i st1 = Done (packed_colour 10 20 30 255, st1)) /\
     heap st1 !! 0%nat = heap state_target !! 0%nat) /\
  (exists st2,
     (DisableRenderTarget context_global (Some 4%nat);;
      Clear context_global CLEAR_COLOUR_BUFFER 10 20 30 255 0 0) state_target
     = Done (tt, st2) /\
     Device.m_RenderBuffer (gdevice st2) = ref_FrameBuffer /\
     (forall i, 0 <= i < display_pixels state_target ->
        load_uint 4 (Ptr 0%nat 0) i st2 = Done (packed_colour 10 20 30 255, st2)) /\
     (forall r' rt', heap state_target !! r' = Some (Some (RenderTargetObj rt')) ->
        heap st2 !! r' = heap state_target !! r' /\
        forall p ofs, Ptr p ofs ∈ planes_of (RenderTarget.m_RenderBuffer rt') ->
                      p <> 0%nat -> heap st2 !! p = heap state_target !! p)).
Proof.
  destruct (clear_follows_render_target CLEAR_COLOUR_BUFFER 10 20 30 255 0 0
              0%nat state_target) as [Henable Hdisable].
  - repeat split; vm_compute; congruence.
  - reflexivity.
  - split.
    + apply (Henable 4%nat 7%nat
               (RenderTarget.mk (Some 5%nat)
                  (FrameBuffer.mk (Ptr 7%nat 0) (Ptr 8%nat 0) (Ptr 9%nat 0)
                                  (Ptr 10%nat 0)))
               (replicate 16 Undef));
        first [ reflexivity | lia | vm_compute; discriminate ].
    + apply (Hdisable 4%nat (replicate 16 Undef));
        first [ reflexivity | vm_compute; discriminate ].
Defined.

(** The example of C7: on a device opened at 2 x 2, a clear of the
    default framebuffer with RGBA = (10, 20, 30, 255) sets all four
    pixels to 0x0A141EFF. *)
Example Clear_2x2_display :
  exists st',
    (NewDevice (Some (CreateDeviceParams.mk 2 2));;
     Clear GetContext CLEAR_COLOUR_BUFFER 10 20 30 255 0 0) (initial_State 0)
    = Done (tt, st') /\
    Forall (fun i => load_uint 4 (Ptr 0%nat 0) i st' = Done (0x0A141EFF, st'))
           [0; 1; 2; 3].
Proof.
  eexists. split; [vm_compute; reflexivity|].
  repeat constructor.
Qed.

(** C7 at its failing inputs.  [Clear] sizes its loop by the display,
    not by the active plane set.  On a 2 x 2 render target of a device
    opened at 1 x 1, a clear with RGBA = (10, 20, 30, 255) writes
    0x0A141EFF into pixel 0 alone: pixels 1 to 3 are still what
    [new char[]] left there, and after an earlier full clear they keep
    its colour.  On a 1 x 1 render target of a device opened at 2 x 2
    the clear writes past the end of the target's plane. *)
Theorem Clear_ignores_target_size :
  (exists st',
     clear_target 1 1 2 2 10 20 30 255 (initial_State 0) = Done (Some 4%nat, st') /\
     active_planes st'
       = Some (FrameBuffer.mk (Ptr 7%nat 0) (Ptr 8%nat 0) (Ptr 9%nat 0) (Ptr 10%nat 0)) /\
     heap st' !! 7%nat
       = Some (Some (Array (inj_bytes [xff; x1e; x14; x0a] ++ replicate 12 Undef))) /\
     load_uint 4 (Ptr 7%nat 0) 0 st' = Done (0x0A141EFF, st') /\
     Forall (fun i => load_uint 4 (Ptr 7%nat 0) i st' = Undefined) [1; 2; 3]) /\
  (exists st',
     (rt ← clear_target 2 2 2 2 1 2 3 4;
      SetViewport GetContext 1 1;;
      Clear GetContext CLEAR_COLOUR_BUFFER 10 20 30 255 0 0) (initial_State 0)
     = Done (tt, st') /\
     Device.m_RenderBuffer (gdevice st') = ref_RenderTarget 4 /\
     load_uint 4 (Ptr 7%nat 0) 0 st' = Done (0x0A141EFF, st') /\
     Forall (fun i => load_uint 4 (Ptr 7%nat 0) i st' = Done (0x01020304, st'))
            [1; 2; 3]) /\
  clear_target 2 2 1 1 10 20 30 255 (initial_State 0) = Undefined.
Proof.
  split; [|split].
  - eexists. split; [vm_compute; reflexivity|].
    split; [reflexivity|]. split; [reflexivity|]. split; [reflexivity|].
    repeat constructor.
  - eexists. split; [vm_compute; reflexivity|].
    split; [reflexivity|]. split; [reflexivity|].
    repeat constructor.
  - vm_compute. reflexivity.
Qed.

(** ** Drawing *)

Lemma GetIndex_read (type : Type_) (index_buffer : ptr) (index : Z) (st : State) :
  GetIndex type index_buffer index st
  = lift (read_index (heap st) type index_buffer index) st.
Proof.
  unfold read_index.
  destruct type; unfold GetIndex; rewrite run_bind, load_uint_read;
    cbn [TYPE_SIZE];
    destruct (read_uint (heap st) _ index_buffer index) as [v|]; cbn [lift];
    try reflexivity.
  unfold from_option. destruct (float_to_uint32 v); reflexivity.
Qed.

Lemma set_Buffer_set_Buffer (p q : ptr) (s : VertexStream.t) :
  VertexStream.set_Buffer p (VertexStream.set_Buffer q s)
  = VertexStream.set_Buffer p s.
Proof. reflexivity. Qed.

Lemma draw_frame_refl st : draw_frame st st.
Proof.
  constructor; auto.
  - destruct st as [[] ?]. reflexivity.
  - intros j sj H. exists sj. split; [assumption|left; reflexivity].
Qed.

Lemma draw_frame_heap st s h :
  draw_frame st s ->
  (length (heap s) <= length h)%nat ->
  (forall b, (b < length (heap st))%nat -> h !! b = heap s !! b) ->
  draw_frame st (mkState (gdevice s) h).
Proof.
  intros [Hd Hl Hhl Hh Hs] Hlen Hsame. constructor; cbn [gdevice heap]; auto.
  - lia.
  - intros b Hb. rewrite Hsame by assumption. apply Hh. assumption.
Qed.

Lemma slot_drawn_active n0 s s' :
  slot_drawn n0 s s' ->
  VertexStream.m_Size s' = VertexStream.m_Size s /\
  VertexStream.m_Source s' = VertexStream.m_Source s /\
  VertexStream.m_Stride s' = VertexStream.m_Stride s.
Proof.
  intros [->|(_ & b & -> & _)]; auto.
Qed.

Lemma allocate_loop_frame (count : Z) (st s' : State) :
  for_loop MAX_VERTEX_STREAM_COUNT (fun i =>
    vs ← get_stream i;
    if 0 <? VertexStream.m_Size vs then
      p ← new_array (wrap32 (VertexStream.m_Size vs * count));
      set_stream i (VertexStream.set_Buffer p vs)
    else mret tt) st = Done (tt, s') ->
  draw_frame st s' /\
  buffers_fresh (length (heap st)) MAX_VERTEX_STREAM_COUNT s'.
Proof.
  intros Hrun.
  apply (for_loop_invariant _ _
           (fun k s => draw_frame st s /\ buffers_fresh (length (heap st)) k s)
           st s') in Hrun; [assumption| |].
  - intros k s s1 Hk [Hf Hfresh] Hbody.
    apply bind_Done_inv in Hbody as (vs & s0 & Hget & Hbody).
    apply get_stream_Done in Hget as [Hvs ->].
    destruct (Z.ltb_spec 0 (VertexStream.m_Size vs)) as [Hact|Hin].
    + apply bind_Done_inv in Hbody as (p & s2 & Hnew & Hset).
      rewrite new_array_run in Hnew. injection Hnew as <- <-.
      apply set_stream_Done in Hset as [Hlt [= ->]].
      destruct Hf as [Hd Hl Hhl Hh Hs].
      split; [constructor|].
      * cbn. rewrite Hd. reflexivity.
      * rewrite streams_with_stream, length_insert. exact Hl.
      * rewrite heap_with_stream. cbn [heap]. rewrite length_app. lia.
      * intros b Hb. rewrite heap_with_stream. cbn [heap].
        rewrite lookup_app_l by lia. apply Hh. assumption.
      * intros j sj Hj. rewrite streams_with_stream.
        destruct (Hs j sj Hj) as (sj' & Hj' & Hdrawn).
        destruct (decide (j = k)) as [->|Hjk].
        -- cbn [streams gdevice] in *. rewrite list_lookup_insert_eq by assumption.
           eexists. split; [reflexivity|].
           assert (vs = sj') by (unfold streams in *; congruence). subst sj'.
           destruct (slot_drawn_active _ _ _ Hdrawn) as (Hsz & _ & _).
           right. split; [unfold active; lia|].
           exists (length (heap s)). split; [|lia].
           destruct Hdrawn as [->|(_ & b & -> & _)]; reflexivity.
        -- cbn [streams gdevice] in *. rewrite list_lookup_insert_ne by auto.
           eauto.
      * intros j sj Hj Hsj Hactive. rewrite streams_with_stream in Hsj.
        cbn [streams gdevice] in Hsj.
        destruct (decide (j = k)) as [->|Hjk].
        -- rewrite list_lookup_insert_eq in Hsj by assumption.
           injection Hsj as <-. exists (length (heap s)). split; [reflexivity|lia].
        -- rewrite list_lookup_insert_ne in Hsj by auto.
           apply (Hfresh j sj); [lia|assumption|assumption].
    + injection Hbody as <-. split; [assumption|].
      intros j sj Hj Hsj Hactive.
      destruct (decide (j = k)) as [->|Hjk].
      * assert (sj = vs) by congruence. subst sj. unfold active in Hactive. lia.
      * apply (Hfresh j sj); [lia|assumption|assumption].
  - split; [apply draw_frame_refl|]. intros j sj Hj. lia.
Qed.

Lemma gather_row_frame (n0 : nat) (i : nat) (index : Z) (st s s' : State) :
  draw_frame st s /\ buffers_fresh (length (heap st)) MAX_VERTEX_STREAM_COUNT s ->
  for_loop MAX_VERTEX_STREAM_COUNT (fun j =>
    vs ← get_stream j;
    if 0 <? VertexStream.m_Size vs then
      memcpy (ptr_add (VertexStream.m_Buffer vs)
                      (wrap32 (Z.of_nat i * VertexStream.m_Size vs)))
             (ptr_add (VertexStream.m_Source vs)
                      (wrap32 (index * VertexStream.m_Stride vs)))
             (VertexStream.m_Size vs)
    else mret tt) s = Done (tt, s') ->
  draw_frame st s' /\ buffers_fresh (length (heap st)) MAX_VERTEX_STREAM_COUNT s'.
Proof.
  intros H0 Hrun.
  apply (for_loop_invariant _ _
           (fun _ s => draw_frame st s /\
                       buffers_fresh (length (heap st)) MAX_VERTEX_STREAM_COUNT s)
           s s') in Hrun; [assumption| |assumption].
  clear. intros j s s1 Hj [Hf Hfresh] Hbody.
  apply bind_Done_inv in Hbody as (vs & s0 & Hget & Hbody).
  apply get_stream_Done in Hget as [Hvs ->].
  destruct (Z.ltb_spec 0 (VertexStream.m_Size vs)) as [Hact|Hin].
  - destruct (Hfresh j vs Hj Hvs Hact) as (b0 & Hb0 & Hge).
    rewrite Hb0 in Hbody. cbn [ptr_add] in Hbody.
    apply memcpy_Done in Hbody
      as [[= ->]|(b & ofs & cells & cells' & [= <- <-] & Hb & Hlen & [= ->])].
    + split; assumption.
    + split.
      * apply draw_frame_heap; [assumption| |].
        -- rewrite length_insert. lia.
        -- intros x Hx. apply list_lookup_insert_ne. lia.
      * exact Hfresh.
  - injection Hbody as <-. split; assumption.
Qed.

Lemma gather_loop_frame (count : Z) (type : Type_) (index_buffer : ptr)
    (st s s' : State) :
  draw_frame st s /\ buffers_fresh (length (heap st)) MAX_VERTEX_STREAM_COUNT s ->
  for_loop (Z.to_nat count) (fun i =>
    index ← GetIndex type index_buffer (Z.of_nat i);
    for_loop MAX_VERTEX_STREAM_COUNT (fun j =>
      vs ← get_stream j;
      if 0 <? VertexStream.m_Size vs then
        memcpy (ptr_add (VertexStream.m_Buffer vs)
                        (wrap32 (Z.of_nat i * VertexStream.m_Size vs)))
               (ptr_add (VertexStream.m_Source vs)
                        (wrap32 (index * VertexStream.m_Stride vs)))
               (VertexStream.m_Size vs)
      else mret tt)) s = Done (tt, s') ->
  draw_frame st s' /\ buffers_fresh (length (heap st)) MAX_VERTEX_STREAM_COUNT s'.
Proof.
  intros H0 Hrun.
  apply (for_loop_invariant _ _
           (fun _ s => draw_frame st s /\
                       buffers_fresh (length (heap st)) MAX_VERTEX_STREAM_COUNT s)
           s s') in Hrun; [assumption| |assumption].
  clear. intros i s s1 Hi Hinv Hbody.
  apply bind_Done_inv in Hbody as (index & s0 & Hget & Hbody).
  rewrite GetIndex_read in Hget. apply lift_Done in Hget as [_ ->].
  eapply (gather_row_frame (length (heap st))); eassumption.
Qed.

(** C9.  A draw that returns has changed the device only in the
    compaction-buffer pointer of active streams, each replaced by a
    block that did not exist before the call: every stream keeps its
    source pointer, element size and stride, inactive streams are
    untouched, and the programs, register banks, write masks, display
    dimensions, default planes and active-plane pointer are as before.
    Every block that existed before the call has its old contents. *)
Theorem DrawElements_frame
    (context : HContext) (prim_type count : Z) (type : Type_)
    (index_buffer : ptr) (st st' : State) :
  DrawElements context prim_type count type index_buffer st = Done (tt, st') ->
  (forall j s, streams st !! j = Some s ->
     exists s', streams st' !! j = Some s' /\
       VertexStream.m_Source s' = VertexStream.m_Source s /\
       VertexStream.m_Size s' = VertexStream.m_Size s /\
       VertexStream.m_Stride s' = VertexStream.m_Stride s /\
       (s' = s \/
        (0 < VertexStream.m_Size s /\
         exists b, VertexStream.m_Buffer s' = Ptr b 0 /\ heap st !! b = None))) /\
  length (streams st') = length (streams st) /\
  gdevice st' = Device.set_VertexStreams (streams st') (gdevice st) /\
  (Device.m_VertexProgram (gdevice st') = Device.m_VertexProgram (gdevice st) /\
   Device.m_FragmentProgram (gdevice st') = Device.m_FragmentProgram (gdevice st) /\
   Device.m_VertexProgramRegisters (gdevice st')
     = Device.m_VertexProgramRegisters (gdevice st) /\
   Device.m_FragmentProgramRegisters (gdevice st')
     = Device.m_FragmentProgramRegisters (gdevice st) /\
   Device.m_RedMask (gdevice st') = Device.m_RedMask (gdevice st) /\
   Device.m_GreenMask (gdevice st') = Device.m_GreenMask (gdevice st) /\
   Device.m_BlueMask (gdevice st') = Device.m_BlueMask (gdevice st) /\
   Device.m_AlphaMask (gdevice st') = Device.m_AlphaMask (gdevice st) /\
   Device.m_DepthMask (gdevice st') = Device.m_DepthMask (gdevice st) /\
   Device.m_IndexMask (gdevice st') = Device.m_IndexMask (gdevice st) /\
   Device.m_StencilMask (gdevice st') = Device.m_StencilMask (gdevice st) /\
   Device.m_DisplayWidth (gdevice st') = Device.m_DisplayWidth (gdevice st) /\
   Device.m_DisplayHeight (gdevice st') = Device.m_DisplayHeight (gdevice st) /\
   Device.m_RenderBuffer (gdevice st') = Device.m_RenderBuffer (gdevice st)) /\
  (forall b o, heap st !! b = Some o -> heap st' !! b = Some o).
Proof.
  intros Hrun. unfold DrawElements in Hrun.
  apply bind_Done_inv in Hrun as ([] & sa & H0 & Hrun).
  apply assert_Done in H0 as [_ [= ->]].
  apply bind_Done_inv in Hrun as ([] & sb & H0 & Hrun).
  apply assert_Done in H0 as [_ [= ->]].
  apply bind_Done_inv in Hrun as ([] & s1 & Halloc & Hgather).
  apply allocate_loop_frame in Halloc.
  apply (gather_loop_frame _ _ _ st) in Hgather; [|assumption].
  destruct Hgather as [[Hd Hl Hhl Hh Hs] _].
  split; [|split; [assumption|split; [assumption|split]]].
  - intros j s Hj. destruct (Hs j s Hj) as (s' & Hj' & Hdrawn).
    exists s'. split; [assumption|].
    destruct (slot_drawn_active _ _ _ Hdrawn) as (Hsz & Hsrc & Hstr).
    repeat split; try assumption.
    destruct Hdrawn as [->|(Hact & b & -> & Hb)]; [left; reflexivity|].
    right. split; [exact Hact|]. exists b. split; [reflexivity|].
    apply lookup_ge_None. lia.
  - rewrite Hd. repeat split; reflexivity.
  - intros b o Hb. rewrite Hh; [assumption|].
    eapply lookup_lt_Some. eassumption.
Qed.

(** *** The gather *)

Lemma read_cells_agree (h h' : list (option object)) (p : ptr) (n : Z) vs :
  (forall b, (b < length h)%nat -> h' !! b = h !! b) ->
  read_cells h p n = Some vs ->
  read_cells h' p n = Some vs.
Proof.
  intros Hagree. destruct p as [|b ofs]; [discriminate|].
  unfold read_cells, read_array.
  destruct (h !! b) as [o|] eqn:Hb; [|discriminate].
  rewrite Hagree by (eapply lookup_lt_Some; eassumption). rewrite Hb. auto.
Qed.

Lemma read_index_agree (h h' : list (option object)) type p i idx :
  (forall b, (b < length h)%nat -> h' !! b = h !! b) ->
  read_index h type p i = Some idx ->
  read_index h' type p i = Some idx.
Proof.
  intros Hagree. unfold read_index, read_uint, read_bytes.
  destruct (read_cells h _ _) as [vs|] eqn:E; [|discriminate].
  rewrite (read_cells_agree _ _ _ _ _ Hagree E). auto.
Qed.

Lemma read_cells_block (h : list (option object)) (p : ptr) (n : Z) vs :
  read_cells h p n = Some vs ->
  exists b ofs, p = Ptr b ofs /\ (b < length h)%nat /\
                Z.of_nat (length vs) = n.
Proof.
  destruct p as [|b ofs]; [discriminate|]. unfold read_cells, read_array.
  destruct (h !! b) as [[[]|]|] eqn:Hb; try discriminate.
  intros Hld. exists b, ofs. split; [reflexivity|].
  split; [eapply lookup_lt_Some; eassumption|].
  pose proof (array_load_length _ _ _ _ Hld).
  apply array_load_Some in Hld. lia.
Qed.

Lemma gathering_rows_le st count type ib k rows rows' s :
  (forall j sj, (j < k)%nat -> streams st !! j = Some sj -> active sj ->
                (rows' j <= rows j)%nat) ->
  gathering st count type ib k rows s ->
  gathering st count type ib k rows' s.
Proof.
  intros Hle [Hd Hl Hh Hi Ha Hdis]. constructor; try assumption.
  intros j sj Hj Hsj Hact.
  destruct (Ha j sj Hj Hsj Hact) as (b & cells & H1 & H2 & H3 & H4 & H5).
  exists b, cells. repeat split; try assumption.
  intros i Hlt. apply H5. specialize (Hle j sj Hj Hsj Hact). lia.
Qed.

(** The slot of the current state and the slot it was at the start. *)
Lemma gathering_slot st count type ib k rows s j sj' :
  gathering st count type ib k rows s ->
  streams s !! j = Some sj' ->
  exists sj, streams st !! j = Some sj /\
             VertexStream.m_Size sj' = VertexStream.m_Size sj /\
             ((j < k)%nat -> active sj ->
              exists b, VertexStream.m_Buffer sj' = Ptr b 0 /\
                        (length (heap st) <= b < length (heap s))%nat).
Proof.
  intros [Hd Hl Hh Hi Ha Hdis] Hj'.
  destruct (lookup_lt_is_Some_2 (streams st) j) as [sj Hj].
  { rewrite <- Hl. eapply lookup_lt_Some. eassumption. }
  exists sj. split; [assumption|].
  destruct (decide (j < k)%nat) as [Hlt|Hge].
  - destruct (Z.ltb_spec 0 (VertexStream.m_Size sj)) as [Hact|Hin].
    + destruct (Ha j sj Hlt Hj Hact) as (b & cells & H1 & H2 & H3 & _).
      rewrite H1 in Hj'. injection Hj' as <-. split; [reflexivity|].
      intros _ _. exists b. split; [reflexivity|]. split; [assumption|].
      eapply lookup_lt_Some. eassumption.
    + rewrite (Hi j sj Hj) in Hj' by (right; unfold active; lia).
      injection Hj' as <-. split; [reflexivity|].
      intros _ Hact. unfold active in Hact. lia.
  - rewrite (Hi j sj Hj) in Hj' by (left; lia).
    injection Hj' as <-. split; [reflexivity|]. intros. lia.
Qed.

Lemma gathering_start st count type ib :
  gathering st count type ib 0 (fun _ => 0%nat) st.
Proof.
  constructor; auto; try (intros; lia).
  destruct st as [[] ?]. reflexivity.
Qed.

Lemma allocate_loop_total (st : State) (count : Z) (type : Type_) (ib : ptr) :
  0 <= count ->
  length (streams st) = MAX_VERTEX_STREAM_COUNT ->
  (forall j sj, streams st !! j = Some sj -> active sj ->
                VertexStream.m_Size sj * count < 2 ^ 32) ->
  exists s1,
    for_loop MAX_VERTEX_STREAM_COUNT (fun i =>
      vs ← get_stream i;
      if 0 <? VertexStream.m_Size vs then
        p ← new_array (wrap32 (VertexStream.m_Size vs * count));
        set_stream i (VertexStream.set_Buffer p vs)
      else mret tt) st = Done (tt, s1) /\
    gathering st count type ib MAX_VERTEX_STREAM_COUNT (fun _ => 0%nat) s1.
Proof.
  intros Hcount Hlen Hfit.
  match goal with |- context [for_loop _ ?body] =>
    destruct (for_loop_total MAX_VERTEX_STREAM_COUNT body
                (fun k s => gathering st count type ib k (fun _ => 0%nat) s /\
                            (length (heap st) <= length (heap s))%nat)
                st) as (s1 & Hrun & Hg & _)
  end.
  - split; [apply gathering_start|lia].
  - intros k s Hk [Hg Hn0].
    destruct (lookup_lt_is_Some_2 (streams st) k ltac:(lia)) as [sk Hsk].
    pose proof Hg as [Hd Hl Hh Hi Ha Hdis].
    assert (Hsk' : streams s !! k = Some sk) by (apply Hi; [assumption|left; lia]).
    destruct (Z.ltb_spec 0 (VertexStream.m_Size sk)) as [Hact|Hin].
    + set (n := wrap32 (VertexStream.m_Size sk * count)).
      set (s0 := mkState (gdevice s) (heap s ++ [Some (Array (replicate (Z.to_nat n) Undef))])).
      set (sk' := VertexStream.set_Buffer (Ptr (length (heap s)) 0) sk).
      assert (Hklt : (k < length (streams s))%nat) by (rewrite Hl; lia).
      exists (with_stream k sk' s0). split.
      * run. step (get_stream_run _ _ _ Hsk').
        destruct (Z.ltb_spec 0 (VertexStream.m_Size sk)); [|lia].
        step (new_array_run n s). apply (set_stream_run k sk' s0). exact Hklt.
      * rewrite heap_with_stream. cbn [heap s0]. rewrite length_app.
        split; [|lia]. constructor.
        -- cbn. rewrite Hd. reflexivity.
        -- rewrite streams_with_stream, length_insert. exact Hl.
        -- intros b Hb. rewrite heap_with_stream. cbn [heap s0].
           rewrite lookup_app_l by lia. apply Hh. assumption.
        -- intros j sj Hj Hcase. rewrite streams_with_stream.
           cbn [streams gdevice s0].
           assert (j <> k).
           { intros ->. destruct Hcase as [?|Hna]; [lia|].
             apply Hna. unfold active. congruence. }
           rewrite list_lookup_insert_ne by auto.
           apply Hi; [assumption|]. destruct Hcase; [left; lia|right; assumption].
        -- intros j sj Hj Hsj Hactive. rewrite streams_with_stream, heap_with_stream.
           cbn [streams gdevice heap s0].
           destruct (decide (j = k)) as [->|Hjk].
           ++ assert (sj = sk) by congruence. subst sj.
              exists (length (heap s)), (replicate (Z.to_nat n) Undef).
              rewrite list_lookup_insert_eq by assumption.
              split; [reflexivity|]. split; [lia|]. split.
              { rewrite lookup_app_r by lia. rewrite Nat.sub_diag. reflexivity. }
              split; [|intros i Hi0; lia].
              rewrite length_replicate. unfold n. rewrite wrap32_small.
              ** rewrite Z2Nat.id; [reflexivity|]. apply Z.mul_nonneg_nonneg; lia.
              ** split; [apply Z.mul_nonneg_nonneg; lia|]. eapply Hfit; eassumption.
           ++ destruct (Ha j sj ltac:(lia) Hsj Hactive)
                as (b & cells & H1 & H2 & H3 & H4 & H5).
              exists b, cells. rewrite list_lookup_insert_ne by auto.
              split; [assumption|]. split; [assumption|]. split.
              { rewrite lookup_app_l by (eapply lookup_lt_Some; eassumption).
                assumption. }
              split; assumption.
        -- intros j j' sj sj' Hne Hj Hj' Hsj Hsj' Hactj Hactj'.
           rewrite streams_with_stream in Hsj, Hsj'.
           cbn [streams gdevice s0] in Hsj, Hsj'.
           destruct (decide (j = k)) as [->|Hjk];
             destruct (decide (j' = k)) as [->|Hjk']; try congruence.
           ++ rewrite list_lookup_insert_eq in Hsj by assumption.
              rewrite list_lookup_insert_ne in Hsj' by auto.
              injection Hsj as <-.
              destruct (gathering_slot _ _ _ _ _ _ _ _ _ Hg Hsj')
                as (sj0 & _ & Hsz & Hbuf).
              destruct Hbuf as (b & Hb & Hrange);
                [lia | unfold active in *; lia |].
              rewrite Hb. cbn. intros [= E]. lia.
           ++ rewrite list_lookup_insert_ne in Hsj by auto.
              rewrite list_lookup_insert_eq in Hsj' by assumption.
              injection Hsj' as <-.
              destruct (gathering_slot _ _ _ _ _ _ _ _ _ Hg Hsj)
                as (sj0 & _ & Hsz & Hbuf).
              destruct Hbuf as (b & Hb & Hrange);
                [lia | unfold active in *; lia |].
              rewrite Hb. cbn. intros [= E]. lia.
           ++ rewrite list_lookup_insert_ne in Hsj by auto.
              rewrite list_lookup_insert_ne in Hsj' by auto.
              apply (Hdis j j' sj sj'); auto; lia.
    + exists s. split.
      * run. step (get_stream_run _ _ _ Hsk').
        destruct (Z.ltb_spec 0 (VertexStream.m_Size sk)); [lia|reflexivity].
      * split; [|assumption]. constructor; try assumption.
        -- intros j sj Hj Hcase. apply Hi; [assumption|].
           destruct Hcase; [left; lia|right; assumption].
        -- intros j sj Hj Hsj Hactive.
           destruct (decide (j = k)) as [->|Hjk].
           ++ assert (sj = sk) by congruence. subst sj. unfold active in Hactive. lia.
           ++ apply Ha; [lia|assumption|assumption].
        -- intros j j' sj sj' Hne Hj Hj' Hsj Hsj' Hactj Hactj'.
           destruct (decide (j = k)) as [->|Hjk].
           { assert (sj = sk) by congruence. subst sj. unfold active in Hactj. lia. }
           destruct (decide (j' = k)) as [->|Hjk'].
           { assert (sj' = sk) by congruence. subst sj'. unfold active in Hactj'. lia. }
           apply (Hdis j j' sj sj'); auto; lia.
  - exists s1. split; assumption.
Qed.

Lemma gather_row_total (st : State) (count : Z) (type : Type_) (ib : ptr)
    (i : nat) (idx : Z) (s : State) :
  Z.of_nat i < count ->
  read_index (heap st) type ib (Z.of_nat i) = Some idx ->
  (forall j sj, streams st !! j = Some sj -> active sj ->
     VertexStream.m_Size sj * count < 2 ^ 32 /\
     0 <= idx * VertexStream.m_Stride sj < 2 ^ 32 /\
     exists bytes,
       read_cells (heap st)
         (ptr_add (VertexStream.m_Source sj) (idx * VertexStream.m_Stride sj))
         (VertexStream.m_Size sj) = Some bytes) ->
  length (streams st) = MAX_VERTEX_STREAM_COUNT ->
  gathering st count type ib MAX_VERTEX_STREAM_COUNT (fun _ => i) s ->
  exists s',
    for_loop MAX_VERTEX_STREAM_COUNT (fun j =>
      vs ← get_stream j;
      if 0 <? VertexStream.m_Size vs then
        memcpy (ptr_add (VertexStream.m_Buffer vs)
                        (wrap32 (Z.of_nat i * VertexStream.m_Size vs)))
               (ptr_add (VertexStream.m_Source vs)
                        (wrap32 (idx * VertexStream.m_Stride vs)))
               (VertexStream.m_Size vs)
      else mret tt) s = Done (tt, s') /\
    gathering st count type ib MAX_VERTEX_STREAM_COUNT (fun _ => S i) s'.
Proof.
  intros Hi Hidx Hsrc Hlen Hg0.
  match goal with |- context [for_loop _ ?body] =>
    destruct (for_loop_total MAX_VERTEX_STREAM_COUNT body
                (fun j s => gathering st count type ib MAX_VERTEX_STREAM_COUNT
                              (fun j' => if (j' <? j)%nat then S i else i) s)
                s) as (s' & Hrun & Hg)
  end.
  - eapply gathering_rows_le; [|exact Hg0]. intros j sj _ _ _. cbn. lia.
  - clear s Hg0. intros j s Hj Hg.
    destruct (lookup_lt_is_Some_2 (streams st) j ltac:(lia)) as [sj Hsj].
    pose proof Hg as [Hd Hl Hh Hin Ha Hdis].
    destruct (Z.ltb_spec 0 (VertexStream.m_Size sj)) as [Hact|Hinact].
    + (* an active stream: one element is copied *)
      destruct (Ha j sj Hj Hsj Hact) as (b & cells & Hslot & Hb0 & Hb & Hcells & Hrows).
      destruct (Hsrc j sj Hsj Hact) as (Hfit & Hofs & bytes & Hread).
      destruct (read_cells_block _ _ _ _ Hread) as (bs & os & Hp & Hbs & Hbytes).
      assert (Hread' : read_cells (heap s)
                         (ptr_add (VertexStream.m_Source sj)
                                  (idx * VertexStream.m_Stride sj))
                         (VertexStream.m_Size sj) = Some bytes)
        by (eapply read_cells_agree; eassumption).
      assert (Hrow : 0 <= Z.of_nat i * VertexStream.m_Size sj
                     /\ Z.of_nat i * VertexStream.m_Size sj
                        + VertexStream.m_Size sj
                        <= VertexStream.m_Size sj * count) by nia.
      destruct (array_store cells (0 + Z.of_nat i * VertexStream.m_Size sj) bytes)
        as [cells'|] eqn:Hst.
      2:{ exfalso. unfold array_store in Hst.
          destruct (Z.leb_spec 0 (0 + Z.of_nat i * VertexStream.m_Size sj)); [|lia].
          destruct (Z.leb_spec
                      (0 + Z.of_nat i * VertexStream.m_Size sj
                       + Z.of_nat (length bytes))
                      (Z.of_nat (length cells))); [discriminate|lia]. }
      exists (mkState (gdevice s) (<[b := Some (Array cells')]> (heap s))). split.
      * run. step (get_stream_run _ _ _ Hslot).
        cbn [VertexStream.set_Buffer VertexStream.m_Size VertexStream.m_Buffer
             VertexStream.m_Source VertexStream.m_Stride].
        destruct (Z.ltb_spec 0 (VertexStream.m_Size sj)); [|lia].
        rewrite (wrap32_small (Z.of_nat i * _)) by lia.
        rewrite (wrap32_small (idx * _)) by lia.
        apply (memcpy_run _ _ _ bytes b (0 + Z.of_nat i * VertexStream.m_Size sj)
                 cells cells'); try assumption; try reflexivity.
        -- unfold active in Hact. lia.
        -- rewrite Hp in *. cbn [ptr_add overlap].
           destruct (Nat.eqb_spec b bs); [lia|reflexivity].
      * constructor; cbn [gdevice heap streams]; try assumption.
        -- intros x Hx. rewrite list_lookup_insert_ne by lia. apply Hh. assumption.
        -- intros j2 sj2 Hj2 Hsj2 Hact2.
           destruct (Ha j2 sj2 Hj2 Hsj2 Hact2)
             as (b2 & cells2 & Hslot2 & Hb02 & Hb2 & Hcells2 & Hrows2).
           destruct (decide (j2 = j)) as [->|Hne].
           ++ assert (sj2 = sj) by congruence. subst sj2.
              assert (b2 = b).
              { pose proof Hslot2 as E. rewrite Hslot in E.
                unfold VertexStream.set_Buffer in E. congruence. }
              subst b2.
              exists b, cells'.
              split; [assumption|]. split; [assumption|]. split.
              { apply list_lookup_insert_eq. eapply lookup_lt_Some. eassumption. }
              split.
              { rewrite (array_store_length _ _ _ _ Hst). assumption. }
              rewrite (proj2 (Nat.ltb_lt j (S j))) by lia.
              intros i' Hi'. destruct (decide (i' = i)) as [->|Hne'].
              ** intros idx' Hidx'. assert (idx' = idx) by congruence. subst idx'.
                 rewrite Hread. rewrite <- Hbytes at 2.
                 replace (Z.of_nat i * VertexStream.m_Size sj)
                   with (0 + Z.of_nat i * VertexStream.m_Size sj) by lia.
                 eapply array_load_store_same. eassumption.
              ** intros idx' Hidx'.
                 rewrite (array_load_store_other _ _ _ _ _ _ Hst) by (left; nia).
                 apply Hrows; [|assumption].
                 rewrite Nat.ltb_irrefl. lia.
           ++ assert (b2 <> b).
              { intros ->.
                apply (Hdis j2 j _ _ Hne Hj2 Hj Hslot2 Hslot); auto. }
              exists b2, cells2.
              split; [assumption|]. split; [assumption|]. split.
              { rewrite list_lookup_insert_ne by auto. assumption. }
              split; [assumption|].
              intros i' Hi'. apply Hrows2.
              destruct (Nat.ltb_spec j2 j), (Nat.ltb_spec j2 (S j)); lia.
    + (* an inactive stream: nothing happens *)
      assert (Hslot : streams s !! j = Some sj)
        by (apply Hin; [assumption|right; unfold active; lia]).
      exists s. split.
      * run. step (get_stream_run _ _ _ Hslot).
        destruct (Z.ltb_spec 0 (VertexStream.m_Size sj)); [lia|reflexivity].
      * eapply gathering_rows_le; [|exact Hg].
        intros j2 sj2 Hj2 Hsj2 Hact2. cbv beta.
        destruct (decide (j2 = j)) as [->|Hne].
        -- assert (sj2 = sj) by congruence. subst sj2. unfold active in Hact2. lia.
        -- destruct (Nat.ltb_spec j2 j), (Nat.ltb_spec j2 (S j)); lia.
  - exists s'. split; [assumption|].
    eapply gathering_rows_le; [|exact Hg].
    intros j sj Hj _ _. cbv beta. rewrite (proj2 (Nat.ltb_lt _ _) Hj). lia.
Qed.

Lemma gather_loop_total (st : State) (count : Z) (type : Type_) (ib : ptr)
    (s1 : State) :
  (forall i, 0 <= i < count ->
     exists idx, read_index (heap st) type ib i = Some idx) ->
  (forall j sj, streams st !! j = Some sj -> active sj ->
     VertexStream.m_Size sj * count < 2 ^ 32 /\
     forall i idx, 0 <= i < count ->
       read_index (heap st) type ib i = Some idx ->
       0 <= idx * VertexStream.m_Stride sj < 2 ^ 32 /\
       exists bytes,
         read_cells (heap st)
           (ptr_add (VertexStream.m_Source sj) (idx * VertexStream.m_Stride sj))
           (VertexStream.m_Size sj) = Some bytes) ->
  length (streams st) = MAX_VERTEX_STREAM_COUNT ->
  gathering st count type ib MAX_VERTEX_STREAM_COUNT (fun _ => 0%nat) s1 ->
  exists s',
    for_loop (Z.to_nat count) (fun i =>
      index ← GetIndex type ib (Z.of_nat i);
      for_loop MAX_VERTEX_STREAM_COUNT (fun j =>
        vs ← get_stream j;
        if 0 <? VertexStream.m_Size vs then
          memcpy (ptr_add (VertexStream.m_Buffer vs)
                          (wrap32 (Z.of_nat i * VertexStream.m_Size vs)))
                 (ptr_add (VertexStream.m_Source vs)
                          (wrap32 (index * VertexStream.m_Stride vs)))
                 (VertexStream.m_Size vs)
        else mret tt)) s1 = Done (tt, s') /\
    gathering st count type ib MAX_VERTEX_STREAM_COUNT (fun _ => Z.to_nat count) s'.
Proof.
  intros Hidx Hsrc Hlen Hg1.
  match goal with |- context [for_loop _ ?body] =>
    destruct (for_loop_total (Z.to_nat count) body
                (fun i s => gathering st count type ib MAX_VERTEX_STREAM_COUNT
                              (fun _ => i) s)
                s1 Hg1) as (s' & Hrun & Hg)
  end.
  - intros i s Hi Hg.
    destruct (Hidx (Z.of_nat i) ltac:(lia)) as [idx Hread].
    assert (Hget : GetIndex type ib (Z.of_nat i) s = Done (idx, s)).
    { rewrite GetIndex_read.
      rewrite (read_index_agree (heap st) (heap s) type ib (Z.of_nat i) idx);
        [reflexivity| |assumption].
      apply (g_heap _ _ _ _ _ _ _ Hg). }
    destruct (gather_row_total st count type ib i idx s) as (s2 & Hrow & Hg2);
      try assumption; try lia.
    { intros j sj Hsj Hact. destruct (Hsrc j sj Hsj Hact) as [Hfit Hrows].
      split; [assumption|]. apply (Hrows (Z.of_nat i) idx); [lia|assumption]. }
    exists s2. split; [|assumption].
    run. step Hget. exact Hrow.
  - exists s'. split; assumption.
Qed.

(** C1.  The decoded [i]-th index [idx_i] is what [read_index] gives
    for the bytes of the index buffer: the [TYPE_SIZE type] bytes at
    byte offset [i * TYPE_SIZE type], little-endian, converted to
    [uint32_t] as the element type says.  A draw whose indices decode,
    whose selected elements lie inside the streams' source data (at
    offsets below 2^32) and whose compaction buffers have a size below
    2^32 completes, and afterwards, for each active stream and each
    draw position [i < count], the [size] bytes of the stream's
    compaction buffer at [i * size] are the [size] bytes that the
    stream's source data held at [idx_i * stride] before the call (and
    still holds). *)
Theorem DrawElements_gathers
    (prim_type count : Z) (type : Type_) (index_buffer : ptr) (st : State) :
  index_buffer <> Null ->
  0 <= count ->
  length (streams st) = MAX_VERTEX_STREAM_COUNT ->
  (forall i, 0 <= i < count ->
     exists idx, read_index (heap st) type index_buffer i = Some idx) ->
  (forall j s, streams st !! j = Some s -> 0 < VertexStream.m_Size s ->
     VertexStream.m_Size s * count < 2 ^ 32 /\
     forall i idx, 0 <= i < count ->
       read_index (heap st) type index_buffer i = Some idx ->
       0 <= idx * VertexStream.m_Stride s < 2 ^ 32 /\
       exists bytes,
         read_cells (heap st)
           (ptr_add (VertexStream.m_Source s) (idx * VertexStream.m_Stride s))
           (VertexStream.m_Size s) = Some bytes) ->
  exists st',
    DrawElements context_global prim_type count type index_buffer st
      = Done (tt, st') /\
    forall j s, streams st !! j = Some s -> 0 < VertexStream.m_Size s ->
      exists s',
        streams st' !! j = Some s' /\
        forall i idx bytes, 0 <= i < count ->
          read_index (heap st) type index_buffer i = Some idx ->
          read_cells (heap st)
            (ptr_add (VertexStream.m_Source s) (idx * VertexStream.m_Stride s))
            (VertexStream.m_Size s) = Some bytes ->
          GetIndex type index_buffer i st' = Done (idx, st') /\
          load_cells (ptr_add (VertexStream.m_Buffer s')
                              (i * VertexStream.m_Size s))
                     (VertexStream.m_Size s) st' = Done (bytes, st') /\
          load_cells (ptr_add (VertexStream.m_Source s)
                              (idx * VertexStream.m_Stride s))
                     (VertexStream.m_Size s) st' = Done (bytes, st') /\
          Z.of_nat (length bytes) = VertexStream.m_Size s.
Proof.
  intros Hib Hcount Hlen Hidx Hsrc.
  destruct (allocate_loop_total st count type index_buffer Hcount Hlen)
    as (s1 & Halloc & Hg1).
  { intros j sj Hsj Hact. apply (Hsrc j sj Hsj Hact). }
  destruct (gather_loop_total st count type index_buffer s1 Hidx Hsrc Hlen Hg1)
    as (st' & Hgather & Hg).
  exists st'. split.
  - unfold DrawElements. run. apply is_null_false in Hib. rewrite Hib. run.
    step Halloc. exact Hgather.
  - intros j s Hs Hact.
    assert (Hj : (j < MAX_VERTEX_STREAM_COUNT)%nat)
      by (rewrite <- Hlen; eapply lookup_lt_Some; eassumption).
    destruct (g_active _ _ _ _ _ _ _ Hg j s Hj Hs Hact)
      as (b & cells & Hslot & Hb0 & Hb & Hcells & Hrows).
    eexists. split; [exact Hslot|].
    intros i idx bytes Hi Hread Hbytes.
    split; [|split; [|split]].
    + rewrite GetIndex_read.
      rewrite (read_index_agree (heap st) (heap st') type index_buffer i idx);
        [reflexivity| |assumption].
      apply (g_heap _ _ _ _ _ _ _ Hg).
    + rewrite load_cells_read.
      cbn [VertexStream.set_Buffer VertexStream.m_Buffer ptr_add read_cells].
      unfold read_array. rewrite Hb.
      specialize (Hrows (Z.to_nat i) ltac:(lia) idx).
      rewrite Z2Nat.id in Hrows by lia.
      rewrite Z.add_0_l, Hrows, Hbytes by assumption. reflexivity.
    + rewrite load_cells_read.
      rewrite (read_cells_agree (heap st) (heap st') _ _ bytes);
        [reflexivity| |assumption].
      apply (g_heap _ _ _ _ _ _ _ Hg).
    + destruct (read_cells_block _ _ _ _ Hbytes) as (? & ? & _ & _ & E). exact E.
Qed.

Lemma state_draw_streams (indices : list byte) :
  streams (state_draw indices)
  = [VertexStream.mk (Ptr 3%nat 0) Null 12 16;
     VertexStream.mk (Ptr 3%nat 12) Null 4 16]
    ++ replicate 30 VertexStream.zero.
Proof. reflexivity. Qed.

(** The examples of C1.  With the indices [0, 1, 2] the compaction
    buffers hold the positions and the colours of the vertices in
    source order; with [2, 0, 1] they hold those of vertices 2, 0, 1. *)
Example DrawElements_identity :
  DrawElements GetContext 0 3 TYPE_UNSIGNED_SHORT (Ptr 1%nat 0)
    (state_draw indices_012) = Done (tt, state_drawn indices_012) /\
  take 2 (streams (state_drawn indices_012))
  = [VertexStream.mk (Ptr 3%nat 0) (Ptr 5%nat 0) 12 16;
     VertexStream.mk (Ptr 3%nat 12) (Ptr 6%nat 0) 4 16] /\
  heap (state_drawn indices_012) !! 5%nat
  = Some (Some (Array (inj_bytes (position_of 0 ++ position_of 1 ++ position_of 2)))) /\
  heap (state_drawn indices_012) !! 6%nat
  = Some (Some (Array (inj_bytes (colour_of 0 ++ colour_of 1 ++ colour_of 2)))).
Proof. repeat split; vm_compute; reflexivity. Qed.

Example DrawElements_permutation :
  DrawElements GetContext 0 3 TYPE_UNSIGNED_SHORT (Ptr 1%nat 0)
    (state_draw indices_201) = Done (tt, state_drawn indices_201) /\
  take 2 (streams (state_drawn indices_201))
  = [VertexStream.mk (Ptr 3%nat 0) (Ptr 5%nat 0) 12 16;
     VertexStream.mk (Ptr 3%nat 12) (Ptr 6%nat 0) 4 16] /\
  heap (state_drawn indices_201) !! 5%nat
  = Some (Some (Array (inj_bytes (position_of 2 ++ position_of 0 ++ position_of 1)))) /\
  heap (state_drawn indices_201) !! 6%nat
  = Some (Some (Array (inj_bytes (colour_of 2 ++ colour_of 0 ++ colour_of 1)))).
Proof. repeat split; vm_compute; reflexivity. Qed.

(** The hypotheses of the gather theorem on the example draw: its three
    indices decode and select elements inside the vertex data. *)
Ltac example_draw_sources :=
  let i := fresh "i" in let idx := fresh "idx" in
  let Hi := fresh "Hi" in let Hget := fresh "Hget" in
  split; [reflexivity|];
  intros i idx Hi Hget;
  assert (i = 0 \/ i = 1 \/ i = 2) as [->|[->| ->]] by lia;
  vm_compute in Hget; injection Hget as <-;
  (split; [split; [discriminate|reflexivity]|eexists; reflexivity]).

Ltac example_draw :=
  match goal with
  | |- _ <> Null => discriminate
  | |- 0 <= 3 => lia
  | |- length _ = MAX_VERTEX_STREAM_COUNT => reflexivity
  | |- forall i, 0 <= i < 3 -> exists idx, _ =>
      let i := fresh "i" in let Hi := fresh "Hi" in
      intros i Hi;
      assert (i = 0 \/ i = 1 \/ i = 2) as [->|[->| ->]] by lia;
      eexists; reflexivity
  | |- forall j s, _ !! j = Some s -> _ =>
      let j := fresh "j" in let s := fresh "s" in
      let Hs := fresh "Hs" in let Hact := fresh "Hact" in
      intros j s Hs Hact; rewrite state_draw_streams in Hs;
      destruct j as [|[|j]]; cbn in Hs;
      [ injection Hs as <-; example_draw_sources
      | injection Hs as <-; example_draw_sources
      | change (replicate 30 VertexStream.zero !! j = Some s) in Hs;
        apply lookup_replicate in Hs as [-> _]; cbn in Hact; lia ]
  end.

Lemma DrawElements_gathers_witness :
  (exists st' s0 s1,
     DrawElements context_global 0 3 TYPE_UNSIGNED_SHORT (Ptr 1%nat 0)
       (state_draw indices_012) = Done (tt, st') /\
     streams st' !! 0%nat = Some s0 /\ streams st' !! 1%nat = Some s1 /\
     gathered_rows st' (VertexStream.m_Buffer s0) (VertexStream.m_Buffer s1)
       0 1 2) /\
  (exists st' s0 s1,
     DrawElements context_global 0 3 TYPE_UNSIGNED_SHORT (Ptr 1%nat 0)
       (state_draw indices_201) = Done (tt, st') /\
     streams st' !! 0%nat = Some s0 /\ streams st' !! 1%nat = Some s1 /\
     gathered_rows st' (VertexStream.m_Buffer s0) (VertexStream.m_Buffer s1)
       2 0 1).
Proof.
  split.
  - destruct (DrawElements_gathers 0 3 TYPE_UNSIGNED_SHORT (Ptr 1%nat 0)
                (state_draw indices_012))
      as (st' & Hrun & Hrows); [example_draw ..|].
    destruct (Hrows 0%nat (VertexStream.mk (Ptr 3%nat 0) Null 12 16)
                eq_refl eq_refl) as (s0 & Hs0 & Hp).
    destruct (Hrows 1%nat (VertexStream.mk (Ptr 3%nat 12) Null 4 16)
                eq_refl eq_refl) as (s1 & Hs1 & Hc).
    exists st', s0, s1.
    split; [exact Hrun|]. split; [exact Hs0|]. split; [exact Hs1|].
    unfold gathered_rows.
    split; [exact (proj1 (proj2 (Hp 0 0 _ ltac:(lia) eq_refl eq_refl)))|].
    split; [exact (proj1 (proj2 (Hp 1 1 _ ltac:(lia) eq_refl eq_refl)))|].
    split; [exact (proj1 (proj2 (Hp 2 2 _ ltac:(lia) eq_refl eq_refl)))|].
    split; [exact (proj1 (proj2 (Hc 0 0 _ ltac:(lia) eq_refl eq_refl)))|].
    split; [exact (proj1 (proj2 (Hc 1 1 _ ltac:(lia) eq_refl eq_refl)))|].
    exact (proj1 (proj2 (Hc 2 2 _ ltac:(lia) eq_refl eq_refl))).
  - destruct (DrawElements_gathers 0 3 TYPE_UNSIGNED_SHORT (Ptr 1%nat 0)
                (state_draw indices_201))
      as (st' & Hrun & Hrows); [example_draw ..|].
    destruct (Hrows 0%nat (VertexStream.mk (Ptr 3%nat 0) Null 12 16)
                eq_refl eq_refl) as (s0 & Hs0 & Hp).
    destruct (Hrows 1%nat (VertexStream.mk (Ptr 3%nat 12) Null 4 16)
                eq_refl eq_refl) as (s1 & Hs1 & Hc).
    exists st', s0, s1.
    split; [exact Hrun|]. split; [exact Hs0|]. split; [exact Hs1|].
    unfold gathered_rows.
    split; [exact (proj1 (proj2 (Hp 0 2 _ ltac:(lia) eq_refl eq_refl)))|].
    split; [exact (proj1 (proj2 (Hp 1 0 _ ltac:(lia) eq_refl eq_refl)))|].
    split; [exact (proj1 (proj2 (Hp 2 1 _ ltac:(lia) eq_refl eq_refl)))|].
    split; [exact (proj1 (proj2 (Hc 0 2 _ ltac:(lia) eq_refl eq_refl)))|].
    split; [exact (proj1 (proj2 (Hc 1 0 _ ltac:(lia) eq_refl eq_refl)))|].
    exact (proj1 (proj2 (Hc 2 1 _ ltac:(lia) eq_refl eq_refl))).
Defined.

Lemma DrawElements_frame_witness :
  gdevice (state_drawn indices_201)
  = Device.set_VertexStreams (streams (state_drawn indices_201))
      (gdevice (state_draw indices_201)) /\
  (forall b o, heap (state_draw indices_201) !! b = Some o ->
               heap (state_drawn indices_201) !! b = Some o).
Proof.
  pose proof (DrawElements_frame context_global 0 3 TYPE_UNSIGNED_SHORT
                (Ptr 1%nat 0) (state_draw indices_201) (state_drawn indices_201)
                eq_refl) as (_ & _ & Hd & _ & Hh).
  split; assumption.
Defined.

(** ** Buffers: creation, update and deletion *)

Lemma load_buffer_run (k : BufferKind) b buf copy size st :
  heap st !! b = Some (Some (buffer_object k buf copy size)) ->
  match k with
  | vertex_buffer =>
      load_VertexBuffer (Some b) st = Done (VertexBuffer.mk buf copy size, st)
  | index_buffer =>
      load_IndexBuffer (Some b) st = Done (IndexBuffer.mk buf copy size, st)
  end.
Proof.
  destruct k; cbn [buffer_object]; intros H.
  - apply load_VertexBuffer_run. assumption.
  - apply load_IndexBuffer_run. assumption.
Qed.

Lemma set_buffer_sub_data_memcpy (k : BufferKind) b buf copy size offset n data st :
  heap st !! b = Some (Some (buffer_object k buf copy size)) ->
  set_buffer_sub_data k (Some b) offset n data st
  = memcpy (ptr_add buf offset) data n st.
Proof.
  intros H. pose proof (load_buffer_run k b buf copy size st H) as Hld.
  destruct k; cbn [set_buffer_sub_data].
  - unfold SetVertexBufferSubData. run. step Hld. reflexivity.
  - unfold SetIndexBufferSubData. run. step Hld. reflexivity.
Qed.

Lemma set_buffer_data_memcpy (k : BufferKind) b buf copy size n data usage st :
  heap st !! b = Some (Some (buffer_object k buf copy size)) ->
  set_buffer_data k (Some b) n data usage st = memcpy buf data n st.
Proof.
  intros H. pose proof (load_buffer_run k b buf copy size st H) as Hld.
  destruct k; cbn [set_buffer_data].
  - unfold SetVertexBufferData. run. step Hld. reflexivity.
  - unfold SetIndexBufferData. run. step Hld. reflexivity.
Qed.

Lemma M_bind_Undefined {A B : Type} (m : M A) (f : A -> M B) st :
  m st = Undefined -> M_bind A B f m st = Undefined.
Proof. intros H. unfold M_bind. rewrite H. reflexivity. Qed.

Lemma M_bind_Abort {A B : Type} (m : M A) (f : A -> M B) st :
  m st = Abort -> M_bind A B f m st = Abort.
Proof. intros H. unfold M_bind. rewrite H. reflexivity. Qed.

(** A freed block, or one never allocated, cannot be read. *)
Lemma load_object_dead (b : block) (st : State) :
  heap st !! b = Some None \/ heap st !! b = None ->
  load_object b st = Undefined.
Proof.
  intros H. unfold load_object. rewrite run_bind. cbn.
  destruct H as [-> | ->]; reflexivity.
Qed.

Lemma load_buffer_dead (b : block) (st : State) :
  heap st !! b = Some None \/ heap st !! b = None ->
  load_VertexBuffer (Some b) st = Undefined /\
  load_IndexBuffer (Some b) st = Undefined.
Proof.
  intros H. pose proof (load_object_dead b st H) as Hd.
  split; [unfold load_VertexBuffer|unfold load_IndexBuffer];
    rewrite run_bind; cbn [from_option]; rewrite run_ret;
    rewrite run_bind, Hd; reflexivity.
Qed.

Lemma state_eta (st : State) : mkState (gdevice st) (heap st) = st.
Proof. destruct st. reflexivity. Qed.

(** [memcpy] into block [pb] at [offset], from readable source cells. *)
Lemma memcpy_into (pb : block) (offset n : Z) (data : ptr)
    (cells vs : list memval) (st : State) :
  heap st !! pb = Some (Some (Array cells)) ->
  read_cells (heap st) data n = Some vs ->
  overlap (Ptr pb offset) data n = false ->
  0 <= offset -> offset + n <= Z.of_nat (length cells) ->
  exists cells',
    memcpy (Ptr pb offset) data n st
    = Done (tt, mkState (gdevice st) (<[pb := Some (Array cells')]> (heap st))) /\
    length cells' = length cells /\
    array_load cells' offset n = Some vs /\
    (forall o m, o + m <= offset \/ offset + n <= o ->
                 array_load cells' o m = array_load cells o m).
Proof.
  intros Hpb Hrd Hov Hofs Hend.
  destruct (read_cells_block _ _ _ _ Hrd) as (sb & so & Hdata & Hsrc & Hlen).
  assert (Hn : 0 <= n) by lia.
  destruct (Z.eq_dec n 0) as [->|Hnz].
  - exists cells. rewrite memcpy_zero.
    assert (vs = []) by (destruct vs; [reflexivity|cbn in Hlen; lia]). subst vs.
    split; [|split; [reflexivity|split; [|auto]]].
    + rewrite (list_insert_id _ _ _ Hpb), state_eta. reflexivity.
    + apply array_load_Some. repeat split; lia.
  - destruct (array_store cells offset vs) as [cells'|] eqn:Hst.
    2:{ exfalso. unfold array_store in Hst.
        destruct (Z.leb_spec 0 offset); [|lia].
        destruct (Z.leb_spec (offset + Z.of_nat (length vs)) (Z.of_nat (length cells)));
          [discriminate|lia]. }
    exists cells'. split; [|split; [|split]].
    + apply (memcpy_run (Ptr pb offset) data n vs pb offset cells cells');
        auto.
    + eapply array_store_length. eassumption.
    + rewrite <- Hlen. eapply array_load_store_same. eassumption.
    + intros o m Hom. eapply array_load_store_other; [eassumption|]. lia.
Qed.

(** X1.  A sub-data update of a vertex or index buffer copies the [n]
    payload bytes to offset [offset] of the primary storage, whenever
    that range lies inside the storage: afterwards the range holds the
    payload, every byte outside it is as before, and nothing else (the
    buffer object with its recorded size and copy pointer, a snapshot of
    an outstanding map, the device) is touched. *)
Theorem set_buffer_sub_data_writes_range
    (k : BufferKind) (b pb : block) (copy : ptr) (size offset n : Z)
    (cells vs : list memval) (data : ptr) (st : State) :
  heap st !! b = Some (Some (buffer_object k (Ptr pb 0) copy size)) ->
  heap st !! pb = Some (Some (Array cells)) ->
  read_cells (heap st) data n = Some vs ->
  overlap (Ptr pb offset) data n = false ->
  0 <= offset -> offset + n <= Z.of_nat (length cells) ->
  exists cells',
    set_buffer_sub_data k (Some b) offset n data st
    = Done (tt, mkState (gdevice st) (<[pb := Some (Array cells')]> (heap st))) /\
    length cells' = length cells /\
    array_load cells' offset n = Some vs /\
    (forall o m, o + m <= offset \/ offset + n <= o ->
                 array_load cells' o m = array_load cells o m).
Proof.
  intros Hb Hpb Hrd Hov Hofs Hend.
  rewrite (set_buffer_sub_data_memcpy k b (Ptr pb 0) copy size offset n data st Hb).
  cbn [ptr_add]. rewrite Z.add_0_l.
  apply (memcpy_into pb offset n data cells vs st); assumption.
Qed.

Lemma set_buffer_sub_data_writes_range_witness :
  exists cells',
    SetVertexBufferSubData (Some 0%nat) 1 2 (Ptr 2%nat 0)
      (state_buffer_data vertex_buffer)
    = Done (tt, mkState (gdevice (state_buffer_data vertex_buffer))
                  (<[1%nat := Some (Array cells')]>
                     (heap (state_buffer_data vertex_buffer)))) /\
    length cells' = 4%nat /\
    array_load cells' 1 2 = Some (inj_bytes [x0a; x0b]) /\
    (forall o m, o + m <= 1 \/ 1 + 2 <= o ->
                 array_load cells' o m
                 = array_load (inj_bytes [x01; x02; x03; x04]) o m).
Proof.
  apply (set_buffer_sub_data_writes_range vertex_buffer 0%nat 1%nat Null 4 1 2
           (inj_bytes [x01; x02; x03; x04]) (inj_bytes [x0a; x0b]) (Ptr 2%nat 0)
           (state_buffer_data vertex_buffer));
    first [reflexivity | vm_compute; congruence].
Defined.

(** X2.  A whole-buffer update is the sub-data update at offset 0: it
    never reallocates the storage or changes the recorded size.  A
    payload longer than the storage has no defined behaviour. *)
Theorem set_buffer_data_never_grows
    (k : BufferKind) (b pb : block) (copy : ptr) (size n : Z)
    (cells : list memval) (data : ptr) (usage : BufferUsage) (st : State) :
  heap st !! b = Some (Some (buffer_object k (Ptr pb 0) copy size)) ->
  heap st !! pb = Some (Some (Array cells)) ->
  set_buffer_data k (Some b) n data usage st
  = set_buffer_sub_data k (Some b) 0 n data st /\
  (Z.of_nat (length cells) < n ->
   set_buffer_data k (Some b) n data usage st = Undefined).
Proof.
  intros Hb Hpb.
  rewrite (set_buffer_data_memcpy k b (Ptr pb 0) copy size n data usage st Hb).
  rewrite (set_buffer_sub_data_memcpy k b (Ptr pb 0) copy size 0 n data st Hb).
  split; [reflexivity|].
  intros Hn. unfold memcpy.
  destruct (Z.eqb_spec n 0); [lia|].
  destruct (overlap (Ptr pb 0) data n); [reflexivity|].
  rewrite run_bind, load_cells_read.
  destruct (read_cells (heap st) data n) as [vs|] eqn:Hrd; [|reflexivity].
  cbn [lift]. destruct (read_cells_block _ _ _ _ Hrd) as (_ & _ & _ & _ & Hlen).
  unfold store_cells. rewrite (bind_Done _ _ _ _ _ (load_object_run _ _ _ Hpb)).
  rewrite run_bind.
  destruct (array_store cells 0 vs) as [cells'|] eqn:Hst; [|reflexivity].
  apply array_store_Some in Hst. lia.
Qed.

Lemma set_buffer_data_never_grows_witness :
  SetIndexBufferData (Some 0%nat) 5 (Ptr 2%nat 0) 0 (state_buffer_data index_buffer)
  = Undefined.
Proof.
  apply (set_buffer_data_never_grows index_buffer 0%nat 1%nat Null 4 5
           (inj_bytes [x01; x02; x03; x04]) (Ptr 2%nat 0) 0
           (state_buffer_data index_buffer));
    first [reflexivity | vm_compute; congruence].
Defined.

(** X3.  Unmap does not check that a map is outstanding.  On a buffer
    whose copy pointer is null it copies from the null pointer, which
    has no defined behaviour; only for a buffer of size 0, where
    nothing is copied, does it return (true, with the state as it
    was). *)
Theorem unmap_buffer_without_map
    (k : BufferKind) (b : block) (buf : ptr) (size : Z) (st : State) :
  heap st !! b = Some (Some (buffer_object k buf Null size)) ->
  unmap_buffer k (Some b) st
  = if size =? 0 then Done (true, st) else Undefined.
Proof.
  intros Hb. pose proof (load_buffer_run k b buf Null size st Hb) as Hld.
  assert (Hcopy : memcpy buf Null size st
                  = if size =? 0 then Done (tt, st) else Undefined).
  { unfold memcpy. destruct (size =? 0); [reflexivity|].
    replace (overlap buf Null size) with false by (destruct buf; reflexivity).
    reflexivity. }
  assert (Hsame : mkState (gdevice st)
                    (<[b := Some (buffer_object k buf Null size)]> (heap st)) = st).
  { rewrite (list_insert_id _ _ _ Hb). apply state_eta. }
  destruct k; cbn [unmap_buffer buffer_object] in *.
  - unfold UnmapVertexBuffer. run. step Hld.
    cbn [VertexBuffer.m_Buffer VertexBuffer.m_Copy VertexBuffer.m_Size].
    unfold M_bind at 1. rewrite Hcopy. destruct (size =? 0); [|reflexivity].
    cbn [delete_array]. run.
    erewrite (M_bind_Done (store_VertexBuffer _ _));
      [|eapply store_VertexBuffer_run; exact Hb].
    rewrite Hsame. reflexivity.
  - unfold UnmapIndexBuffer. run. step Hld.
    cbn [IndexBuffer.m_Buffer IndexBuffer.m_Copy IndexBuffer.m_Size].
    unfold M_bind at 1. rewrite Hcopy. destruct (size =? 0); [|reflexivity].
    cbn [delete_array]. run.
    erewrite (M_bind_Done (store_IndexBuffer _ _));
      [|eapply store_IndexBuffer_run; exact Hb].
    rewrite Hsame. reflexivity.
Qed.

Lemma unmap_buffer_without_map_witness :
  UnmapVertexBuffer (Some 0%nat) (state_buffer vertex_buffer) = Undefined.
Proof.
  apply (unmap_buffer_without_map vertex_buffer 0%nat (Ptr 1%nat 0) 4
           (state_buffer vertex_buffer)).
  reflexivity.
Defined.

(** X4.  While a map is outstanding, an update through the sub-data
    entry point goes to the primary storage and not to the mapped view,
    and unmap then copies the whole view back over it: map, sub-data
    update, unmap all complete and leave the storage exactly as it was
    before the map.  The update is lost; the only trace of the three
    calls is the freed snapshot block. *)
Theorem map_update_unmap_loses_update
    (k : BufferKind) (b pb : block) (size offset n : Z)
    (cells vs : list memval) (data : ptr) (access : BufferAccess) (st : State) :
  heap st !! b = Some (Some (buffer_object k (Ptr pb 0) Null size)) ->
  heap st !! pb = Some (Some (Array cells)) ->
  Z.of_nat (length cells) = size ->
  read_cells (heap st) data n = Some vs ->
  overlap (Ptr pb offset) data n = false ->
  0 <= offset -> offset + n <= size ->
  (map_buffer k (Some b) access;;
   set_buffer_sub_data k (Some b) offset n data;;
   unmap_buffer k (Some b)) st
  = Done (true, mkState (gdevice st) (heap st ++ [None])).
Proof.
  intros Hb Hpb Hlen Hrd Hov Hofs Hend.
  assert (Hltb : (b < length (heap st))%nat) by (eapply lookup_lt_Some; eassumption).
  assert (Hltp : (pb < length (heap st))%nat) by (eapply lookup_lt_Some; eassumption).
  assert (Hne : b <> pb) by (intros ->; destruct k; cbn in Hb; congruence).
  set (c := length (heap st)).
  set (o1 := buffer_object k (Ptr pb 0) (Ptr c 0) size).
  set (h1 := mapped_heap (heap st) b o1 cells).
  assert (Hlen1 : length h1 = S c).
  { unfold h1, mapped_heap. rewrite length_insert, length_app. cbn. lia. }
  assert (Hc1 : h1 !! c = Some (Some (Array cells))).
  { unfold h1, mapped_heap. rewrite list_lookup_insert_ne by (unfold c; lia).
    unfold c. rewrite lookup_app_r by lia. rewrite Nat.sub_diag. reflexivity. }
  assert (Hb1 : h1 !! b = Some (Some o1)).
  { unfold h1, mapped_heap. apply list_lookup_insert_eq. rewrite length_app. lia. }
  assert (Hp1 : h1 !! pb = Some (Some (Array cells))).
  { unfold h1, mapped_heap. rewrite list_lookup_insert_ne by assumption.
    rewrite lookup_app_l by assumption. assumption. }
  assert (Hrd1 : read_cells h1 data n = Some vs).
  { destruct data as [|sb so]; [discriminate|].
    unfold read_cells, read_array in *.
    destruct (heap st !! sb) as [[[]|]|] eqn:Hsb; try discriminate.
    assert (sb <> b) by (intros ->; destruct k; cbn in Hb; congruence).
    unfold h1, mapped_heap. rewrite list_lookup_insert_ne by auto.
    rewrite lookup_app_l by (eapply lookup_lt_Some; eassumption).
    rewrite Hsb. assumption. }
  destruct (memcpy_into pb offset n data cells vs (mkState (gdevice st) h1))
    as (cells' & Hcp & Hlen' & _); try assumption; [lia|].
  cbn [gdevice heap] in Hcp.
  set (h2 := <[pb := Some (Array cells')]> h1) in Hcp.
  assert (Hsub : set_buffer_sub_data k (Some b) offset n data (mkState (gdevice st) h1)
                 = Done (tt, mkState (gdevice st) h2)).
  { rewrite (set_buffer_sub_data_memcpy k b (Ptr pb 0) (Ptr c 0) size offset n data
               (mkState (gdevice st) h1) Hb1).
    cbn [ptr_add]. rewrite Z.add_0_l. exact Hcp. }
  run.
  rewrite (M_bind_Done _ _ _ _ _
             (map_buffer_result k b pb Null size cells access st Hb Hpb Hlen)).
  fold c o1 h1.
  rewrite (M_bind_Done _ _ _ _ _ Hsub).
  rewrite (unmap_buffer_result k b pb c size cells' cells (mkState (gdevice st) h2)).
  - cbn [gdevice heap]. f_equal. f_equal. f_equal.
    apply list_eq. intros x.
    destruct (decide (x = b)) as [->|Hxb].
    { rewrite list_lookup_insert_eq
        by (rewrite !length_insert; unfold h2; rewrite length_insert; lia).
      rewrite lookup_app_l by assumption. symmetry. exact Hb. }
    rewrite list_lookup_insert_ne by auto.
    destruct (decide (x = c)) as [->|Hxc].
    { rewrite list_lookup_insert_eq
        by (rewrite !length_insert; unfold h2; rewrite length_insert; lia).
      unfold c. rewrite lookup_app_r by lia. rewrite Nat.sub_diag. reflexivity. }
    rewrite list_lookup_insert_ne by auto.
    destruct (decide (x = pb)) as [->|Hxp].
    { rewrite list_lookup_insert_eq by (unfold h2; rewrite length_insert; lia).
      rewrite lookup_app_l by assumption. symmetry. exact Hpb. }
    rewrite list_lookup_insert_ne by auto.
    unfold h2. rewrite list_lookup_insert_ne by auto.
    unfold h1, mapped_heap. rewrite list_lookup_insert_ne by auto.
    destruct (decide (x < c)%nat).
    + rewrite !lookup_app_l by (unfold c in *; lia). reflexivity.
    + rewrite !lookup_ge_None_2; [reflexivity| |];
        rewrite length_app; cbn; unfold c in *; lia.
  - cbn [heap]. unfold h2. rewrite list_lookup_insert_ne by congruence. exact Hb1.
  - cbn [heap]. unfold h2. apply list_lookup_insert_eq. lia.
  - cbn [heap]. unfold h2. rewrite list_lookup_insert_ne by (unfold c; lia).
    exact Hc1.
  - lia.
  - assumption.
  - unfold c. lia.
Qed.

Lemma map_update_unmap_loses_update_witness :
  (MapVertexBuffer (Some 0%nat) 0;;
   SetVertexBufferSubData (Some 0%nat) 1 2 (Ptr 2%nat 0);;
   UnmapVertexBuffer (Some 0%nat)) (state_buffer_data vertex_buffer)
  = Done (true, mkState (gdevice (state_buffer_data vertex_buffer))
                  (heap (state_buffer_data vertex_buffer) ++ [None])).
Proof.
  apply (map_update_unmap_loses_update vertex_buffer 0%nat 1%nat 4 1 2
           (inj_bytes [x01; x02; x03; x04]) (inj_bytes [x0a; x0b]) (Ptr 2%nat 0) 0
           (state_buffer_data vertex_buffer));
    first [reflexivity | vm_compute; congruence].
Defined.

Lemma heap_new_object (h : list (option object)) (o0 o o' : option object) :
  <[length h := o]> ((h ++ [o0]) ++ [o']) = h ++ [o; o'].
Proof.
  rewrite <- app_assoc. cbn [app].
  replace (length h) with (length h + 0)%nat at 1 by lia.
  rewrite insert_app_r. reflexivity.
Qed.

Lemma heap_new_storage (h : list (option object)) (o o0 o' : option object) :
  <[S (length h) := o']> (h ++ [o; o0]) = h ++ [o; o'].
Proof.
  replace (S (length h)) with (length h + 1)%nat by lia.
  rewrite insert_app_r. reflexivity.
Qed.

(** The object and the storage a new buffer starts with. *)
Lemma new_buffer_allocates (k : BufferKind) (size : Z) (st : State) :
  let n := length (heap st) in
  let st1 := mkState (gdevice st)
               (heap st ++ [Some (buffer_object k (Ptr (S n) 0) Null size);
                            Some (Array (replicate (Z.to_nat size) Undef))]) in
  forall data usage,
    new_buffer k size data usage st
    = match k with
      | vertex_buffer =>
          ((if (0 <? size) && negb (is_null data)
            then memcpy (Ptr (S n) 0) data size else mret tt);;
           mret (Some n)) st1
      | index_buffer =>
          (memcpy (Ptr (S n) 0) data size;; mret (Some n)) st1
      end.
Proof.
  intros n st1 data usage.
  assert (Hlen : length (heap st ++ [Some (buffer_object k Null Null 0)]) = S n)
    by (rewrite length_app; cbn; unfold n; lia).
  destruct k; cbn [new_buffer buffer_object] in *.
  - unfold NewVertexBuffer. run. step (new_run (VertexBufferObj (VertexBuffer.mk Null Null 0)) st).
    rewrite ?M_bind_assoc. rewrite (M_bind_Done _ _ _ _ _ (new_array_run size _)).
    cbn [heap gdevice]. rewrite Hlen.
    erewrite (M_bind_Done (store_VertexBuffer _ _));
      [|eapply store_VertexBuffer_run; cbn [heap];
        rewrite lookup_app_l by (rewrite length_app; cbn; lia);
        rewrite lookup_app_r by lia; rewrite Nat.sub_diag; reflexivity].
    cbn [heap gdevice]. rewrite heap_new_object. reflexivity.
  - unfold NewIndexBuffer. run. step (new_run (IndexBufferObj (IndexBuffer.mk Null Null 0)) st).
    rewrite ?M_bind_assoc. rewrite (M_bind_Done _ _ _ _ _ (new_array_run size _)).
    cbn [heap gdevice]. rewrite Hlen.
    erewrite (M_bind_Done (store_IndexBuffer _ _));
      [|eapply store_IndexBuffer_run; cbn [heap];
        rewrite lookup_app_l by (rewrite length_app; cbn; lia);
        rewrite lookup_app_r by lia; rewrite Nat.sub_diag; reflexivity].
    cbn [heap gdevice]. rewrite heap_new_object. reflexivity.
Qed.

(** X5.  A new vertex or index buffer made from [size] readable bytes
    of caller data occupies two fresh blocks, the buffer object and its
    storage: the handle is the first; the object records the storage,
    the size and no outstanding map; the storage holds a copy of the
    data.  No block that existed is changed, and the buffer keeps no
    reference to the caller's data. *)
Theorem new_buffer_copies_data
    (k : BufferKind) (size : Z) (data : ptr) (usage : BufferUsage)
    (vs : list memval) (st : State) :
  0 < size ->
  read_cells (heap st) data size = Some vs ->
  new_buffer k size data usage st
  = Done (Some (length (heap st)),
          mkState (gdevice st)
            (heap st ++ [Some (buffer_object k (Ptr (S (length (heap st))) 0)
                                 Null size);
                         Some (Array vs)])).
Proof.
  intros Hsize Hrd. rewrite new_buffer_allocates.
  destruct (read_cells_block _ _ _ _ Hrd) as (sb & so & -> & Hsb & Hlen).
  set (n := length (heap st)).
  set (st1 := mkState _ _).
  assert (Hcp : memcpy (Ptr (S n) 0) (Ptr sb so) size st1
                = Done (tt, mkState (gdevice st)
                              (heap st ++ [Some (buffer_object k (Ptr (S n) 0) Null size);
                                           Some (Array vs)]))).
  { rewrite (memcpy_run (Ptr (S n) 0) (Ptr sb so) size vs (S n) 0
               (replicate (Z.to_nat size) Undef) vs).
    - unfold st1. cbn [heap gdevice]. unfold n. rewrite heap_new_storage. reflexivity.
    - lia.
    - unfold overlap. destruct (Nat.eqb_spec (S n) sb); [unfold n in *; lia|reflexivity].
    - apply (read_cells_agree (heap st)); [|assumption].
      intros x Hx. unfold st1. cbn [heap]. apply lookup_app_l. assumption.
    - reflexivity.
    - unfold st1. cbn [heap]. replace (S n) with (length (heap st) + 1)%nat
        by (unfold n; lia).
      rewrite lookup_app_r by lia.
      replace (length (heap st) + 1 - length (heap st))%nat with 1%nat by lia.
      reflexivity.
    - apply replicate_store_all. assumption. }
  destruct k.
  - destruct (Z.ltb_spec 0 size); [|lia]. cbn [andb negb is_null].
    run. rewrite (M_bind_Done _ _ _ _ _ Hcp). reflexivity.
  - run. rewrite (M_bind_Done _ _ _ _ _ Hcp). reflexivity.
Qed.

Lemma new_buffer_copies_data_witness :
  NewIndexBuffer 4 (Ptr 0%nat 0) 0 state_data
  = Done (Some 1%nat,
          mkState (gdevice state_data)
            (heap state_data
               ++ [Some (IndexBufferObj (IndexBuffer.mk (Ptr 2%nat 0) Null 4));
                   Some (Array (inj_bytes [x01; x02; x03; x04]))])).
Proof.
  apply (new_buffer_copies_data index_buffer 4 (Ptr 0%nat 0) 0
           (inj_bytes [x01; x02; x03; x04]) state_data).
  - lia.
  - reflexivity.
Defined.

(** X6.  The two constructors differ on a null data pointer.  A new
    vertex buffer without data is made with storage of [size]
    indeterminate bytes; a new index buffer copies unconditionally, so
    without data it has no defined behaviour unless [size] is 0. *)
Theorem new_buffer_without_data (size : Z) (usage : BufferUsage) (st : State) :
  NewVertexBuffer size Null usage st
  = Done (Some (length (heap st)),
          mkState (gdevice st)
            (heap st ++ [Some (VertexBufferObj
                                 (VertexBuffer.mk (Ptr (S (length (heap st))) 0)
                                    Null size));
                         Some (Array (replicate (Z.to_nat size) Undef))])) /\
  (size <> 0 -> NewIndexBuffer size Null usage st = Undefined).
Proof.
  split.
  - pose proof (new_buffer_allocates vertex_buffer size st Null usage) as H.
    cbn [new_buffer] in H. rewrite H. rewrite andb_false_r. reflexivity.
  - intros Hsize.
    pose proof (new_buffer_allocates index_buffer size st Null usage) as H.
    cbn [new_buffer] in H. rewrite H.
    run. unfold M_bind, memcpy. destruct (Z.eqb_spec size 0); [contradiction|].
    reflexivity.
Qed.

Lemma new_buffer_without_data_witness :
  NewIndexBuffer 4 Null 0 (initial_State 0) = Undefined.
Proof.
  apply (new_buffer_without_data 4 0 (initial_State 0)). lia.
Defined.

(** X7.  Deleting a buffer with no map outstanding frees exactly its
    two blocks, the storage and the object, and leaves everything else
    as it was.  The handle is dead afterwards: deleting it again has no
    defined behaviour. *)
Theorem delete_buffer_frees
    (k : BufferKind) (b pb : block) (size : Z) (cells : list memval) (st : State) :
  heap st !! b = Some (Some (buffer_object k (Ptr pb 0) Null size)) ->
  heap st !! pb = Some (Some (Array cells)) ->
  let st' := mkState (gdevice st) (<[b := None]> (<[pb := None]> (heap st))) in
  delete_buffer k (Some b) st = Done (tt, st') /\
  delete_buffer k (Some b) st' = Undefined.
Proof.
  intros Hb Hpb st'.
  assert (Hne : b <> pb) by (intros ->; destruct k; cbn in Hb; congruence).
  pose proof (load_buffer_run k b (Ptr pb 0) Null size st Hb) as Hld.
  assert (Hb1 : <[pb := None]> (heap st) !! b
                = Some (Some (buffer_object k (Ptr pb 0) Null size)))
    by (rewrite list_lookup_insert_ne by congruence; assumption).
  assert (Hdead : heap st' !! b = Some None).
  { unfold st'. cbn [heap]. apply list_lookup_insert_eq.
    rewrite length_insert. eapply lookup_lt_Some. eassumption. }
  split.
  - destruct k; cbn [delete_buffer buffer_object] in *.
    + unfold DeleteVertexBuffer. run. step Hld.
      cbn [VertexBuffer.m_Buffer VertexBuffer.m_Copy]. run.
      step (delete_array_run _ _ _ Hpb).
      eapply delete_run. cbn [heap]. exact Hb1.
    + unfold DeleteIndexBuffer. run. step Hld.
      cbn [IndexBuffer.m_Buffer IndexBuffer.m_Copy]. run.
      step (delete_array_run _ _ _ Hpb).
      eapply delete_run. cbn [heap]. exact Hb1.
  - destruct k; cbn [delete_buffer].
    + unfold DeleteVertexBuffer. run.
      apply M_bind_Undefined, load_buffer_dead. left. exact Hdead.
    + unfold DeleteIndexBuffer. run.
      apply M_bind_Undefined, load_buffer_dead. left. exact Hdead.
Qed.

Lemma delete_buffer_frees_witness :
  DeleteVertexBuffer (Some 0%nat) (state_buffer vertex_buffer)
  = Done (tt, mkState (Device.static 0) [None; None]) /\
  DeleteVertexBuffer (Some 0%nat) (mkState (Device.static 0) [None; None])
  = Undefined.
Proof.
  apply (delete_buffer_frees vertex_buffer 0%nat 1%nat 4
           (inj_bytes [x01; x02; x03; x04]) (state_buffer vertex_buffer));
    reflexivity.
Defined.

(** ** Vertex declarations: construction and unbinding *)

(** A loop whose rounds each complete or stop on an assertion, and of
    which one round is bound to stop, stops on an assertion. *)
Lemma for_seq_aborts (start n : nat) (body : nat -> M unit)
    (I : nat -> State -> Prop) (j : nat) (st : State) :
  I start st ->
  (start <= j < start + n)%nat ->
  (forall k s, (start <= k < start + n)%nat -> I k s ->
               body k s = Abort \/
               exists s', body k s = Done (tt, s') /\ I (S k) s') ->
  (forall s, I j s -> body j s = Abort) ->
  for_each (seq start n) body st = Abort.
Proof.
  revert start st. induction n as [|n IH]; intros start st H0 Hj Hstep Hstop;
    [lia|].
  cbn [seq for_each]. run.
  destruct (Hstep start st ltac:(lia) H0) as [Hb|(s1 & Hb & H1)].
  - apply M_bind_Abort. assumption.
  - rewrite (M_bind_Done _ _ _ _ _ Hb).
    destruct (decide (j = start)) as [->|Hne].
    + rewrite (Hstop st H0) in Hb. discriminate.
    + apply IH; try assumption; [lia|].
      intros k s Hk. apply Hstep. lia.
Qed.

(** One round of the loop of [NewVertexDeclaration] on the declaration
    in the last block of the heap. *)
Lemma declare_round (element : list VertexElement.t) (i : nat)
    (e old : VertexElement.t) (dev : Device.t) (h0 : list (option object))
    (table : list VertexElement.t) :
  element !! i = Some e ->
  table !! Z.to_nat (VertexElement.m_Stream e) = Some old ->
  (e ← from_option (element !! i);
   d ← load_VertexDeclaration (Some (length h0));
   let slot := Z.to_nat (VertexElement.m_Stream e) in
   old ← from_option (VertexDeclaration.m_Elements d !! slot);
   assert (VertexElement.m_Size old =? 0);;
   store_object (length h0)
     (VertexDeclarationObj
        (VertexDeclaration.mk (<[slot := e]> (VertexDeclaration.m_Elements d)))))
    (mkState dev (h0 ++ [Some (VertexDeclarationObj (VertexDeclaration.mk table))]))
  = if VertexElement.m_Size old =? 0
    then Done (tt, mkState dev
                     (h0 ++ [Some (VertexDeclarationObj
                                     (VertexDeclaration.mk
                                        (<[Z.to_nat (VertexElement.m_Stream e) := e]>
                                           table)))]))
    else Abort.
Proof.
  intros He Hold.
  assert (Hvd : forall T, (h0 ++ [Some (VertexDeclarationObj (VertexDeclaration.mk T))])
                          !! length h0
                          = Some (Some (VertexDeclarationObj (VertexDeclaration.mk T)))).
  { intros T. rewrite lookup_app_r by lia. rewrite Nat.sub_diag. reflexivity. }
  rewrite He. run.
  erewrite (M_bind_Done (load_VertexDeclaration _));
    [|apply load_VertexDeclaration_run; cbn [heap]; apply Hvd].
  cbv zeta. cbn [VertexDeclaration.m_Elements]. rewrite Hold. run.
  destruct (VertexElement.m_Size old =? 0); run; [|reflexivity].
  erewrite store_object_run by (cbn [heap]; apply Hvd).
  cbn [heap gdevice]. f_equal. f_equal. f_equal.
  replace (length h0) with (length h0 + 0)%nat at 1 by lia.
  rewrite insert_app_r. reflexivity.
Qed.

(** X8.  A new vertex declaration made from [count] elements with
    pairwise different stream ids, all below the slot count, is a fresh
    block holding a table of [MAX_VERTEX_STREAM_COUNT] slots: each
    element sits in the slot of its stream id, and every other slot is
    the zero element. *)
Theorem NewVertexDeclaration_fills_slots
    (element : list VertexElement.t) (count : Z) (st : State) :
  0 <= count <= Z.of_nat (length element) ->
  (forall i e, (i < Z.to_nat count)%nat -> element !! i = Some e ->
     0 <= VertexElement.m_Stream e < Z.of_nat MAX_VERTEX_STREAM_COUNT) ->
  (forall i j ei ej, (i < j < Z.to_nat count)%nat ->
     element !! i = Some ei -> element !! j = Some ej ->
     VertexElement.m_Stream ei <> VertexElement.m_Stream ej) ->
  exists table,
    NewVertexDeclaration element count st
    = Done (Some (length (heap st)),
            mkState (gdevice st)
              (heap st ++ [Some (VertexDeclarationObj (VertexDeclaration.mk table))])) /\
    length table = MAX_VERTEX_STREAM_COUNT /\
    (forall i e, (i < Z.to_nat count)%nat -> element !! i = Some e ->
       table !! Z.to_nat (VertexElement.m_Stream e) = Some e) /\
    (forall j, (j < MAX_VERTEX_STREAM_COUNT)%nat ->
       (forall i e, (i < Z.to_nat count)%nat -> element !! i = Some e ->
          Z.to_nat (VertexElement.m_Stream e) <> j) ->
       table !! j = Some VertexElement.zero).
Proof.
  intros Hcount Hrange Hdistinct.
  unfold NewVertexDeclaration. run.
  step (new_run (VertexDeclarationObj
                   (VertexDeclaration.mk
                      (replicate MAX_VERTEX_STREAM_COUNT VertexElement.zero))) st).
  set (dev := gdevice st). set (h0 := heap st).
  match goal with |- context [for_loop _ ?body] =>
    destruct (for_loop_total (Z.to_nat count) body
                (fun k s =>
                   exists table,
                     s = mkState dev
                           (h0 ++ [Some (VertexDeclarationObj
                                           (VertexDeclaration.mk table))]) /\
                     length table = MAX_VERTEX_STREAM_COUNT /\
                     (forall i e, (i < k)%nat -> element !! i = Some e ->
                        table !! Z.to_nat (VertexElement.m_Stream e) = Some e) /\
                     (forall j, (j < MAX_VERTEX_STREAM_COUNT)%nat ->
                        (forall i e, (i < k)%nat -> element !! i = Some e ->
                           Z.to_nat (VertexElement.m_Stream e) <> j) ->
                        table !! j = Some VertexElement.zero))
                (mkState dev
                   (h0 ++ [Some (VertexDeclarationObj
                                   (VertexDeclaration.mk
                                      (replicate MAX_VERTEX_STREAM_COUNT
                                         VertexElement.zero)))])))
      as (st' & Hrun & table & -> & Hlen & Hin & Hout)
  end.
  - eexists. split; [reflexivity|]. split; [apply length_replicate|].
    split; [intros; lia|].
    intros j Hj _. apply lookup_replicate. auto.
  - intros k s Hk (table & -> & Hlen & Hin & Hout).
    destruct (lookup_lt_is_Some_2 element k ltac:(lia)) as [e He].
    pose proof (Hrange k e Hk He) as Hslot.
    assert (Hfree : table !! Z.to_nat (VertexElement.m_Stream e)
                    = Some VertexElement.zero).
    { apply Hout; [lia|]. intros i e' Hi He' Heq.
      pose proof (Hrange i e' ltac:(lia) He').
      apply (Hdistinct i k e' e); [lia|assumption|assumption|lia]. }
    eexists. split.
    + etransitivity;
        [exact (declare_round element k e VertexElement.zero dev h0 table He Hfree)|].
      reflexivity.
    + exists (<[Z.to_nat (VertexElement.m_Stream e) := e]> table).
      split; [reflexivity|]. split; [rewrite length_insert; assumption|]. split.
      * intros i e' Hi He'. destruct (decide (i = k)) as [->|Hik].
        -- assert (e' = e) by congruence. subst e'.
           apply list_lookup_insert_eq. lia.
        -- rewrite list_lookup_insert_ne.
           ++ apply (Hin i); [lia|assumption].
           ++ intros Heq.
              pose proof (Hrange i e' ltac:(lia) He').
              apply (Hdistinct i k e' e); [lia|assumption|assumption|lia].
      * intros j Hj Hnone. rewrite list_lookup_insert_ne.
        -- apply Hout; [assumption|]. intros i e' Hi. apply (Hnone i). lia.
        -- apply (Hnone k e); [lia|assumption].
  - rewrite (M_bind_Done _ _ _ _ _ Hrun). exists table.
    split; [reflexivity|]. split; [assumption|]. split; assumption.
Qed.

Lemma NewVertexDeclaration_fills_slots_witness :
  exists table,
    NewVertexDeclaration position_colour 2 (initial_State 0)
    = Done (Some 0%nat,
            mkState (Device.static 0)
              [Some (VertexDeclarationObj (VertexDeclaration.mk table))]) /\
    length table = MAX_VERTEX_STREAM_COUNT /\
    (forall i e, (i < 2)%nat -> position_colour !! i = Some e ->
       table !! Z.to_nat (VertexElement.m_Stream e) = Some e) /\
    (forall j, (j < MAX_VERTEX_STREAM_COUNT)%nat ->
       (forall i e, (i < 2)%nat -> position_colour !! i = Some e ->
          Z.to_nat (VertexElement.m_Stream e) <> j) ->
       table !! j = Some VertexElement.zero).
Proof.
  apply (NewVertexDeclaration_fills_slots position_colour 2 (initial_State 0)).
  - cbn. lia.
  - intros [|[|i]] e Hi [= <-]; unfold MAX_VERTEX_STREAM_COUNT; cbn; lia.
  - intros [|[|i]] [|[|j]] ei ej Hij [= <-] [= <-]; cbn; lia.
Defined.

(** X9.  Two elements for one stream id are a fatal error whenever
    the first of them is non-empty: the constructor stops on its
    assertion, whatever the other elements are.  (A first element with
    component count 0 is overwritten without complaint.) *)
Theorem NewVertexDeclaration_duplicate_stream
    (element : list VertexElement.t) (count : Z) (i j : nat)
    (ei ej : VertexElement.t) (st : State) :
  0 <= count <= Z.of_nat (length element) ->
  (forall k e, (k < Z.to_nat count)%nat -> element !! k = Some e ->
     0 <= VertexElement.m_Stream e < Z.of_nat MAX_VERTEX_STREAM_COUNT) ->
  (i < j < Z.to_nat count)%nat ->
  element !! i = Some ei -> element !! j = Some ej ->
  VertexElement.m_Stream ei = VertexElement.m_Stream ej ->
  VertexElement.m_Size ei <> 0 ->
  NewVertexDeclaration element count st = Abort.
Proof.
  intros Hcount Hrange Hij Hi Hj Hsame Hsize.
  unfold NewVertexDeclaration. run.
  step (new_run (VertexDeclarationObj
                   (VertexDeclaration.mk
                      (replicate MAX_VERTEX_STREAM_COUNT VertexElement.zero))) st).
  set (dev := gdevice st). set (h0 := heap st).
  apply M_bind_Abort. unfold for_loop.
  match goal with |- for_each _ ?body _ = _ =>
    apply (for_seq_aborts 0 (Z.to_nat count) body
             (fun k s =>
                exists table,
                  s = mkState dev
                        (h0 ++ [Some (VertexDeclarationObj
                                        (VertexDeclaration.mk table))]) /\
                  length table = MAX_VERTEX_STREAM_COUNT /\
                  ((i < k)%nat ->
                   exists e', table !! Z.to_nat (VertexElement.m_Stream ei) = Some e' /\
                              VertexElement.m_Size e' <> 0))
             j)
  end.
  - eexists. split; [reflexivity|]. split; [apply length_replicate|]. lia.
  - lia.
  - intros k s Hk (table & -> & Hlen & Hkeep).
    destruct (lookup_lt_is_Some_2 element k ltac:(lia)) as [e He].
    pose proof (Hrange k e ltac:(lia) He) as Hslot.
    destruct (lookup_lt_is_Some_2 table (Z.to_nat (VertexElement.m_Stream e))
                ltac:(lia)) as [old Hold].
    match goal with |- ?lhs = Abort \/ _ =>
      assert (Hround : lhs = _)
        by exact (declare_round element k e old dev h0 table He Hold)
    end.
    rewrite Hround.
    destruct (Z.eqb_spec (VertexElement.m_Size old) 0) as [Hz|Hnz]; [right|left; reflexivity].
    eexists. split; [reflexivity|].
    exists (<[Z.to_nat (VertexElement.m_Stream e) := e]> table).
    split; [reflexivity|]. split; [rewrite length_insert; assumption|].
    intros Hik. destruct (decide (k = i)) as [->|Hne].
    + assert (e = ei) by congruence. subst e. exists ei.
      split; [apply list_lookup_insert_eq; lia|assumption].
    + destruct (Hkeep ltac:(lia)) as (e' & He' & Hsz).
      exists e'. split; [|assumption].
      rewrite list_lookup_insert_ne; [assumption|].
      intros Heq. rewrite Heq in Hold. congruence.
  - intros s (table & -> & Hlen & Hkeep).
    destruct (Hkeep ltac:(lia)) as (e' & He' & Hsz).
    rewrite Hsame in He'.
    etransitivity; [exact (declare_round element j ej e' dev h0 table Hj He')|].
    destruct (Z.eqb_spec (VertexElement.m_Size e') 0); [contradiction|reflexivity].
Qed.

Lemma NewVertexDeclaration_duplicate_stream_witness :
  NewVertexDeclaration
    [VertexElement.mk 3 3 TYPE_FLOAT; VertexElement.mk 1 2 TYPE_FLOAT;
     VertexElement.mk 3 4 TYPE_UNSIGNED_BYTE] 3 (initial_State 0)
  = Abort.
Proof.
  apply (NewVertexDeclaration_duplicate_stream _ 3 0%nat 2%nat
           (VertexElement.mk 3 3 TYPE_FLOAT)
           (VertexElement.mk 3 4 TYPE_UNSIGNED_BYTE) (initial_State 0)).
  - cbn. lia.
  - intros [|[|[|k]]] e Hk [= <-]; unfold MAX_VERTEX_STREAM_COUNT; cbn; lia.
  - lia.
  - reflexivity.
  - reflexivity.
  - reflexivity.
  - discriminate.
Defined.

Lemma DisableVertexStream_run (i : nat) (s : VertexStream.t) (st : State) :
  streams st !! i = Some s ->
  (VertexStream.m_Buffer s = Null ->
   DisableVertexStream context_global (Z.of_nat i) st
   = Done (tt, with_stream i (disabled_stream s) st)) /\
  (forall b cells,
     VertexStream.m_Buffer s = Ptr b 0 ->
     heap st !! b = Some (Some (Array cells)) ->
     DisableVertexStream context_global (Z.of_nat i) st
     = Done (tt, with_stream i (disabled_stream s)
                   (mkState (gdevice st) (<[b := None]> (heap st))))).
Proof.
  intros Hs.
  assert (Hlen : (i < length (streams st))%nat) by (eapply lookup_lt_Some; eassumption).
  split.
  - intros Hnull. unfold DisableVertexStream. run. rewrite Nat2Z.id.
    step (get_stream_run _ _ _ Hs). rewrite Hnull. run.
    apply set_stream_run. assumption.
  - intros b cells Hptr Hb. unfold DisableVertexStream. run. rewrite Nat2Z.id.
    step (get_stream_run _ _ _ Hs). rewrite Hptr. run.
    step (delete_array_run _ _ _ Hb).
    apply set_stream_run. assumption.
Qed.

(** X10.  Disabling a declaration unbinds exactly the slots it fills:
    each of them is left with a null source, no compaction buffer and
    size 0 (its stride stays), the compaction buffer a draw had given it
    is freed, and the slots the declaration leaves empty, all other
    blocks and the rest of the device are untouched.  Every filled slot
    can then be bound again. *)
Theorem DisableVertexDeclaration_unbinds
    (d : block) (elements : list VertexElement.t) (st : State) :
  heap st !! d = Some (Some (VertexDeclarationObj (VertexDeclaration.mk elements))) ->
  length elements = MAX_VERTEX_STREAM_COUNT ->
  length (streams st) = MAX_VERTEX_STREAM_COUNT ->
  (forall i s, filled_slot elements st i s ->
     VertexStream.m_Buffer s = Null \/
     exists b cells, VertexStream.m_Buffer s = Ptr b 0 /\
                     heap st !! b = Some (Some (Array cells))) ->
  (forall i i' s s', i <> i' ->
     filled_slot elements st i s -> filled_slot elements st i' s' ->
     VertexStream.m_Buffer s <> Null ->
     VertexStream.m_Buffer s <> VertexStream.m_Buffer s') ->
  exists st',
    DisableVertexDeclaration context_global (Some d) st = Done (tt, st') /\
    gdevice st' = Device.set_VertexStreams (streams st') (gdevice st) /\
    (forall i s, filled_slot elements st i s ->
       streams st' !! i = Some (disabled_stream s)) /\
    (forall i e, elements !! i = Some e -> non_empty e = false ->
       streams st' !! i = streams st !! i) /\
    (forall i s b ofs, filled_slot elements st i s ->
       VertexStream.m_Buffer s = Ptr b ofs -> heap st' !! b = Some None) /\
    (forall x,
       (forall i s ofs, filled_slot elements st i s ->
          VertexStream.m_Buffer s <> Ptr x ofs) ->
       heap st' !! x = heap st !! x).
Proof.
  intros Hd Hlen Hslots Hbuf Hdist.
  unfold DisableVertexDeclaration. run.
  match goal with |- context [for_loop _ ?body] =>
    destruct (for_loop_total MAX_VERTEX_STREAM_COUNT body
                (fun k s =>
                   gdevice s = Device.set_VertexStreams (streams s) (gdevice st) /\
                   length (streams s) = MAX_VERTEX_STREAM_COUNT /\
                   (forall i, (k <= i)%nat -> streams s !! i = streams st !! i) /\
                   (forall i si, (i < k)%nat -> filled_slot elements st i si ->
                      streams s !! i = Some (disabled_stream si)) /\
                   (forall i e, (i < k)%nat -> elements !! i = Some e ->
                      non_empty e = false -> streams s !! i = streams st !! i) /\
                   (forall i si b ofs, (i < k)%nat -> filled_slot elements st i si ->
                      VertexStream.m_Buffer si = Ptr b ofs ->
                      heap s !! b = Some None) /\
                   (forall x,
                      (forall i si ofs, (i < k)%nat -> filled_slot elements st i si ->
                         VertexStream.m_Buffer si <> Ptr x ofs) ->
                      heap s !! x = heap st !! x))
                st)
      as (st' & Hrun & Hdev & _ & _ & Hfilled & Hempty & Hfreed & Hkept)
  end.
  - split; [destruct st as [[] ?]; reflexivity|].
    split; [assumption|]. split; [reflexivity|].
    split; [intros; lia|]. split; [intros; lia|]. split; [intros; lia|]. reflexivity.
  - intros k s Hk (Hdev & Hl & Hrest & Hfilled & Hempty & Hfreed & Hkept).
    destruct (lookup_lt_is_Some_2 elements k ltac:(lia)) as [e He].
    destruct (lookup_lt_is_Some_2 (streams st) k ltac:(lia)) as [sk Hsk].
    assert (Hd' : heap s !! d
                  = Some (Some (VertexDeclarationObj (VertexDeclaration.mk elements)))).
    { rewrite Hkept; [assumption|]. intros i si ofs _ Hsi Hptr.
      destruct (Hbuf i si Hsi) as [Hn|(b & cells & Hb & Hcells)]; [congruence|].
      rewrite Hptr in Hb. injection Hb as <- _. congruence. }
    assert (Hsk' : streams s !! k = Some sk) by (rewrite Hrest by lia; assumption).
    run. step (load_VertexDeclaration_run _ _ _ Hd').
    cbn [VertexDeclaration.m_Elements]. rewrite He. run.
    fold (non_empty e). destruct (non_empty e) eqn:Hne.
    + assert (Hfk : filled_slot elements st k sk) by (exists e; auto).
      destruct (DisableVertexStream_run k sk s Hsk') as [Hnull Hlive].
      assert (Hstep : exists h',
                 DisableVertexStream context_global (Z.of_nat k) s
                 = Done (tt, with_stream k (disabled_stream sk)
                               (mkState (gdevice s) h')) /\
                 (forall b ofs, VertexStream.m_Buffer sk = Ptr b ofs ->
                                h' !! b = Some None) /\
                 (forall x, (forall ofs, VertexStream.m_Buffer sk <> Ptr x ofs) ->
                            h' !! x = heap s !! x)).
      { destruct (Hbuf k sk Hfk) as [Hn|(b & cells & Hb & Hcells)].
        - exists (heap s). rewrite state_eta. split; [apply Hnull; assumption|].
          split; [intros; congruence|reflexivity].
        - assert (Hcells' : heap s !! b = Some (Some (Array cells))).
          { rewrite Hkept; [assumption|]. intros i si ofs Hi Hsi Hptr.
            destruct (Hbuf i si Hsi) as [Hn|(b' & cells' & Hb' & _)]; [congruence|].
            apply (Hdist i k si sk); [lia|assumption|assumption|congruence|congruence]. }
          exists (<[b := None]> (heap s)). split; [apply (Hlive b cells); assumption|].
          split.
          + intros b0 ofs Hptr. assert (b0 = b) by congruence. subst b0.
            apply list_lookup_insert_eq. eapply lookup_lt_Some. eassumption.
          + intros x Hx. apply list_lookup_insert_ne. intros ->. apply (Hx 0).
            assumption. }
      destruct Hstep as (h' & Hstep & Hdead & Hlive').
      eexists. split; [exact Hstep|].
      rewrite streams_with_stream, heap_with_stream. cbn [heap gdevice].
      split; [cbn; rewrite Hdev; reflexivity|].
      split; [rewrite length_insert; assumption|].
      change (streams (mkState (gdevice s) h')) with (streams s).
      split; [|split; [|split; [|split]]].
      * intros i Hi. rewrite list_lookup_insert_ne by lia. apply Hrest. lia.
      * intros i si Hi Hsi. destruct (decide (i = k)) as [->|Hik].
        -- destruct Hsi as (e' & _ & _ & Hsi). assert (si = sk) by congruence. subst si.
           apply list_lookup_insert_eq. lia.
        -- rewrite list_lookup_insert_ne by auto. apply Hfilled; [lia|assumption].
      * intros i e' Hi He' Hempty'. destruct (decide (i = k)) as [->|Hik];
          [congruence|].
        rewrite list_lookup_insert_ne by auto. apply (Hempty i e'); [lia|assumption..].
      * intros i si b ofs Hi Hsi Hptr. destruct (decide (i = k)) as [->|Hik].
        -- destruct Hsi as (e' & _ & _ & Hsi). assert (si = sk) by congruence. subst si.
           apply (Hdead b ofs). assumption.
        -- rewrite Hlive'; [apply (Hfreed i si b ofs); [lia|assumption..]|].
           intros ofs' Hptr'.
           destruct (Hbuf i si Hsi) as [Hn|(b' & cells' & Hb' & _)]; [congruence|].
           destruct (Hbuf k sk Hfk) as [Hn|(b'' & cells'' & Hb'' & _)]; [congruence|].
           apply (Hdist i k si sk); [assumption..|congruence|congruence].
      * intros x Hx. rewrite Hlive'.
        -- apply Hkept. intros i si ofs Hi. apply Hx. lia.
        -- intros ofs. apply (Hx k sk ofs); [lia|assumption].
    + exists s. split; [reflexivity|].
      split; [assumption|]. split; [assumption|].
      split; [|split; [|split; [|split]]].
      * intros i Hi. apply Hrest. lia.
      * intros i si Hi Hsi. destruct (decide (i = k)) as [->|Hik].
        -- destruct Hsi as (e' & He' & Hne' & _). congruence.
        -- apply Hfilled; [lia|assumption].
      * intros i e' Hi He' Hempty'. destruct (decide (i = k)) as [->|Hik].
        -- apply Hrest. lia.
        -- apply (Hempty i e'); [lia|assumption..].
      * intros i si b ofs Hi Hsi Hptr. destruct (decide (i = k)) as [->|Hik].
        -- destruct Hsi as (e' & He' & Hne' & _). congruence.
        -- apply (Hfreed i si b ofs); [lia|assumption..].
      * intros x Hx. apply Hkept. intros i si ofs Hi. apply Hx. lia.
  - exists st'. split; [assumption|]. split; [assumption|].
    split; [|split; [|split]].
    + intros i s Hs. apply Hfilled; [|assumption].
      destruct Hs as (e & He & _). rewrite <- Hlen. eapply lookup_lt_Some. eassumption.
    + intros i e He Hne. apply (Hempty i e); [|assumption..].
      rewrite <- Hlen. eapply lookup_lt_Some. eassumption.
    + intros i s b ofs Hs. apply (Hfreed i); [|assumption].
      destruct Hs as (e & He & _). rewrite <- Hlen. eapply lookup_lt_Some. eassumption.
    + intros x Hx. apply Hkept. intros i si ofs _. apply Hx.
Qed.

Lemma state_enabled_drawn_filled (i : nat) (s : VertexStream.t) :
  filled_slot (declared position_colour) state_enabled_drawn i s ->
  (i = 0%nat /\ s = VertexStream.mk (Ptr 2%nat 0) (Ptr 3%nat 0) 12 16) \/
  (i = 1%nat /\ s = VertexStream.mk (Ptr 2%nat 12) (Ptr 4%nat 0) 4 16).
Proof.
  intros (e & He & Hne & Hs).
  destruct i as [|[|i]].
  - left. split; [reflexivity|]. vm_compute in Hs. congruence.
  - right. split; [reflexivity|]. vm_compute in Hs. congruence.
  - exfalso.
    change (replicate (MAX_VERTEX_STREAM_COUNT - 2) VertexElement.zero !! i = Some e)
      in He.
    apply lookup_replicate in He as [-> _]. discriminate.
Qed.

Lemma DisableVertexDeclaration_unbinds_witness :
  exists st',
    DisableVertexDeclaration context_global (Some 0%nat) state_enabled_drawn
    = Done (tt, st') /\
    streams st' !! 0%nat = Some (VertexStream.mk Null Null 0 16) /\
    heap st' !! 3%nat = Some None.
Proof.
  destruct (DisableVertexDeclaration_unbinds 0%nat (declared position_colour)
              state_enabled_drawn)
    as (st' & Hrun & _ & Hfilled & _ & Hfreed & _).
  - reflexivity.
  - reflexivity.
  - reflexivity.
  - intros i s [[-> ->]|[-> ->]]%state_enabled_drawn_filled; right.
    + exists 3%nat, []. split; reflexivity.
    + exists 4%nat, []. split; reflexivity.
  - intros i i' s s' Hii [[-> ->]|[-> ->]]%state_enabled_drawn_filled
      [[-> ->]|[-> ->]]%state_enabled_drawn_filled _; cbn; congruence.
  - assert (H0 : filled_slot (declared position_colour) state_enabled_drawn 0%nat
                   (VertexStream.mk (Ptr 2%nat 0) (Ptr 3%nat 0) 12 16)).
    { eexists. split; [reflexivity|]. split; reflexivity. }
    exists st'. split; [exact Hrun|]. split.
    + apply (Hfilled 0%nat _ H0).
    + apply (Hfreed 0%nat _ 3%nat 0 H0). reflexivity.
Defined.

(** ** Planes: allocation, release and clearing *)

Lemma free_blocks_length bs h : length (free_blocks bs h) = length h.
Proof.
  induction bs as [|b bs IH]; [reflexivity|].
  change (free_blocks (b :: bs) h) with (<[b := None]> (free_blocks bs h)).
  rewrite length_insert. assumption.
Qed.

Lemma free_blocks_lookup_in bs h x :
  x ∈ bs -> (x < length h)%nat -> free_blocks bs h !! x = Some None.
Proof.
  induction bs as [|b bs IH]; intros Hin Hlt; [inversion Hin|].
  change (free_blocks (b :: bs) h) with (<[b := None]> (free_blocks bs h)).
  destruct (decide (x = b)) as [->|Hne].
  - apply list_lookup_insert_eq. rewrite free_blocks_length. assumption.
  - rewrite list_lookup_insert_ne by auto. apply IH; [|assumption].
    apply elem_of_cons in Hin as [?|?]; [contradiction|assumption].
Qed.

Lemma free_blocks_lookup_notin bs h x :
  x ∉ bs -> free_blocks bs h !! x = h !! x.
Proof.
  induction bs as [|b bs IH]; intros Hin; [reflexivity|].
  change (free_blocks (b :: bs) h) with (<[b := None]> (free_blocks bs h)).
  apply not_elem_of_cons in Hin as [Hne Hin].
  rewrite list_lookup_insert_ne by auto. auto.
Qed.

Lemma new_planes_run (width height : Z) (st : State) :
  new_planes width height st
  = Done (planes_at (length (heap st)),
          mkState (gdevice st)
            (heap st ++ fresh_arrays 4 (wrap32 (4 * width * height)))).
Proof.
  unfold new_planes. run.
  repeat (rewrite ?M_bind_assoc;
          rewrite (M_bind_Done _ _ _ _ _ (new_array_run _ _));
          cbn [heap gdevice]).
  rewrite !length_app. cbn [length]. unfold planes_at, fresh_arrays. cbn [replicate].
  rewrite <- !app_assoc. cbn [app].
  replace (length (heap st) + 1)%nat with (S (length (heap st))) by lia.
  replace (S (length (heap st)) + 1)%nat with (S (S (length (heap st)))) by lia.
  replace (S (S (length (heap st))) + 1)%nat with (S (S (S (length (heap st))))) by lia.
  reflexivity.
Qed.

Lemma planes_at_live (h : list (option object)) (size : Z) :
  planes_live (h ++ fresh_arrays 4 size) (planes_at (length h)).
Proof.
  exists (length h), (S (length h)), (S (S (length h))), (S (S (S (length h)))).
  split; [reflexivity|]. split.
  - repeat constructor; rewrite ?elem_of_cons, ?elem_of_nil; lia.
  - intros b Hb. exists (replicate (Z.to_nat size) Undef).
    rewrite !elem_of_cons, elem_of_nil in Hb.
    rewrite lookup_app_r by lia.
    destruct Hb as [->|[->|[->|[->|[]]]]].
    + rewrite Nat.sub_diag. reflexivity.
    + replace (S (length h) - length h)%nat with 1%nat by lia. reflexivity.
    + replace (S (S (length h)) - length h)%nat with 2%nat by lia. reflexivity.
    + replace (S (S (S (length h))) - length h)%nat with 3%nat by lia. reflexivity.
Qed.

Lemma NoDup_4 (c d a s : nat) :
  NoDup [c; d; a; s] ->
  c <> d /\ c <> a /\ c <> s /\ d <> a /\ d <> s /\ a <> s.
Proof.
  intros H.
  apply NoDup_cons in H as [Hc H]. apply NoDup_cons in H as [Hd H].
  apply NoDup_cons in H as [Ha _].
  apply not_elem_of_cons in Hc as (? & Hc). apply not_elem_of_cons in Hc as (? & Hc).
  apply not_elem_of_cons in Hc as (? & _).
  apply not_elem_of_cons in Hd as (? & Hd). apply not_elem_of_cons in Hd as (? & _).
  apply not_elem_of_cons in Ha as (? & _).
  auto 10.
Qed.

Lemma delete_planes_run (fb : FrameBuffer.t) (st : State) :
  planes_live (heap st) fb ->
  delete_planes fb st
  = Done (tt, mkState (gdevice st) (free_blocks (reverse (plane_blocks fb)) (heap st))).
Proof.
  intros (c & d & a & s & -> & Hnd & Hlive).
  assert (Hne : c <> d /\ c <> a /\ c <> s /\ d <> a /\ d <> s /\ a <> s).
  { apply NoDup_4. assumption. }
  destruct Hne as (? & ? & ? & ? & ? & ?).
  destruct (Hlive c) as [cc Hcc]; [repeat constructor|].
  destruct (Hlive d) as [cd Hcd]; [repeat constructor|].
  destruct (Hlive a) as [ca Hca]; [repeat constructor|].
  destruct (Hlive s) as [cs Hcs]; [repeat constructor|].
  unfold delete_planes. cbn [FrameBuffer.m_ColorBuffer FrameBuffer.m_DepthBuffer
                             FrameBuffer.m_AccumBuffer FrameBuffer.m_StencilBuffer].
  run. step (delete_array_run _ _ _ Hcc).
  erewrite (M_bind_Done (delete_array _));
    [|eapply delete_array_run; cbn [heap];
      rewrite list_lookup_insert_ne by lia; exact Hcd].
  cbn [heap gdevice].
  erewrite (M_bind_Done (delete_array _));
    [|eapply delete_array_run; cbn [heap];
      rewrite !list_lookup_insert_ne by lia; exact Hca].
  cbn [heap gdevice].
  erewrite delete_array_run;
    [|cbn [heap]; rewrite !list_lookup_insert_ne by lia; exact Hcs].
  reflexivity.
Qed.

Lemma read_bytes_block (h h' : list (option object)) (c : block) (ofs n : Z) :
  h' !! c = h !! c ->
  read_bytes h' (Ptr c ofs) n = read_bytes h (Ptr c ofs) n.
Proof.
  intros H. unfold read_bytes, read_cells, read_array. rewrite H. reflexivity.
Qed.

Lemma read_uint_of_bytes (h : list (option object)) (c : block) (i v : Z) :
  read_bytes h (Ptr c (4 * i)) 4 = Some (encode_le 4 v) ->
  read_uint h 4 (Ptr c 0) i = Some (wrap32 v).
Proof.
  intros H. unfold read_uint. cbn [ptr_add]. rewrite Z.add_0_l, H.
  rewrite decode_encode_uint32. reflexivity.
Qed.

(** One of the three steps of [Clear], on the plane [sel] selects. *)
Lemma clear_phase (flags flag : Z) (sel : FrameBuffer.t -> ptr) (fb : FrameBuffer.t)
    (c : block) (v n : Z) (st : State) :
  active_planes st = Some fb ->
  sel fb = Ptr c 0 ->
  plane_holds (heap st) c n ->
  0 <= n ->
  exists st',
    (if Z.land flags flag =? 0 then mret tt
     else rb ← render_buffer;
          for_loop (Z.to_nat n) (fun i => store_uint32 (sel rb) (Z.of_nat i) v)) st
    = Done (tt, st') /\
    gdevice st' = gdevice st /\
    (forall x, x <> c -> heap st' !! x = heap st !! x) /\
    (forall m, plane_holds (heap st) c m -> plane_holds (heap st') c m) /\
    active_planes st' = Some fb /\
    (if Z.land flags flag =? 0 then heap st' !! c = heap st !! c
     else forall i, 0 <= i < n ->
            read_bytes (heap st') (Ptr c (4 * i)) 4 = Some (encode_le 4 v)).
Proof.
  intros Hact Hsel (cells & Hc & Hlen) Hn.
  destruct (Z.land flags flag =? 0).
  { exists st. repeat split; auto. }
  destruct (clear_loop c v (Z.to_nat n) cells st Hc)
    as (st' & cells' & Hrun & Hd & Hl & Hx & Hc' & Hl' & Hw & _); [lia|].
  exists st'. split; [|split; [assumption|split; [assumption|split; [|split]]]].
  - assert (Hrb : render_buffer st = Done (fb, st))
      by (rewrite render_buffer_read, Hact; reflexivity).
    run. step Hrb. rewrite Hsel. exact Hrun.
  - intros m (cells0 & Hc0 & Hm). exists cells'. split; [assumption|].
    assert (cells0 = cells) by congruence. subst cells0. lia.
  - unfold active_planes in *. rewrite Hd.
    destruct (Device.m_RenderBuffer (gdevice st)) as [| |r]; try assumption.
    rewrite Hx; [assumption|]. intros ->. rewrite Hc in Hact. discriminate.
  - intros i Hi. unfold read_bytes, read_cells, read_array. rewrite Hc'.
    replace i with (Z.of_nat (Z.to_nat i)) by lia.
    rewrite (Hw (Z.to_nat i)) by lia. apply proj_inj_bytes.
Qed.

(** [Clear] on a plane set whose colour, depth and stencil planes are
    three live blocks, each holding the display's number of pixels. *)
Lemma Clear_planes
    (flags red green blue alpha depth stencil : Z) (c d s : block) (accum : ptr)
    (st : State) :
  active_planes st = Some (FrameBuffer.mk (Ptr c 0) (Ptr d 0) accum (Ptr s 0)) ->
  c <> d -> c <> s -> d <> s ->
  plane_holds (heap st) c (display_pixels st) ->
  plane_holds (heap st) d (display_pixels st) ->
  plane_holds (heap st) s (display_pixels st) ->
  exists st',
    Clear context_global flags red green blue alpha depth stencil st
      = Done (tt, st') /\
    gdevice st' = gdevice st /\
    (forall x, x <> c -> x <> d -> x <> s -> heap st' !! x = heap st !! x) /\
    (if Z.land flags CLEAR_COLOUR_BUFFER =? 0 then heap st' !! c = heap st !! c
     else forall i, 0 <= i < display_pixels st ->
            read_bytes (heap st') (Ptr c (4 * i)) 4
            = Some (encode_le 4 (packed_colour red green blue alpha))) /\
    (if Z.land flags CLEAR_DEPTH_BUFFER =? 0 then heap st' !! d = heap st !! d
     else forall i, 0 <= i < display_pixels st ->
            read_bytes (heap st') (Ptr d (4 * i)) 4 = Some (encode_le 4 depth)) /\
    (if Z.land flags CLEAR_STENCIL_BUFFER =? 0 then heap st' !! s = heap st !! s
     else forall i, 0 <= i < display_pixels st ->
            read_bytes (heap st') (Ptr s (4 * i)) 4 = Some (encode_le 4 stencil)).
Proof.
  intros Hact Hcd Hcs Hds Hc Hd Hs.
  pose proof (wrap32_range (Device.m_DisplayWidth (gdevice st)
                            * Device.m_DisplayHeight (gdevice st))) as Hn.
  fold (display_pixels st) in Hn.
  set (fb := FrameBuffer.mk (Ptr c 0) (Ptr d 0) accum (Ptr s 0)) in *.
  destruct (clear_phase flags CLEAR_COLOUR_BUFFER FrameBuffer.m_ColorBuffer fb c
              (packed_colour red green blue alpha) (display_pixels st) st)
    as (st1 & Hrun1 & Hdev1 & Hx1 & Hp1 & Hact1 & Hres1); try assumption;
    [reflexivity|lia|].
  assert (Hd1 : plane_holds (heap st1) d (display_pixels st)).
  { destruct Hd as (cells & Hd & Hlen). exists cells. rewrite Hx1 by lia. auto. }
  destruct (clear_phase flags CLEAR_DEPTH_BUFFER FrameBuffer.m_DepthBuffer fb d
              depth (display_pixels st) st1)
    as (st2 & Hrun2 & Hdev2 & Hx2 & Hp2 & Hact2 & Hres2); try assumption;
    [reflexivity|lia|].
  assert (Hs2 : plane_holds (heap st2) s (display_pixels st)).
  { destruct Hs as (cells & Hs & Hlen). exists cells.
    rewrite Hx2, Hx1 by lia. auto. }
  destruct (clear_phase flags CLEAR_STENCIL_BUFFER FrameBuffer.m_StencilBuffer fb s
              stencil (display_pixels st) st2)
    as (st3 & Hrun3 & Hdev3 & Hx3 & Hp3 & Hact3 & Hres3); try assumption;
    [reflexivity|lia|].
  exists st3. split; [|split; [congruence|split; [|split; [|split]]]].
  - unfold Clear. run.
    rewrite (M_bind_Done get_device _ st (gdevice st) st eq_refl).
    fold (display_pixels st). fold (packed_colour red green blue alpha).
    etransitivity; [exact (M_bind_Done _ _ _ _ _ Hrun1)|].
    etransitivity; [exact (M_bind_Done _ _ _ _ _ Hrun2)|].
    exact Hrun3.
  - intros x Hxc Hxd Hxs. rewrite Hx3, Hx2, Hx1 by lia. reflexivity.
  - destruct (Z.land flags CLEAR_COLOUR_BUFFER =? 0).
    + rewrite Hx3, Hx2 by lia. assumption.
    + intros i Hi. rewrite <- (Hres1 i Hi).
      apply read_bytes_block. rewrite Hx3, Hx2 by lia. reflexivity.
  - destruct (Z.land flags CLEAR_DEPTH_BUFFER =? 0).
    + rewrite Hx3 by lia. rewrite Hres2. apply Hx1. lia.
    + intros i Hi. rewrite <- (Hres2 i Hi).
      apply read_bytes_block. rewrite Hx3 by lia. reflexivity.
  - destruct (Z.land flags CLEAR_STENCIL_BUFFER =? 0).
    + rewrite Hres3, Hx2, Hx1 by lia. reflexivity.
    + assumption.
Qed.

Lemma lor_mul_add (hi lo k : Z) :
  0 <= k -> 0 <= lo < 2 ^ k -> Z.lor (hi * 2 ^ k) lo = hi * 2 ^ k + lo.
Proof.
  intros Hk Hlo. symmetry. apply Z.add_nocarry_lor.
  apply Z.bits_inj'. intros n Hn. rewrite Z.land_spec, Z.bits_0.
  destruct (Z.lt_ge_cases n k).
  - rewrite <- Z.shiftl_mul_pow2 by assumption.
    rewrite Z.shiftl_spec_low by assumption. reflexivity.
  - rewrite (testbit_above k lo n) by assumption. apply andb_false_r.
Qed.

(** The colour word of [Clear] for 8-bit components. *)
Lemma packed_colour_value (red green blue alpha : Z) :
  0 <= red < 256 -> 0 <= green < 256 -> 0 <= blue < 256 -> 0 <= alpha < 256 ->
  packed_colour red green blue alpha
  = red * 2 ^ 24 + green * 2 ^ 16 + blue * 2 ^ 8 + alpha.
Proof.
  intros Hr Hg Hb Ha. unfold packed_colour.
  rewrite !Z.shiftl_mul_pow2 by lia.
  pose proof (lor_mul_add red (green * 2 ^ 16) 24) as H1.
  pose proof (lor_mul_add (red * 2 ^ 8 + green) (blue * 2 ^ 8) 16) as H2.
  pose proof (lor_mul_add (red * 2 ^ 16 + green * 2 ^ 8 + blue) alpha 8) as H3.
  change (2 ^ 24) with 16777216 in *. change (2 ^ 16) with 65536 in *.
  change (2 ^ 8) with 256 in *.
  rewrite H1 by lia.
  replace (red * 16777216 + green * 65536) with ((red * 256 + green) * 65536) by lia.
  rewrite H2 by lia.
  replace ((red * 256 + green) * 65536 + blue * 256)
    with ((red * 65536 + green * 256 + blue) * 256) by lia.
  rewrite H3 by lia.
  rewrite wrap32_small; [lia|]. change (2 ^ 32) with 4294967296. lia.
Qed.

Lemma byte_of_Z_mod (x : Z) : byte_of_Z (x mod 256) = byte_of_Z x.
Proof. unfold byte_of_Z. rewrite Z.mod_mod by lia. reflexivity. Qed.

Lemma encode_packed_colour (red green blue alpha : Z) :
  0 <= red < 256 -> 0 <= green < 256 -> 0 <= blue < 256 -> 0 <= alpha < 256 ->
  encode_le 4 (packed_colour red green blue alpha)
  = [byte_of_Z alpha; byte_of_Z blue; byte_of_Z green; byte_of_Z red].
Proof.
  intros Hr Hg Hb Ha. rewrite packed_colour_value by assumption.
  change (2 ^ 24) with 16777216. change (2 ^ 16) with 65536. change (2 ^ 8) with 256.
  cbn [encode_le].
  set (x := red * 16777216 + green * 65536 + blue * 256 + alpha).
  rewrite <- (byte_of_Z_mod x), <- (byte_of_Z_mod (x / 256)),
    <- (byte_of_Z_mod (x / 256 / 256)), <- (byte_of_Z_mod (x / 256 / 256 / 256)).
  replace (x mod 256) with alpha by (unfold x; Z.to_euclidean_division_equations; lia).
  replace (x / 256 mod 256) with blue by (unfold x; Z.to_euclidean_division_equations; lia).
  replace (x / 256 / 256 mod 256) with green by (unfold x; Z.to_euclidean_division_equations; lia).
  replace (x / 256 / 256 / 256 mod 256) with red by (unfold x; Z.to_euclidean_division_equations; lia).
  reflexivity.
Qed.

Lemma plane_cleared_intro (flags flag v : Z) (b : block) (st st' : State) :
  (if Z.land flags flag =? 0 then heap st' !! b = heap st !! b
   else forall i, 0 <= i < display_pixels st ->
          read_bytes (heap st') (Ptr b (4 * i)) 4 = Some (encode_le 4 v)) ->
  plane_cleared flags flag v b st st'.
Proof.
  unfold plane_cleared. destruct (Z.land flags flag =? 0); [auto|].
  intros H i Hi. apply read_uint_of_bytes. auto.
Qed.

(** X11.  [Clear] with any combination of flags, on a plane set whose
    colour, depth and stencil planes are three live blocks that hold
    the display's number of pixels: it completes; each plane whose
    flag is set has every pixel word of the display set to its value
    (the packed colour, the bits of the depth value, the stencil
    value), each plane whose flag is not set is as it was; the
    accumulation plane and every other block are never written, and
    the device is unchanged. *)
Theorem Clear_fills_requested_planes
    (flags red green blue alpha depth stencil : Z) (c d s : block) (accum : ptr)
    (st : State) :
  active_planes st = Some (FrameBuffer.mk (Ptr c 0) (Ptr d 0) accum (Ptr s 0)) ->
  c <> d -> c <> s -> d <> s ->
  plane_holds (heap st) c (display_pixels st) ->
  plane_holds (heap st) d (display_pixels st) ->
  plane_holds (heap st) s (display_pixels st) ->
  exists st',
    Clear context_global flags red green blue alpha depth stencil st
      = Done (tt, st') /\
    gdevice st' = gdevice st /\
    plane_cleared flags CLEAR_COLOUR_BUFFER (packed_colour red green blue alpha)
      c st st' /\
    plane_cleared flags CLEAR_DEPTH_BUFFER depth d st st' /\
    plane_cleared flags CLEAR_STENCIL_BUFFER stencil s st st' /\
    (forall x, x <> c -> x <> d -> x <> s -> heap st' !! x = heap st !! x).
Proof.
  intros Hact Hcd Hcs Hds Hc Hd Hs.
  destruct (Clear_planes flags red green blue alpha depth stencil c d s accum st)
    as (st' & Hrun & Hdev & Hx & Hcol & Hdep & Hsten); try assumption.
  exists st'. split; [assumption|]. split; [assumption|].
  split; [|split; [|split; [|assumption]]]; apply plane_cleared_intro; assumption.
Qed.

(** X12.  The colour word is packed as red, green, blue, alpha from
    the most significant byte down and stored as a 32-bit word: on this
    little-endian target the four bytes of every cleared pixel are, in
    memory order, alpha, blue, green, red. *)
Theorem Clear_pixel_byte_order
    (flags red green blue alpha depth stencil : Z) (c d s : block) (accum : ptr)
    (st : State) :
  active_planes st = Some (FrameBuffer.mk (Ptr c 0) (Ptr d 0) accum (Ptr s 0)) ->
  c <> d -> c <> s -> d <> s ->
  plane_holds (heap st) c (display_pixels st) ->
  plane_holds (heap st) d (display_pixels st) ->
  plane_holds (heap st) s (display_pixels st) ->
  Z.land flags CLEAR_COLOUR_BUFFER <> 0 ->
  0 <= red < 256 -> 0 <= green < 256 -> 0 <= blue < 256 -> 0 <= alpha < 256 ->
  exists st',
    Clear context_global flags red green blue alpha depth stencil st
      = Done (tt, st') /\
    forall i, 0 <= i < display_pixels st ->
      read_bytes (heap st') (Ptr c (4 * i)) 4
      = Some [byte_of_Z alpha; byte_of_Z blue; byte_of_Z green; byte_of_Z red] /\
      read_uint (heap st') 4 (Ptr c 0) i
      = Some (red * 2 ^ 24 + green * 2 ^ 16 + blue * 2 ^ 8 + alpha).
Proof.
  intros Hact Hcd Hcs Hds Hc Hd Hs Hflag Hr Hg Hb Ha.
  destruct (Clear_planes flags red green blue alpha depth stencil c d s accum st)
    as (st' & Hrun & _ & _ & Hcol & _); try assumption.
  exists st'. split; [assumption|].
  apply Z.eqb_neq in Hflag. rewrite Hflag in Hcol.
  intros i Hi. specialize (Hcol i Hi). split.
  - rewrite Hcol, encode_packed_colour by assumption. reflexivity.
  - rewrite (read_uint_of_bytes _ _ _ _ Hcol).
    rewrite packed_colour_value by assumption.
    rewrite wrap32_small; [reflexivity|].
    change (2 ^ 24) with 16777216. change (2 ^ 16) with 65536.
    change (2 ^ 8) with 256. change (2 ^ 32) with 4294967296. lia.
Qed.

Lemma state_target_plane (b : block) :
  (b < 4)%nat -> plane_holds (heap state_target) b (display_pixels state_target).
Proof.
  intros Hb. exists (replicate 16 Undef).
  destruct b as [|[|[|[|b]]]]; try lia;
    (split; [reflexivity | vm_compute; discriminate]).
Qed.

Lemma Clear_fills_requested_planes_witness :
  exists st',
    Clear context_global 5 10 20 30 255 0 7 state_target = Done (tt, st') /\
    gdevice st' = gdevice state_target /\
    plane_cleared 5 CLEAR_COLOUR_BUFFER (packed_colour 10 20 30 255)
      0%nat state_target st' /\
    plane_cleared 5 CLEAR_DEPTH_BUFFER 0 1%nat state_target st' /\
    plane_cleared 5 CLEAR_STENCIL_BUFFER 7 3%nat state_target st' /\
    (forall x, x <> 0%nat -> x <> 1%nat -> x <> 3%nat ->
               heap st' !! x = heap state_target !! x).
Proof.
  apply (Clear_fills_requested_planes 5 10 20 30 255 0 7 0%nat 1%nat 3%nat
           (Ptr 2%nat 0) state_target);
    first [reflexivity | lia | apply state_target_plane; lia].
Defined.

Lemma Clear_pixel_byte_order_witness :
  exists st',
    Clear context_global 1 10 20 30 255 0 0 state_target = Done (tt, st') /\
    forall i, 0 <= i < display_pixels state_target ->
      read_bytes (heap st') (Ptr 0%nat (4 * i)) 4
      = Some [byte_of_Z 255; byte_of_Z 30; byte_of_Z 20; byte_of_Z 10] /\
      read_uint (heap st') 4 (Ptr 0%nat 0) i
      = Some (10 * 2 ^ 24 + 20 * 2 ^ 16 + 30 * 2 ^ 8 + 255).
Proof.
  apply (Clear_pixel_byte_order 1 10 20 30 255 0 0 0%nat 1%nat 3%nat
           (Ptr 2%nat 0) state_target);
    first [reflexivity | lia | apply state_target_plane; lia
          | vm_compute; discriminate].
Defined.

(** ** Opening the device and resizing the viewport *)

Lemma modify_device_run (f : Device.t -> Device.t) (st : State) :
  modify_device f st = Done (tt, mkState (f (gdevice st)) (heap st)).
Proof. reflexivity. Qed.

Lemma NewDevice_run (width height : Z) (st : State) :
  NewDevice (Some (CreateDeviceParams.mk width height)) st
  = Done (tt, mkState (opened_device width height (length (heap st)) (gdevice st))
                (heap st ++ fresh_arrays 4 (wrap32 (4 * width * height)))).
Proof.
  unfold NewDevice. run.
  replace (bool_decide (is_Some (Some (CreateDeviceParams.mk width height))))
    with true by (symmetry; apply bool_decide_eq_true; eauto).
  run.
  repeat (rewrite ?M_bind_assoc;
          rewrite (M_bind_Done _ _ _ _ _ (modify_device_run _ _));
          cbn [heap gdevice]).
  cbn [CreateDeviceParams.m_DisplayWidth CreateDeviceParams.m_DisplayHeight].
  rewrite ?M_bind_assoc.
  rewrite (M_bind_Done _ _ _ _ _ (new_planes_run _ _ _)). cbn [heap gdevice].
  repeat (rewrite ?M_bind_assoc;
          rewrite (M_bind_Done _ _ _ _ _ (modify_device_run _ _));
          cbn [heap gdevice]).
  rewrite modify_device_run. reflexivity.
Qed.

Lemma fresh_arrays_lookup (h : list (option object)) (k : nat) (size : Z) (i : nat) :
  (i < k)%nat ->
  (h ++ fresh_arrays k size) !! (length h + i)%nat
  = Some (Some (Array (replicate (Z.to_nat size) Undef))).
Proof.
  intros Hi. rewrite lookup_app_r by lia.
  replace (length h + i - length h)%nat with i by lia.
  unfold fresh_arrays. apply lookup_replicate. auto.
Qed.

Lemma fresh_plane_holds (h : list (option object)) (size pixels : Z) (i : nat) :
  (i < 4)%nat -> 0 <= size -> 4 * pixels <= size ->
  plane_holds (h ++ fresh_arrays 4 size) (length h + i)%nat pixels.
Proof.
  intros Hi Hsize Hpix. exists (replicate (Z.to_nat size) Undef).
  split; [apply fresh_arrays_lookup; assumption|].
  rewrite length_replicate. lia.
Qed.

Lemma plane_cleared_set (flags flag v : Z) (b : block) (st st' : State) :
  plane_cleared flags flag v b st st' ->
  Z.land flags flag <> 0 ->
  forall i, 0 <= i < display_pixels st ->
            read_uint (heap st') 4 (Ptr b 0) i = Some (wrap32 v).
Proof.
  unfold plane_cleared. intros H Hflag. apply Z.eqb_neq in Hflag.
  rewrite Hflag in H. exact H.
Qed.

(** X13.  Opening the device and clearing: for every display whose
    pixel count is below 2^30 (so that a plane's byte size fits 32
    bits), on any earlier state, [NewDevice] followed by [Clear]
    completes and sets every one of the [width * height] pixels of each
    requested default plane; the accumulation plane keeps its
    indeterminate contents and no earlier block is touched. *)
Theorem NewDevice_Clear_fills_display
    (width height flags red green blue alpha depth stencil : Z) (st : State) :
  0 <= width -> 0 <= height -> width * height < 2 ^ 30 ->
  exists st',
    (NewDevice (Some (CreateDeviceParams.mk width height));;
     Clear GetContext flags red green blue alpha depth stencil) st
    = Done (tt, st') /\
    gdevice st' = opened_device width height (length (heap st)) (gdevice st) /\
    (forall x, (x < length (heap st))%nat -> heap st' !! x = heap st !! x) /\
    heap st' !! (length (heap st) + 2)%nat
    = Some (Some (Array (replicate (Z.to_nat (4 * width * height)) Undef))) /\
    (Z.land flags CLEAR_COLOUR_BUFFER <> 0 ->
     forall i, 0 <= i < width * height ->
       read_uint (heap st') 4 (Ptr (length (heap st)) 0) i
       = Some (packed_colour red green blue alpha)) /\
    (Z.land flags CLEAR_DEPTH_BUFFER <> 0 ->
     forall i, 0 <= i < width * height ->
       read_uint (heap st') 4 (Ptr (length (heap st) + 1)%nat 0) i
       = Some (wrap32 depth)) /\
    (Z.land flags CLEAR_STENCIL_BUFFER <> 0 ->
     forall i, 0 <= i < width * height ->
       read_uint (heap st') 4 (Ptr (length (heap st) + 3)%nat 0) i
       = Some (wrap32 stencil)).
Proof.
  intros Hw Hh Hfit.
  set (n := length (heap st)).
  assert (Hprod : 0 <= width * height) by nia.
  change (2 ^ 30) with 1073741824 in Hfit.
  assert (Hsize : wrap32 (4 * width * height) = 4 * width * height)
    by (apply wrap32_small; change (2 ^ 32) with 4294967296; lia).
  set (st1 := mkState (opened_device width height n (gdevice st))
                (heap st ++ fresh_arrays 4 (wrap32 (4 * width * height)))).
  assert (Hpix : display_pixels st1 = width * height)
    by (apply wrap32_small; change (2 ^ 32) with 4294967296; lia).
  assert (Hplane : forall i, (i < 4)%nat ->
            plane_holds (heap st1) (n + i)%nat (display_pixels st1)).
  { intros i Hi. apply fresh_plane_holds; [assumption|apply wrap32_range|].
    rewrite Hsize, Hpix. lia. }
  destruct (Clear_planes flags red green blue alpha depth stencil
              n (n + 1)%nat (n + 3)%nat (Ptr (n + 2)%nat 0) st1)
    as (st' & Hrun & Hdev & Hx & Hcol & Hdep & Hsten); try lia.
  { unfold active_planes, st1, opened_device, planes_at.
    cbn [gdevice Device.m_RenderBuffer Device.m_FrameBuffer].
    repeat f_equal; lia. }
  { rewrite <- (Nat.add_0_r n) at 1. apply Hplane. lia. }
  { apply Hplane. lia. }
  { apply Hplane. lia. }
  exists st'. split; [|split; [assumption|split; [|split; [|split; [|split]]]]].
  - run. rewrite (M_bind_Done _ _ _ _ _ (NewDevice_run width height st)).
    exact Hrun.
  - intros x Hxn. rewrite Hx by (unfold n; lia).
    unfold st1. cbn [heap]. apply lookup_app_l. assumption.
  - rewrite Hx by lia. unfold st1. cbn [heap].
    rewrite (fresh_arrays_lookup (heap st) 4 _ 2) by lia. rewrite Hsize. reflexivity.
  - intros Hflag i Hi.
    rewrite (plane_cleared_set _ _ _ _ _ _ (plane_cleared_intro _ _ _ _ _ _ Hcol)
               Hflag i) by lia.
    unfold packed_colour. rewrite wrap32_idem. reflexivity.
  - intros Hflag i Hi.
    apply (plane_cleared_set _ _ _ _ _ _ (plane_cleared_intro _ _ _ _ _ _ Hdep)
             Hflag i). lia.
  - intros Hflag i Hi.
    apply (plane_cleared_set _ _ _ _ _ _ (plane_cleared_intro _ _ _ _ _ _ Hsten)
             Hflag i). lia.
Qed.

Lemma NewDevice_Clear_fills_display_witness :
  exists st',
    (NewDevice (Some (CreateDeviceParams.mk 640 480));;
     Clear GetContext 7 10 20 30 255 0 1) (initial_State 0)
    = Done (tt, st') /\
    gdevice st' = opened_device 640 480 0 (gdevice (initial_State 0)) /\
    (forall x, (x < 0)%nat -> heap st' !! x = heap (initial_State 0) !! x) /\
    heap st' !! 2%nat
    = Some (Some (Array (replicate (Z.to_nat (4 * 640 * 480)) Undef))) /\
    (Z.land 7 CLEAR_COLOUR_BUFFER <> 0 ->
     forall i, 0 <= i < 640 * 480 ->
       read_uint (heap st') 4 (Ptr 0%nat 0) i = Some (packed_colour 10 20 30 255)) /\
    (Z.land 7 CLEAR_DEPTH_BUFFER <> 0 ->
     forall i, 0 <= i < 640 * 480 ->
       read_uint (heap st') 4 (Ptr 1%nat 0) i = Some (wrap32 0)) /\
    (Z.land 7 CLEAR_STENCIL_BUFFER <> 0 ->
     forall i, 0 <= i < 640 * 480 ->
       read_uint (heap st') 4 (Ptr 3%nat 0) i = Some (wrap32 1)).
Proof.
  apply (NewDevice_Clear_fills_display 640 480 7 10 20 30 255 0 1 (initial_State 0));
    [lia | lia | change (2 ^ 30) with 1073741824; lia].
Defined.

Lemma planes_live_blocks (h : list (option object)) (fb : FrameBuffer.t) :
  planes_live h fb ->
  forall b, b ∈ plane_blocks fb -> exists cells, h !! b = Some (Some (Array cells)).
Proof.
  intros (c & d & a & s & -> & _ & Hlive). exact Hlive.
Qed.

Lemma planes_live_agree (h h' : list (option object)) (fb : FrameBuffer.t) :
  planes_live h fb ->
  (forall b, b ∈ plane_blocks fb -> h' !! b = h !! b) ->
  planes_live h' fb.
Proof.
  intros (c & d & a & s & -> & Hnd & Hlive) Hsame.
  exists c, d, a, s. split; [reflexivity|]. split; [assumption|].
  intros b Hb. rewrite (Hsame b Hb). apply Hlive. assumption.
Qed.

Lemma plane_blocks_rev (fb : FrameBuffer.t) (b : block) :
  b ∈ reverse (plane_blocks fb) <-> b ∈ plane_blocks fb.
Proof. apply elem_of_reverse. Qed.

(** A freed plane cannot be freed again. *)
Lemma delete_planes_dead (fb : FrameBuffer.t) (c : block) (st : State) :
  FrameBuffer.m_ColorBuffer fb = Ptr c 0 ->
  heap st !! c = Some None ->
  delete_planes fb st = Undefined.
Proof.
  intros Hptr Hdead. unfold delete_planes. rewrite Hptr. run.
  apply M_bind_Undefined. unfold delete_array.
  rewrite run_bind, load_object_dead by auto. reflexivity.
Qed.

(** X14.  A viewport change frees the four default planes and
    allocates four new ones of [4 * width * height] bytes (in 32-bit
    arithmetic) for the new size; the old contents are not kept, the
    new planes hold indeterminate bytes.  Which plane set is active,
    the stream slots and every other block stay as they were. *)
Theorem SetViewport_reallocates (width height : Z) (st : State) :
  planes_live (heap st) (Device.m_FrameBuffer (gdevice st)) ->
  let old := plane_blocks (Device.m_FrameBuffer (gdevice st)) in
  let st' :=
    mkState (Device.set_FrameBuffer (planes_at (length (heap st)))
               (Device.set_Display (wrap32 width) (wrap32 height) (gdevice st)))
            (free_blocks (reverse old) (heap st)
               ++ fresh_arrays 4 (wrap32 (4 * wrap32 width * wrap32 height))) in
  SetViewport context_global width height st = Done (tt, st') /\
  (forall b, b ∈ old -> heap st' !! b = Some None) /\
  (forall x, x ∉ old -> (x < length (heap st))%nat -> heap st' !! x = heap st !! x) /\
  planes_live (heap st') (Device.m_FrameBuffer (gdevice st')).
Proof.
  intros Hlive old st'. split; [|split; [|split]].
  - unfold SetViewport. run.
    step (modify_device_run (Device.set_Display (wrap32 width) (wrap32 height)) st).
    erewrite (M_bind_Done get_device) by reflexivity. cbn [gdevice].
    erewrite (M_bind_Done (delete_planes _));
      [|apply delete_planes_run; cbn [heap Device.set_Display Device.m_FrameBuffer];
        exact Hlive].
    cbn [heap gdevice Device.set_Display Device.m_FrameBuffer
         Device.m_DisplayWidth Device.m_DisplayHeight].
    rewrite (M_bind_Done _ _ _ _ _ (new_planes_run _ _ _)). cbn [heap gdevice].
    rewrite modify_device_run. cbn [heap gdevice].
    rewrite free_blocks_length. reflexivity.
  - intros b Hb. unfold st'. cbn [heap].
    destruct (planes_live_blocks _ _ Hlive b Hb) as [cells Hcells].
    assert (Hlt : (b < length (heap st))%nat) by (eapply lookup_lt_Some; eassumption).
    rewrite lookup_app_l by (rewrite free_blocks_length; assumption).
    apply free_blocks_lookup_in; [apply plane_blocks_rev|]; assumption.
  - intros x Hx Hlt. unfold st'. cbn [heap].
    rewrite lookup_app_l by (rewrite free_blocks_length; assumption).
    apply free_blocks_lookup_notin. unfold old in *.
    rewrite plane_blocks_rev. assumption.
  - unfold st'. cbn [heap gdevice Device.set_FrameBuffer Device.m_FrameBuffer].
    rewrite <- (free_blocks_length (reverse old) (heap st)).
    apply planes_at_live.
Qed.

Lemma SetViewport_reallocates_witness :
  SetViewport context_global 3 1 state_target
  = Done (tt,
          mkState (Device.set_FrameBuffer (planes_at 11)
                     (Device.set_Display (wrap32 3) (wrap32 1) (gdevice state_target)))
                  (free_blocks [3; 2; 1; 0]%nat (heap state_target)
                     ++ fresh_arrays 4 (wrap32 (4 * wrap32 3 * wrap32 1)))).
Proof.
  apply (SetViewport_reallocates 3 1 state_target).
  exists 0%nat, 1%nat, 2%nat, 3%nat. split; [reflexivity|]. split.
  - repeat constructor; rewrite ?elem_of_cons, ?elem_of_nil; lia.
  - intros b Hb. exists (replicate 16 Undef).
    rewrite !elem_of_cons, elem_of_nil in Hb.
    destruct Hb as [->|[->|[->|[->|[]]]]]; reflexivity.
Defined.

(** ** Closing the device *)

(** X15.  [DeleteDevice] marks the device closed and frees the four
    default planes.  Of the stream slots it clears the two pointers
    only: sizes and strides stay, and the compaction buffers the slots
    owned are not freed (every block other than the planes is as it
    was).  The plane pointers are left in place, so closing the device
    a second time has no defined behaviour. *)
Theorem DeleteDevice_closes (device : HDevice) (st : State) :
  planes_live (heap st) (Device.m_FrameBuffer (gdevice st)) ->
  length (streams st) = MAX_VERTEX_STREAM_COUNT ->
  exists st',
    DeleteDevice device st = Done (tt, st') /\
    heap st'
    = free_blocks (reverse (plane_blocks (Device.m_FrameBuffer (gdevice st))))
        (heap st) /\
    gdevice st'
    = Device.set_VertexStreams (streams st') (Device.set_Opened 0 (gdevice st)) /\
    (forall i s, streams st !! i = Some s ->
                 streams st' !! i = Some (closed_stream s)) /\
    (forall i s b ofs, streams st !! i = Some s ->
       VertexStream.m_Buffer s = Ptr b ofs ->
       b ∉ plane_blocks (Device.m_FrameBuffer (gdevice st)) ->
       heap st' !! b = heap st !! b) /\
    GetWindowParam WINDOW_PARAM_OPENED st' = Done (0, st') /\
    DeleteDevice device st' = Undefined.
Proof.
  intros Hlive Hlen.
  set (fb := Device.m_FrameBuffer (gdevice st)) in *.
  set (h1 := free_blocks (reverse (plane_blocks fb)) (heap st)).
  set (d1 := Device.set_Opened 0 (gdevice st)).
  assert (Hdel : delete_planes fb (mkState d1 (heap st)) = Done (tt, mkState d1 h1))
    by (apply (delete_planes_run fb (mkState d1 (heap st))); exact Hlive).
  match goal with |- context [DeleteDevice] => unfold DeleteDevice end.
  match type of Hlen with _ = ?n =>
    destruct (for_loop_total n
                (fun i =>
                   vs ← get_stream i;
                   set_stream i (VertexStream.mk Null Null
                                   (VertexStream.m_Size vs) (VertexStream.m_Stride vs)))
                (fun k s =>
                   heap s = h1 /\
                   gdevice s = Device.set_VertexStreams (streams s) d1 /\
                   length (streams s) = MAX_VERTEX_STREAM_COUNT /\
                   forall i si, streams st !! i = Some si ->
                     streams s !! i
                     = Some (if (i <? k)%nat then closed_stream si else si))
                (mkState d1 h1))
      as (st' & Hrun & Hheap & Hdev & Hlen' & Hslots)
  end.
  - split; [reflexivity|]. split; [destruct st as [[] ?]; reflexivity|].
    split; [exact Hlen|]. intros i si Hi. exact Hi.
  - intros k s Hk (Hheap & Hdev & Hlen' & Hslots).
    destruct (lookup_lt_is_Some_2 (streams st) k ltac:(lia)) as [sk Hsk].
    pose proof (Hslots k sk Hsk) as Hk'. rewrite Nat.ltb_irrefl in Hk'.
    eexists. split.
    + run. step (get_stream_run _ _ _ Hk'). apply set_stream_run. lia.
    + rewrite heap_with_stream, streams_with_stream, length_insert.
      split; [assumption|]. split; [cbn; rewrite Hdev; reflexivity|].
      split; [assumption|].
      intros i si Hi. destruct (decide (i = k)) as [->|Hik].
      * rewrite list_lookup_insert_eq by lia.
        assert (si = sk) by congruence. subst si.
        rewrite (proj2 (Nat.ltb_lt k (S k))) by lia. reflexivity.
      * rewrite list_lookup_insert_ne by auto. rewrite (Hslots i si Hi).
        replace (i <? S k)%nat with (i <? k)%nat; [reflexivity|].
        destruct (Nat.ltb_spec i k), (Nat.ltb_spec i (S k)); auto; lia.
  - assert (Hslots' : forall i s, streams st !! i = Some s ->
                                  streams st' !! i = Some (closed_stream s)).
    { intros i s Hs. rewrite (Hslots i s Hs).
      rewrite (proj2 (Nat.ltb_lt i MAX_VERTEX_STREAM_COUNT)); [reflexivity|].
      rewrite <- Hlen. eapply lookup_lt_Some. eassumption. }
    exists st'. split; [|split; [assumption|split; [assumption|split; [assumption|split; [|split]]]]].
    + run. step (modify_device_run (Device.set_Opened 0) st).
      erewrite (M_bind_Done get_device) by reflexivity.
      rewrite (M_bind_Done _ _ _ _ _ Hdel). exact Hrun.
    + intros i s b ofs _ _ Hb. rewrite Hheap. unfold h1.
      apply free_blocks_lookup_notin. rewrite plane_blocks_rev. assumption.
    + unfold GetWindowParam. run. erewrite (M_bind_Done get_device) by reflexivity.
      rewrite Hdev. reflexivity.
    + destruct Hlive as (c & d & a & s & Hfb & Hnd & Hlive).
      destruct (Hlive c) as [cells Hc]; [repeat constructor|].
      unfold DeleteDevice. run.
      step (modify_device_run (Device.set_Opened 0) st').
      erewrite (M_bind_Done get_device) by reflexivity.
      apply M_bind_Undefined.
      apply (delete_planes_dead _ c).
      * cbn [gdevice]. rewrite Hdev. cbn. fold fb. rewrite Hfb. reflexivity.
      * cbn [heap]. rewrite Hheap. unfold h1.
        apply free_blocks_lookup_in; [|eapply lookup_lt_Some; eassumption].
        rewrite plane_blocks_rev, Hfb. repeat constructor.
Qed.

Lemma state_target_planes_live :
  planes_live (heap state_target) (Device.m_FrameBuffer (gdevice state_target)).
Proof.
  exists 0%nat, 1%nat, 2%nat, 3%nat. split; [reflexivity|]. split.
  - repeat constructor; rewrite ?elem_of_cons, ?elem_of_nil; lia.
  - intros b Hb. exists (replicate 16 Undef).
    rewrite !elem_of_cons, elem_of_nil in Hb.
    destruct Hb as [->|[->|[->|[->|[]]]]]; reflexivity.
Qed.

Lemma DeleteDevice_closes_witness :
  exists st',
    DeleteDevice device_global state_target = Done (tt, st') /\
    heap st' = free_blocks [3; 2; 1; 0]%nat (heap state_target) /\
    gdevice st'
    = Device.set_VertexStreams (streams st')
        (Device.set_Opened 0 (gdevice state_target)) /\
    (forall i s, streams state_target !! i = Some s ->
                 streams st' !! i = Some (closed_stream s)) /\
    (forall i s b ofs, streams state_target !! i = Some s ->
       VertexStream.m_Buffer s = Ptr b ofs ->
       b ∉ [0; 1; 2; 3]%nat ->
       heap st' !! b = heap state_target !! b) /\
    GetWindowParam WINDOW_PARAM_OPENED st' = Done (0, st') /\
    DeleteDevice device_global st' = Undefined.
Proof.
  apply (DeleteDevice_closes device_global state_target).
  - exact state_target_planes_live.
  - reflexivity.
Defined.

(** ** Textures and render targets *)

(** The steps of the free store on a heap written as [h ++ l], for the
    blocks of [l]. *)
Lemma new_run_app (o : object) (d : Device.t) (h l : list (option object)) :
  new o (mkState d (h ++ l))
  = Done ((length h + length l)%nat, mkState d (h ++ (l ++ [Some o]))).
Proof. rewrite new_run. cbn [heap gdevice]. rewrite length_app, app_assoc. reflexivity. Qed.

Lemma lookup_app_plus {A : Type} (h l : list A) (i : nat) :
  (h ++ l) !! (length h + i)%nat = l !! i.
Proof.
  rewrite lookup_app_r by lia. f_equal. lia.
Qed.

Lemma load_object_app (o : object) (d : Device.t) (h l : list (option object)) (i : nat) :
  l !! i = Some (Some o) ->
  load_object (length h + i) (mkState d (h ++ l)) = Done (o, mkState d (h ++ l)).
Proof.
  intros H. apply load_object_run. cbn [heap]. rewrite lookup_app_plus. assumption.
Qed.

Lemma store_object_app (o o0 : object) (d : Device.t) (h l : list (option object))
    (i : nat) :
  l !! i = Some (Some o0) ->
  store_object (length h + i) o (mkState d (h ++ l))
  = Done (tt, mkState d (h ++ <[i := Some o]> l)).
Proof.
  intros H. erewrite store_object_run
    by (cbn [heap]; rewrite lookup_app_plus; eassumption).
  cbn [heap gdevice]. rewrite insert_app_r. reflexivity.
Qed.

Lemma delete_app (o0 : object) (d : Device.t) (h l : list (option object)) (i : nat) :
  l !! i = Some (Some o0) ->
  delete (length h + i) (mkState d (h ++ l))
  = Done (tt, mkState d (h ++ <[i := None]> l)).
Proof.
  intros H. erewrite delete_run
    by (cbn [heap]; rewrite lookup_app_plus; eassumption).
  cbn [heap gdevice]. rewrite insert_app_r. reflexivity.
Qed.

Lemma new_planes_app (width height : Z) (d : Device.t) (h l : list (option object)) :
  new_planes width height (mkState d (h ++ l))
  = Done (planes_at (length h + length l),
          mkState d (h ++ (l ++ fresh_arrays 4 (wrap32 (4 * width * height))))).
Proof.
  rewrite new_planes_run. cbn [heap gdevice].
  rewrite length_app, app_assoc. reflexivity.
Qed.

Lemma M_bind_ret {A B : Type} (a : A) (f : A -> M B) st :
  M_bind A B f (M_ret A a) st = f a st.
Proof. reflexivity. Qed.

Lemma M_bind_assert_true {B : Type} (f : unit -> M B) st :
  M_bind unit B f (assert true) st = f tt st.
Proof. reflexivity. Qed.

(** Bring the next call to the head of the computation. *)
Ltac norm :=
  repeat (progress (rewrite ?M_bind_assoc, ?M_bind_ret, ?M_bind_assert_true)).

(** Run the next call of the free store on a heap [h ++ l]. *)
Ltac heap_step :=
  rewrite ?M_bind_assoc;
  first
    [ rewrite M_bind_ret
    | rewrite M_bind_assert_true
    | rewrite (M_bind_Done _ _ _ _ _ (new_run_app _ _ _ _))
    | rewrite (M_bind_Done _ _ _ _ _ (new_planes_app _ _ _ _ _))
    | erewrite (M_bind_Done (load_object _)) by (apply load_object_app; reflexivity)
    | erewrite (M_bind_Done (store_object _ _)) by (eapply store_object_app; reflexivity)
    | erewrite (M_bind_Done (delete _)) by (eapply delete_app; reflexivity)
    | rewrite (M_bind_Done _ _ _ _ _ (memcpy_zero _ _ _)) ];
  cbn [length app list_insert insert M_ret];
  run.

Lemma NewRenderTarget_run_app (width height : Z) (format : TextureFormat)
    (d : Device.t) (h : list (option object)) :
  TEXTURE_FORMAT_SIZE format * wrap16 width * wrap16 height < 2 ^ 31 ->
  NewRenderTarget width height format (mkState d (h ++ []))
  = Done (Some (length h + 0)%nat,
          mkState d
            (h ++ [Some (RenderTargetObj
                           (RenderTarget.mk (Some (length h + 1)%nat)
                              (planes_at (length h + 3))));
                   Some (TextureObj
                           (Texture.mk (Ptr (length h + 2)%nat 0) format
                              (wrap16 width) (wrap16 height)));
                   Some (Array (replicate
                                  (Z.to_nat (TEXTURE_FORMAT_SIZE format
                                             * wrap16 width * wrap16 height))
                                  Undef))]
               ++ fresh_arrays 4 (wrap32 (4 * width * height)))).
Proof.
  intros Hsize. apply Z.ltb_lt in Hsize.
  unfold NewRenderTarget, NewTexture, SetTextureData, load_Texture, new_array.
  run.
  repeat heap_step. cbn [Texture.m_Data is_null]. repeat heap_step.
  rewrite Hsize. repeat heap_step. reflexivity.
Qed.

(** X16.  A new render target of [width] x [height] occupies seven
    fresh blocks: the target object, its texture object, the texture
    storage and four planes.  The texture records the dimensions as
    16-bit values and its storage is sized from those (format size
    times 16-bit width times 16-bit height); the four planes are sized
    from the full 32-bit dimensions, [4 * width * height] bytes each.
    Everything is left indeterminate; the device and the earlier blocks
    are untouched, and the target is not made active. *)
Theorem NewRenderTarget_allocates
    (width height : Z) (format : TextureFormat) (st : State) :
  TEXTURE_FORMAT_SIZE format * wrap16 width * wrap16 height < 2 ^ 31 ->
  let n := length (heap st) in
  let texture :=
    Texture.mk (Ptr (n + 2)%nat 0) format (wrap16 width) (wrap16 height) in
  let st' :=
    mkState (gdevice st)
      (heap st
         ++ [Some (RenderTargetObj
                     (RenderTarget.mk (Some (n + 1)%nat) (planes_at (n + 3))));
             Some (TextureObj texture);
             Some (Array (replicate
                            (Z.to_nat (TEXTURE_FORMAT_SIZE format
                                       * wrap16 width * wrap16 height))
                            Undef))]
         ++ fresh_arrays 4 (wrap32 (4 * width * height))) in
  NewRenderTarget width height format st = Done (Some n, st') /\
  GetRenderTargetTexture (Some n) st' = Done (Some (n + 1)%nat, st') /\
  load_Texture (Some (n + 1)%nat) st' = Done (texture, st').
Proof.
  intros Hsize n texture st'.
  pose proof (NewRenderTarget_run_app width height format (gdevice st) (heap st) Hsize)
    as Hrun.
  rewrite app_nil_r, state_eta, Nat.add_0_r in Hrun.
  split; [exact Hrun|].
  assert (Hrt : heap st' !! n
                = Some (Some (RenderTargetObj
                                (RenderTarget.mk (Some (n + 1)%nat)
                                   (planes_at (n + 3)))))).
  { unfold st', n. cbn [heap]. rewrite lookup_app_r by lia.
    rewrite Nat.sub_diag. reflexivity. }
  assert (Htex : heap st' !! (n + 1)%nat = Some (Some (TextureObj texture))).
  { unfold st', n. cbn [heap]. rewrite lookup_app_plus. reflexivity. }
  split.
  - unfold GetRenderTargetTexture, load_RenderTarget. run.
    rewrite ?M_bind_assoc, ?M_bind_ret. step (load_object_run _ _ _ Hrt).
    reflexivity.
  - unfold load_Texture. run.
    rewrite ?M_bind_assoc, ?M_bind_ret. step (load_object_run _ _ _ Htex).
    reflexivity.
Qed.

Lemma NewRenderTarget_allocates_witness :
  NewRenderTarget 65537 2 TEXTURE_FORMAT_RGBA (initial_State 0)
  = Done (Some 0%nat,
          mkState (Device.static 0)
            ([Some (RenderTargetObj (RenderTarget.mk (Some 1%nat) (planes_at 3)));
              Some (TextureObj (Texture.mk (Ptr 2%nat 0) TEXTURE_FORMAT_RGBA 1 2));
              Some (Array (replicate 8 Undef))]
               ++ fresh_arrays 4 524296)).
Proof.
  apply (NewRenderTarget_allocates 65537 2 TEXTURE_FORMAT_RGBA (initial_State 0)).
  vm_compute. reflexivity.
Defined.

Lemma render_buffer_dangling (r : block) (st : State) :
  Device.m_RenderBuffer (gdevice st) = ref_RenderTarget r ->
  heap st !! r = Some None ->
  render_buffer st = Undefined.
Proof.
  intros Href Hdead. rewrite render_buffer_read. unfold active_planes.
  rewrite Href, Hdead. reflexivity.
Qed.

(** [Clear] needs the active plane set as soon as one plane is
    requested. *)
Lemma Clear_without_planes
    (flags red green blue alpha depth stencil : Z) (st : State) :
  render_buffer st = Undefined ->
  requests_plane flags ->
  Clear context_global flags red green blue alpha depth stencil st = Undefined.
Proof.
  intros Hrb Hreq. unfold Clear. run.
  rewrite (M_bind_Done get_device _ st (gdevice st) st eq_refl).
  destruct (Z.land flags CLEAR_COLOUR_BUFFER =? 0) eqn:Hc.
  2:{ apply M_bind_Undefined, M_bind_Undefined. assumption. }
  rewrite M_bind_ret.
  destruct (Z.land flags CLEAR_DEPTH_BUFFER =? 0) eqn:Hd.
  2:{ apply M_bind_Undefined, M_bind_Undefined. assumption. }
  rewrite M_bind_ret.
  destruct (Z.land flags CLEAR_STENCIL_BUFFER =? 0) eqn:Hs.
  2:{ apply M_bind_Undefined. assumption. }
  apply Z.eqb_eq in Hc, Hd, Hs. destruct Hreq as [?|[?|?]]; contradiction.
Qed.

(** X17.  Deleting a render target frees its seven blocks (texture
    storage, texture object, the four planes, the target object) and
    nothing else.  The device is not told: if the target was the active
    one it stays the active plane set, and a [Clear] that requests any
    plane then has no defined behaviour. *)
Theorem DeleteRenderTarget_frees
    (r t p : block) (tex : Texture.t) (fb : FrameBuffer.t)
    (cells : list memval) (st : State) :
  heap st !! r = Some (Some (RenderTargetObj (RenderTarget.mk (Some t) fb))) ->
  heap st !! t = Some (Some (TextureObj tex)) ->
  Texture.m_Data tex = Ptr p 0 ->
  heap st !! p = Some (Some (Array cells)) ->
  planes_live (heap st) fb ->
  p ∉ plane_blocks fb ->
  let st' :=
    mkState (gdevice st)
      (<[r := None]>
         (free_blocks (reverse (plane_blocks fb))
            (<[t := None]> (<[p := None]> (heap st))))) in
  DeleteRenderTarget (Some r) st = Done (tt, st') /\
  (forall x, x <> r -> x <> t -> x <> p -> x ∉ plane_blocks fb ->
             heap st' !! x = heap st !! x) /\
  (Device.m_RenderBuffer (gdevice st) = ref_RenderTarget r ->
   forall flags red green blue alpha depth stencil,
     requests_plane flags ->
     Clear context_global flags red green blue alpha depth stencil st'
     = Undefined).
Proof.
  intros Hr Ht Hdata Hp Hlive Hpfb st'.
  assert (Hrt : r <> t) by congruence.
  assert (Hrp : r <> p) by congruence.
  assert (Htp : t <> p) by congruence.
  assert (Hkind : forall b, b ∈ plane_blocks fb -> b <> r /\ b <> t /\ b <> p).
  { intros b Hb. destruct (planes_live_blocks _ _ Hlive b Hb) as [cb Hcb].
    repeat split; congruence. }
  set (h1 := <[p := None]> (heap st)).
  set (h2 := <[t := None]> h1).
  set (h3 := free_blocks (reverse (plane_blocks fb)) h2).
  assert (Hlive2 : planes_live h2 fb).
  { apply (planes_live_agree (heap st)); [assumption|].
    intros b Hb. destruct (Hkind b Hb) as (_ & ? & ?).
    unfold h2, h1. rewrite !list_lookup_insert_ne by congruence. reflexivity. }
  assert (Hr3 : h3 !! r
                = Some (Some (RenderTargetObj (RenderTarget.mk (Some t) fb)))).
  { unfold h3. rewrite free_blocks_lookup_notin.
    - unfold h2, h1. rewrite !list_lookup_insert_ne by congruence. assumption.
    - rewrite plane_blocks_rev. intros Hin. destruct (Hkind r Hin) as (? & _).
      congruence. }
  split; [|split].
  - unfold DeleteRenderTarget, load_RenderTarget, DeleteTexture, load_Texture. run.
    norm. step (load_object_run _ _ _ Hr).
    cbn [RenderTarget.m_Texture RenderTarget.m_RenderBuffer]. run.
    norm. step (load_object_run _ _ _ Ht).
    rewrite Hdata. run.
    norm. rewrite (M_bind_Done _ _ _ _ _ (delete_array_run _ _ _ Hp)).
    norm. fold h1.
    erewrite (M_bind_Done (delete _));
      [|eapply delete_run; cbn [heap]; unfold h1;
        rewrite list_lookup_insert_ne by congruence; exact Ht].
    cbn [heap gdevice]. fold h1 h2.
    erewrite (M_bind_Done (delete_planes _));
      [|apply delete_planes_run; cbn [heap]; exact Hlive2].
    cbn [heap gdevice]. fold h3.
    norm.
    erewrite delete_run by (cbn [heap]; exact Hr3).
    reflexivity.
  - intros x Hxr Hxt Hxp Hx. unfold st'. cbn [heap].
    rewrite list_lookup_insert_ne by congruence.
    rewrite free_blocks_lookup_notin by (rewrite plane_blocks_rev; assumption).
    rewrite !list_lookup_insert_ne by congruence. reflexivity.
  - intros Href flags red green blue alpha depth stencil Hreq.
    apply Clear_without_planes; [|assumption].
    apply (render_buffer_dangling r); [exact Href|].
    unfold st'. cbn [heap]. apply list_lookup_insert_eq.
    rewrite free_blocks_length, !length_insert.
    eapply lookup_lt_Some. eassumption.
Qed.

Lemma DeleteRenderTarget_frees_witness :
  DeleteRenderTarget (Some 4%nat) state_target
  = Done (tt, mkState (gdevice state_target)
                (<[4%nat := None]>
                   (free_blocks [10; 9; 8; 7]%nat
                      (<[5%nat := None]> (<[6%nat := None]> (heap state_target)))))).
Proof.
  refine (proj1 (DeleteRenderTarget_frees 4%nat 5%nat 6%nat
                   (Texture.mk (Ptr 6%nat 0) TEXTURE_FORMAT_RGBA 2 2)
                   (planes_at 7) (replicate 16 Undef) state_target
                   eq_refl eq_refl eq_refl eq_refl _ _)).
  - exists 7%nat, 8%nat, 9%nat, 10%nat. split; [reflexivity|]. split.
    + repeat constructor; rewrite ?elem_of_cons, ?elem_of_nil; lia.
    + intros b Hb. exists (replicate 16 Undef).
      rewrite !elem_of_cons, elem_of_nil in Hb.
      destruct Hb as [->|[->|[->|[->|[]]]]]; reflexivity.
  - change (plane_blocks (planes_at 7)) with [7; 8; 9; 10]%nat.
    rewrite !elem_of_cons, elem_of_nil. lia.
Defined.

(** X18.  A texture upload always reallocates: the previous storage
    is freed first, new storage of format size times width times height
    bytes is allocated, the texture records the format and dimensions,
    and [data_size] payload bytes are copied to the start of the new
    storage, the rest of which stays indeterminate.  The payload size is
    not checked against the storage: a larger payload has no defined
    behaviour, and neither has a payload read from the texture's
    previous storage, which is already freed when the copy is made. *)
Theorem SetTextureData_reallocates
    (t p : block) (tex : Texture.t) (old : list memval)
    (mip width height : Z) (format : TextureFormat)
    (data : ptr) (data_size : Z) (st : State) :
  heap st !! t = Some (Some (TextureObj tex)) ->
  Texture.m_Data tex = Ptr p 0 ->
  heap st !! p = Some (Some (Array old)) ->
  0 <= TEXTURE_FORMAT_SIZE format * width * height < 2 ^ 31 ->
  let size := TEXTURE_FORMAT_SIZE format * width * height in
  let upload := SetTextureData (Some t) mip width height format data data_size st in
  (forall vs,
     read_cells (heap st) data data_size = Some vs ->
     (forall ofs, data <> Ptr p ofs) ->
     data_size <= size ->
     upload
     = Done (tt,
         mkState (gdevice st)
           (<[t := Some (TextureObj
                           (Texture.mk (Ptr (length (heap st)) 0) format width height))]>
              (<[p := None]> (heap st))
            ++ [Some (Array (vs ++ replicate (Z.to_nat (size - data_size)) Undef))]))) /\
  (size < data_size -> upload = Undefined) /\
  (data_size <> 0 -> (exists ofs, data = Ptr p ofs) -> upload = Undefined).
Proof.
  intros Ht Hdata Hp Hsize size upload.
  assert (Htp : t <> p) by congruence.
  assert (Hltt : (t < length (heap st))%nat) by (eapply lookup_lt_Some; eassumption).
  assert (Hltp : (p < length (heap st))%nat) by (eapply lookup_lt_Some; eassumption).
  set (n := length (heap st)).
  set (h1 := <[p := None]> (heap st)).
  set (tex' := Texture.mk (Ptr n 0) format width height).
  set (h2 := <[t := Some (TextureObj tex')]> h1).
  set (undef := replicate (Z.to_nat size) Undef).
  assert (Hlen1 : length h1 = n) by (unfold h1; apply length_insert).
  assert (Hstore : <[t := Some (TextureObj tex')]> (h1 ++ [Some (Array undef)])
                   = h2 ++ [Some (Array undef)])
    by (unfold h2; apply insert_app_l; lia).
  assert (Hupload : upload = memcpy (Ptr n 0) data data_size
                               (mkState (gdevice st) (h2 ++ [Some (Array undef)]))).
  { unfold upload, SetTextureData, load_Texture. run. norm.
    step (load_object_run _ _ _ Ht). rewrite Hdata. run. norm.
    rewrite (M_bind_Done _ _ _ _ _ (delete_array_run _ _ _ Hp)). fold h1.
    fold size. destruct (Z.ltb_spec size (2 ^ 31)); [|unfold size in *; lia].
    norm. rewrite (M_bind_Done _ _ _ _ _ (new_array_run _ _)).
    cbn [heap gdevice]. rewrite Hlen1. fold undef. norm.
    erewrite (M_bind_Done (store_object _ _));
      [|eapply store_object_run; cbn [heap]; rewrite lookup_app_l by lia;
        unfold h1; rewrite list_lookup_insert_ne by congruence; exact Ht].
    cbn [heap gdevice]. fold tex'. rewrite Hstore. reflexivity. }
  assert (Hnew : (h2 ++ [Some (Array undef)]) !! n = Some (Some (Array undef))).
  { rewrite lookup_app_r by (unfold h2; rewrite length_insert; lia).
    unfold h2. rewrite length_insert, Hlen1, Nat.sub_diag. reflexivity. }
  assert (Hundef : Z.of_nat (length undef) = size)
    by (unfold undef; rewrite length_replicate; lia).
  split; [|split].
  - intros vs Hrd Hother Hfit. rewrite Hupload.
    destruct (read_cells_block _ _ _ _ Hrd) as (sb & so & -> & Hsb & Hlen).
    assert (Hsp : sb <> p) by (intros ->; apply (Hother so); reflexivity).
    assert (Hst : sb <> t).
    { intros ->. unfold read_cells, read_array in Hrd. rewrite Ht in Hrd.
      discriminate. }
    destruct (Z.eq_dec data_size 0) as [Hz|Hnz].
    + rewrite Hz, memcpy_zero. destruct vs; [|cbn in Hlen; lia].
      rewrite Z.sub_0_r. reflexivity.
    + rewrite (memcpy_run (Ptr n 0) (Ptr sb so) data_size vs n 0 undef
                 (vs ++ replicate (Z.to_nat (size - data_size)) Undef)).
      * cbn [heap gdevice]. f_equal. f_equal.
        replace n with (length h2 + 0)%nat at 1
          by (unfold h2; rewrite length_insert; lia).
        rewrite insert_app_r. reflexivity.
      * assumption.
      * unfold overlap. destruct (Nat.eqb_spec n sb); [unfold n in *; lia|reflexivity].
      * cbn [heap]. unfold read_cells, read_array in *.
        rewrite lookup_app_l by (unfold h2; rewrite length_insert; lia).
        unfold h2, h1. rewrite !list_lookup_insert_ne by congruence. exact Hrd.
      * reflexivity.
      * exact Hnew.
      * apply array_store_Some. repeat split; try lia.
        change (Z.to_nat 0) with 0%nat. rewrite take_0, Nat.add_0_l, app_nil_l.
        f_equal. unfold undef. rewrite drop_replicate. f_equal. lia.
  - intros Hbig. rewrite Hupload. unfold memcpy.
    destruct (Z.eqb_spec data_size 0); [lia|].
    destruct (overlap (Ptr n 0) data data_size); [reflexivity|].
    rewrite run_bind, load_cells_read.
    destruct (read_cells _ data data_size) as [vs|] eqn:Hrd; [|reflexivity].
    cbn [lift]. destruct (read_cells_block _ _ _ _ Hrd) as (_ & _ & _ & _ & Hlen).
    unfold store_cells.
    rewrite (bind_Done _ _ _ _ _
               (load_object_run n (Array undef)
                  (mkState (gdevice st) (h2 ++ [Some (Array undef)])) Hnew)).
    rewrite run_bind.
    destruct (array_store undef 0 vs) as [cells'|] eqn:Hst; [|reflexivity].
    apply array_store_Some in Hst. lia.
  - intros Hnz [ofs ->]. rewrite Hupload. unfold memcpy.
    destruct (Z.eqb_spec data_size 0); [contradiction|].
    destruct (overlap (Ptr n 0) (Ptr p ofs) data_size); [reflexivity|].
    rewrite run_bind, load_cells_read. cbn [heap read_cells]. unfold read_array.
    rewrite lookup_app_l by (unfold h2; rewrite length_insert; lia).
    unfold h2, h1. rewrite list_lookup_insert_ne by congruence.
    rewrite list_lookup_insert_eq by lia. reflexivity.
Qed.

Lemma SetTextureData_reallocates_witness :
  SetTextureData (Some 5%nat) 0 1 1 TEXTURE_FORMAT_RGBA (Ptr 6%nat 0) 4 state_target
  = Undefined.
Proof.
  apply (SetTextureData_reallocates 5%nat 6%nat
           (Texture.mk (Ptr 6%nat 0) TEXTURE_FORMAT_RGBA 2 2) (replicate 16 Undef)
           0 1 1 TEXTURE_FORMAT_RGBA (Ptr 6%nat 0) 4 state_target);
    first [reflexivity | vm_compute; intuition congruence | eauto].
Defined.

(** ** Programs and constant registers *)

Lemma copy_registers_block (regs data : list Vector4) (base num : Z) :
  0 <= base -> 0 <= num < 2 ^ 28 ->
  base + num <= Z.of_nat (length regs) ->
  num <= Z.of_nat (length data) ->
  copy_registers regs base data (wrap32 (16 * num))
  = Some (take (Z.to_nat base) regs ++ take (Z.to_nat num) data
            ++ drop (Z.to_nat base + Z.to_nat num)%nat regs).
Proof.
  intros Hbase Hnum Hfit Hdata. change (2 ^ 28) with 268435456 in Hnum.
  rewrite wrap32_small by (change (2 ^ 32) with 4294967296; lia).
  unfold copy_registers.
  replace (16 * num / 16) with num
    by (rewrite (Z.mul_comm 16 num), Z.div_mul; lia).
  destruct (Z.eqb_spec (16 * num) 0) as [Hz|Hnz].
  - assert (num = 0) by lia. subst num. change (Z.to_nat 0) with 0%nat.
    rewrite take_0, app_nil_l, Nat.add_0_r, take_drop. reflexivity.
  - destruct (Z.leb_spec 0 base); [|lia].
    destruct (Z.leb_spec (base + num) (Z.of_nat (length regs))); [|lia].
    destruct (Z.leb_spec num (Z.of_nat (length data))); [|lia].
    reflexivity.
Qed.

Lemma copied_registers_lookup (regs data : list Vector4) (base num : nat) :
  (base + num <= length regs)%nat -> (num <= length data)%nat ->
  let regs' := take base regs ++ take num data ++ drop (base + num)%nat regs in
  length regs' = length regs /\
  (forall i, (base <= i < base + num)%nat -> regs' !! i = data !! (i - base)%nat) /\
  (forall i, ~ (base <= i < base + num)%nat -> regs' !! i = regs !! i).
Proof.
  intros Hfit Hdata regs'.
  assert (Hl1 : length (take base regs) = base) by (rewrite length_take; lia).
  assert (Hl2 : length (take num data) = num) by (rewrite length_take; lia).
  split; [|split].
  - unfold regs'. rewrite !length_app, Hl1, Hl2, length_drop. lia.
  - intros i Hi. unfold regs'.
    rewrite lookup_app_r by lia. rewrite Hl1.
    rewrite lookup_app_l by lia. apply lookup_take_lt. lia.
  - intros i Hi. unfold regs'.
    destruct (decide (i < base)%nat).
    + rewrite lookup_app_l by lia. apply lookup_take_lt. lia.
    + rewrite lookup_app_r by lia. rewrite Hl1.
      rewrite lookup_app_r by lia. rewrite Hl2, lookup_drop. f_equal. lia.
Qed.

(** X19.  With a program of its kind bound, a constant block of
    [num_vectors] vectors written at [base_register] replaces exactly
    the registers [base_register .. base_register + num_vectors - 1] of
    that kind's bank by the first [num_vectors] vectors of the data; the
    other registers of the bank, the other bank, the bound programs and
    the heap are unchanged.  The single-constant entry point is the
    block of one vector. *)
Theorem set_constant_block_writes_range
    (k : ProgramKind) (data : list Vector4) (base_register num_vectors : Z)
    (st : State) :
  bound_program k (gdevice st) <> Null ->
  0 <= base_register -> 0 <= num_vectors < 2 ^ 28 ->
  base_register + num_vectors <= Z.of_nat (length (registers k (gdevice st))) ->
  num_vectors <= Z.of_nat (length data) ->
  exists st',
    set_constant_block k context_global data base_register num_vectors st
    = Done (tt, st') /\
    heap st' = heap st /\
    length (registers k (gdevice st')) = length (registers k (gdevice st)) /\
    (forall i, (Z.to_nat base_register <= i
                < Z.to_nat base_register + Z.to_nat num_vectors)%nat ->
       registers k (gdevice st') !! i = data !! (i - Z.to_nat base_register)%nat) /\
    (forall i, ~ (Z.to_nat base_register <= i
                  < Z.to_nat base_register + Z.to_nat num_vectors)%nat ->
       registers k (gdevice st') !! i = registers k (gdevice st) !! i) /\
    registers (other_kind k) (gdevice st')
    = registers (other_kind k) (gdevice st) /\
    (forall k', bound_program k' (gdevice st') = bound_program k' (gdevice st)) /\
    SetFragmentConstant context_global data base_register st
    = SetFragmentConstantBlock context_global data base_register 1 st.
Proof.
  intros Hbound Hbase Hnum Hfit Hdata. apply is_null_false in Hbound.
  pose proof (copy_registers_block (registers k (gdevice st)) data
                base_register num_vectors Hbase Hnum Hfit Hdata) as Hcopy.
  destruct (copied_registers_lookup (registers k (gdevice st)) data
              (Z.to_nat base_register) (Z.to_nat num_vectors))
    as (Hlen & Hin & Hout); [lia|lia|].
  destruct k; cbn [set_constant_block registers bound_program other_kind] in *.
  - eexists. split.
    + unfold SetVertexConstantBlock. run.
      rewrite (M_bind_Done get_device _ st (gdevice st) st eq_refl).
      rewrite Hbound. run. rewrite Hcopy. run. reflexivity.
    + cbn [heap gdevice Device.set_Registers Device.m_VertexProgramRegisters
           Device.m_FragmentProgramRegisters].
      split; [reflexivity|]. split; [exact Hlen|]. split; [exact Hin|].
      split; [exact Hout|]. split; [reflexivity|].
      split; [intros []; reflexivity|reflexivity].
  - eexists. split.
    + unfold SetFragmentConstantBlock. run.
      rewrite (M_bind_Done get_device _ st (gdevice st) st eq_refl).
      rewrite Hbound. run. rewrite Hcopy. run. reflexivity.
    + cbn [heap gdevice Device.set_Registers Device.m_VertexProgramRegisters
           Device.m_FragmentProgramRegisters].
      split; [reflexivity|]. split; [exact Hlen|]. split; [exact Hin|].
      split; [exact Hout|]. split; [reflexivity|].
      split; [intros []; reflexivity|reflexivity].
Qed.

Lemma set_constant_block_writes_range_witness :
  exists st',
    SetVertexConstantBlock context_global
      [mkVector4 1 2 3 4; mkVector4 5 6 7 8] 1 2 state_program = Done (tt, st') /\
    heap st' = heap state_program /\
    Device.m_VertexProgramRegisters (gdevice st')
    = [mkVector4 0 0 0 0; mkVector4 1 2 3 4; mkVector4 5 6 7 8; mkVector4 0 0 0 0].
Proof.
  destruct (set_constant_block_writes_range vertex_program
              [mkVector4 1 2 3 4; mkVector4 5 6 7 8] 1 2 state_program)
    as (st' & Hrun & Hheap & _); try (cbn; lia).
  - discriminate.
  - exists st'. split; [exact Hrun|]. split; [exact Hheap|].
    vm_compute in Hrun. injection Hrun as <-. reflexivity.
Defined.

(** X20.  The constant entry points stop on their assertion whenever
    no program of their kind is bound, whatever the data and the
    registers named; this is the state [NewDevice] leaves, so after
    opening the device no constant can be set before a program is
    bound. *)
Theorem set_constant_block_needs_program
    (k : ProgramKind) (data : list Vector4) (base_register num_vectors : Z)
    (st : State) :
  (bound_program k (gdevice st) = Null ->
   set_constant_block k context_global data base_register num_vectors st = Abort) /\
  (forall width height,
     (NewDevice (Some (CreateDeviceParams.mk width height));;
      set_constant_block k context_global data base_register num_vectors) st
     = Abort) /\
  (Device.m_FragmentProgram (gdevice st) = Null ->
   SetFragmentConstant context_global data base_register st = Abort).
Proof.
  assert (Hnull : forall s, bound_program k (gdevice s) = Null ->
            set_constant_block k context_global data base_register num_vectors s
            = Abort).
  { intros s Hb. destruct k; cbn [set_constant_block bound_program] in *.
    - unfold SetVertexConstantBlock. run.
      rewrite (M_bind_Done get_device _ s (gdevice s) s eq_refl).
      rewrite Hb. reflexivity.
    - unfold SetFragmentConstantBlock. run.
      rewrite (M_bind_Done get_device _ s (gdevice s) s eq_refl).
      rewrite Hb. reflexivity. }
  split; [apply Hnull|]. split.
  - intros width height. run.
    rewrite (M_bind_Done _ _ _ _ _ (NewDevice_run width height st)).
    apply Hnull. destruct k; reflexivity.
  - intros Hb. unfold SetFragmentConstant. run.
    rewrite (M_bind_Done get_device _ st (gdevice st) st eq_refl).
    rewrite Hb. reflexivity.
Qed.

Lemma set_constant_block_needs_program_witness :
  SetFragmentConstantBlock context_global [mkVector4 1 2 3 4] 0 1 state_program
  = Abort.
Proof.
  apply (set_constant_block_needs_program fragment_program [mkVector4 1 2 3 4] 0 1
           state_program).
  reflexivity.
Defined.

(** X21.  A program is an owned copy of the caller's bytes in one
    fresh block; creating it binds nothing, and a null program pointer
    is a fatal error.  Binding records the handle on the device, and
    deleting the program frees its block without unbinding it: the
    device keeps the dangling handle (so the constant entry points of
    that kind still pass their assertion). *)
Theorem program_lifetime
    (k : ProgramKind) (program : ptr) (program_size : Z) (vs : list memval)
    (st : State) :
  read_cells (heap st) program program_size = Some vs ->
  let p := Ptr (length (heap st)) 0 in
  let st1 := mkState (gdevice st) (heap st ++ [Some (Array vs)]) in
  new_program k program program_size st = Done (p, st1) /\
  new_program k Null program_size st = Abort /\
  exists st2,
    (set_program k context_global p;; delete_program k p) st1 = Done (tt, st2) /\
    bound_program k (gdevice st2) = p /\
    bound_program (other_kind k) (gdevice st2)
    = bound_program (other_kind k) (gdevice st) /\
    heap st2 = heap st ++ [None].
Proof.
  intros Hrd p st1.
  destruct (read_cells_block _ _ _ _ Hrd) as (sb & so & -> & Hsb & Hlen).
  set (n := length (heap st)) in *.
  set (st0 := mkState (gdevice st)
                (heap st ++ [Some (Array (replicate (Z.to_nat program_size) Undef))])).
  assert (Hcp : memcpy (Ptr n 0) (Ptr sb so) program_size st0 = Done (tt, st1)).
  { destruct (Z.eq_dec program_size 0) as [Hz|Hnz].
    - rewrite Hz, memcpy_zero. unfold st0, st1. rewrite Hz.
      destruct vs; [reflexivity|cbn in Hlen; lia].
    - rewrite (memcpy_run (Ptr n 0) (Ptr sb so) program_size vs n 0
                 (replicate (Z.to_nat program_size) Undef) vs).
      + unfold st0, st1. cbn [heap gdevice]. f_equal. f_equal.
        replace n with (length (heap st) + 0)%nat at 1 by (unfold n; lia).
        rewrite insert_app_r. reflexivity.
      + assumption.
      + unfold overlap. destruct (Nat.eqb_spec n sb); [lia|reflexivity].
      + apply (read_cells_agree (heap st)); [|assumption].
        intros x Hx. unfold st0. cbn [heap]. apply lookup_app_l. assumption.
      + reflexivity.
      + unfold st0. cbn [heap]. rewrite lookup_app_r by (unfold n; lia).
        unfold n. rewrite Nat.sub_diag. reflexivity.
      + apply replicate_store_all. assumption. }
  assert (Hlive : heap st1 !! n = Some (Some (Array vs))).
  { unfold st1. cbn [heap]. rewrite lookup_app_r by (unfold n; lia).
    unfold n. rewrite Nat.sub_diag. reflexivity. }
  assert (Hfree : <[n := None]> (heap st ++ [Some (Array vs)]) = heap st ++ [None]).
  { replace n with (length (heap st) + 0)%nat at 1 by (unfold n; lia).
    rewrite insert_app_r. reflexivity. }
  split; [|split].
  - destruct k; cbn [new_program].
    + unfold NewVertexProgram. run. norm.
      rewrite (M_bind_Done _ _ _ _ _ (new_array_run program_size st)). fold n st0.
      norm. rewrite (M_bind_Done _ _ _ _ _ Hcp). reflexivity.
    + unfold NewFragmentProgram. run. norm.
      rewrite (M_bind_Done _ _ _ _ _ (new_array_run program_size st)). fold n st0.
      norm. rewrite (M_bind_Done _ _ _ _ _ Hcp). reflexivity.
  - destruct k; reflexivity.
  - destruct k; cbn [set_program delete_program bound_program other_kind].
    + eexists. split.
      * unfold SetVertexProgram, DeleteVertexProgram. run. norm.
        rewrite (M_bind_Done _ _ _ _ _ (modify_device_run _ _)). unfold p. run. norm.
        erewrite delete_array_run by (cbn [heap]; exact Hlive). reflexivity.
      * cbn [heap gdevice st1]. rewrite Hfree. repeat split.
    + eexists. split.
      * unfold SetFragmentProgram, DeleteFragmentProgram. run. norm.
        rewrite (M_bind_Done _ _ _ _ _ (modify_device_run _ _)). unfold p. run. norm.
        erewrite delete_array_run by (cbn [heap]; exact Hlive). reflexivity.
      * cbn [heap gdevice st1]. rewrite Hfree. repeat split.
Qed.

Lemma program_lifetime_witness :
  NewVertexProgram (Ptr 0%nat 0) 4 state_data
  = Done (Ptr 1%nat 0,
          mkState (gdevice state_data)
            (heap state_data ++ [Some (Array (inj_bytes [x01; x02; x03; x04]))])).
Proof.
  apply (program_lifetime vertex_program (Ptr 0%nat 0) 4
           (inj_bytes [x01; x02; x03; x04]) state_data).
  reflexivity.
Defined.

(** ** Drawing: edge cases *)

(** X22.  A draw of no indices completes for every non-null index
    buffer pointer, which is never read: each active stream gets a
    fresh, empty compaction buffer in place of the one it had; inactive
    streams and every earlier block are untouched. *)
Theorem DrawElements_no_indices
    (prim_type : PrimitiveType) (type : Type_) (index_buffer : ptr) (st : State) :
  index_buffer <> Null ->
  length (streams st) = MAX_VERTEX_STREAM_COUNT ->
  exists st',
    DrawElements context_global prim_type 0 type index_buffer st = Done (tt, st') /\
    (forall b, (b < length (heap st))%nat -> heap st' !! b = heap st !! b) /\
    (forall j s, streams st !! j = Some s -> 0 < VertexStream.m_Size s ->
       exists b, streams st' !! j = Some (VertexStream.set_Buffer (Ptr b 0) s) /\
                 heap st !! b = None /\
                 heap st' !! b = Some (Some (Array []))) /\
    (forall j s, streams st !! j = Some s -> VertexStream.m_Size s <= 0 ->
       streams st' !! j = Some s).
Proof.
  intros Hib Hlen.
  destruct (allocate_loop_total st 0 type index_buffer ltac:(lia) Hlen)
    as (s1 & Halloc & Hg).
  { intros j sj _ _. change (2 ^ 32) with 4294967296. lia. }
  exists s1. split; [|split; [|split]].
  - unfold DrawElements. run. apply is_null_false in Hib. rewrite Hib. run.
    step Halloc. reflexivity.
  - apply (g_heap _ _ _ _ _ _ _ Hg).
  - intros j s Hs Hact.
    assert (Hj : (j < MAX_VERTEX_STREAM_COUNT)%nat)
      by (rewrite <- Hlen; eapply lookup_lt_Some; eassumption).
    destruct (g_active _ _ _ _ _ _ _ Hg j s Hj Hs Hact)
      as (b & cells & Hslot & Hb0 & Hb & Hcells & _).
    exists b. split; [assumption|]. split; [apply lookup_ge_None; lia|].
    rewrite Hb. destruct cells; [reflexivity|cbn in Hcells; lia].
  - intros j s Hs Hin. apply (g_inactive _ _ _ _ _ _ _ Hg j s Hs).
    right. unfold active. lia.
Qed.

Lemma DrawElements_no_indices_witness :
  exists st',
    DrawElements context_global 0 0 TYPE_FLOAT (Ptr 99%nat 0)
      (state_draw indices_012) = Done (tt, st') /\
    (forall b, (b < length (heap (state_draw indices_012)))%nat ->
               heap st' !! b = heap (state_draw indices_012) !! b) /\
    (forall j s, streams (state_draw indices_012) !! j = Some s ->
       0 < VertexStream.m_Size s ->
       exists b, streams st' !! j = Some (VertexStream.set_Buffer (Ptr b 0) s) /\
                 heap (state_draw indices_012) !! b = None /\
                 heap st' !! b = Some (Some (Array []))) /\
    (forall j s, streams (state_draw indices_012) !! j = Some s ->
       VertexStream.m_Size s <= 0 -> streams st' !! j = Some s).
Proof.
  apply (DrawElements_no_indices 0 TYPE_FLOAT (Ptr 99%nat 0) (state_draw indices_012)).
  - discriminate.
  - reflexivity.
Defined.

(** X23.  A draw never frees or reuses a compaction buffer.  When it
    returns, every active stream among the slots points to a block
    allocated by this draw, and the buffer the stream had before (from
    an earlier draw) is still allocated with its contents, no longer
    referenced by the slot: it is leaked unless the stream is disabled
    between the draws. *)
Theorem DrawElements_leaks_previous_buffer
    (context : HContext) (prim_type : PrimitiveType) (count : Z) (type : Type_)
    (index_buffer : ptr) (st st' : State)
    (j : nat) (s : VertexStream.t) (b0 : block) (ofs : Z) (o : option object) :
  DrawElements context prim_type count type index_buffer st = Done (tt, st') ->
  (j < MAX_VERTEX_STREAM_COUNT)%nat ->
  streams st !! j = Some s ->
  0 < VertexStream.m_Size s ->
  VertexStream.m_Buffer s = Ptr b0 ofs ->
  heap st !! b0 = Some o ->
  exists b,
    streams st' !! j = Some (VertexStream.set_Buffer (Ptr b 0) s) /\
    b <> b0 /\
    heap st !! b = None /\
    heap st' !! b0 = Some o.
Proof.
  intros Hrun Hj Hs Hact Hbuf Hb0. unfold DrawElements in Hrun.
  apply bind_Done_inv in Hrun as ([] & sa & H0 & Hrun).
  apply assert_Done in H0 as [_ [= ->]].
  apply bind_Done_inv in Hrun as ([] & sb & H0 & Hrun).
  apply assert_Done in H0 as [_ [= ->]].
  apply bind_Done_inv in Hrun as ([] & s1 & Halloc & Hgather).
  apply allocate_loop_frame in Halloc.
  apply (gather_loop_frame _ _ _ st) in Hgather; [|assumption].
  destruct Hgather as [[Hd Hl Hhl Hh Hslots] Hfresh].
  assert (Hlt : (b0 < length (heap st))%nat) by (eapply lookup_lt_Some; eassumption).
  destruct (Hslots j s Hs) as (s' & Hs' & Hdrawn).
  destruct Hdrawn as [->|(_ & b & -> & Hb)].
  - exfalso. destruct (Hfresh j s Hj Hs' Hact) as (b & Hptr & Hge).
    rewrite Hbuf in Hptr. injection Hptr as -> _. lia.
  - exists b. split; [assumption|]. split; [lia|].
    split; [apply lookup_ge_None; lia|].
    rewrite Hh by assumption. assumption.
Qed.

Lemma DrawElements_leaks_previous_buffer_witness :
  exists b,
    streams (state_drawn_twice indices_012) !! 0%nat
    = Some (VertexStream.set_Buffer (Ptr b 0)
              (VertexStream.mk (Ptr 3%nat 0) (Ptr 5%nat 0) 12 16)) /\
    b <> 5%nat /\
    heap (state_drawn indices_012) !! b = None /\
    heap (state_drawn_twice indices_012) !! 5%nat
    = Some (Some (Array (inj_bytes (position_of 0 ++ position_of 1 ++ position_of 2)))).
Proof.
  apply (DrawElements_leaks_previous_buffer context_global 0 3 TYPE_UNSIGNED_SHORT
           (Ptr 1%nat 0) (state_drawn indices_012) (state_drawn_twice indices_012)
           0%nat (VertexStream.mk (Ptr 3%nat 0) (Ptr 5%nat 0) 12 16) 5%nat 0).
  - vm_compute. reflexivity.
  - unfold MAX_VERTEX_STREAM_COUNT. lia.
  - reflexivity.
  - reflexivity.
  - reflexivity.
  - vm_compute. reflexivity.
Defined.

(** ** Render state *)

(** X24.  The fixed-function state is accepted and ignored, and the
    write masks are recorded and never consulted: after any sequence of
    state calls, with every mask switched off, [Clear] still writes
    every requested plane in full, exactly as it does without them. *)
Theorem Clear_ignores_render_state
    (state : RenderState) (source_factor destination_factor : BlendFactor)
    (face_type : FaceType) (red_mask green_mask blue_mask alpha_mask depth_mask : bool)
    (index_mask stencil_mask : Z)
    (flags red green blue alpha depth stencil : Z) (c d s : block) (accum : ptr)
    (st : State) :
  active_planes st = Some (FrameBuffer.mk (Ptr c 0) (Ptr d 0) accum (Ptr s 0)) ->
  c <> d -> c <> s -> d <> s ->
  plane_holds (heap st) c (display_pixels st) ->
  plane_holds (heap st) d (display_pixels st) ->
  plane_holds (heap st) s (display_pixels st) ->
  exists st',
    (EnableState context_global state;;
     DisableState context_global state;;
     SetBlendFunc context_global source_factor destination_factor;;
     SetCullFace context_global face_type;;
     SetColorMask context_global red_mask green_mask blue_mask alpha_mask;;
     SetDepthMask context_global depth_mask;;
     SetIndexMask context_global index_mask;;
     SetStencilMask context_global stencil_mask;;
     Clear context_global flags red green blue alpha depth stencil) st
    = Done (tt, st') /\
    Device.m_RedMask (gdevice st') = red_mask /\
    Device.m_DepthMask (gdevice st') = depth_mask /\
    Device.m_StencilMask (gdevice st') = stencil_mask /\
    plane_cleared flags CLEAR_COLOUR_BUFFER (packed_colour red green blue alpha)
      c st st' /\
    plane_cleared flags CLEAR_DEPTH_BUFFER depth d st st' /\
    plane_cleared flags CLEAR_STENCIL_BUFFER stencil s st st' /\
    (forall x, x <> c -> x <> d -> x <> s -> heap st' !! x = heap st !! x).
Proof.
  intros Hact Hcd Hcs Hds Hc Hd Hs.
  set (st1 := mkState
                (set_StencilMask stencil_mask
                   (set_IndexMask index_mask
                      (set_DepthMask depth_mask
                         (set_ColorMask red_mask green_mask blue_mask alpha_mask
                            (gdevice st)))))
                (heap st)).
  destruct (Clear_planes flags red green blue alpha depth stencil
              c d s accum st1)
    as (st' & Hrun & Hdev & Hx & Hcol & Hdep & Hsten); try assumption.
  exists st'. split; [exact Hrun|]. rewrite Hdev.
  split; [reflexivity|]. split; [reflexivity|]. split; [reflexivity|].
  split; [|split; [|split; [|assumption]]];
    apply (plane_cleared_intro _ _ _ _ st1); assumption.
Qed.

Lemma Clear_ignores_render_state_witness :
  exists st',
    (EnableState context_global 0;;
     DisableState context_global 0;;
     SetBlendFunc context_global 0 0;;
     SetCullFace context_global 0;;
     SetColorMask context_global false false false false;;
     SetDepthMask context_global false;;
     SetIndexMask context_global 0;;
     SetStencilMask context_global 0;;
     Clear context_global 7 10 20 30 255 0 1) state_target
    = Done (tt, st') /\
    Device.m_RedMask (gdevice st') = false /\
    Device.m_DepthMask (gdevice st') = false /\
    Device.m_StencilMask (gdevice st') = 0 /\
    plane_cleared 7 CLEAR_COLOUR_BUFFER (packed_colour 10 20 30 255)
      0%nat state_target st' /\
    plane_cleared 7 CLEAR_DEPTH_BUFFER 0 1%nat state_target st' /\
    plane_cleared 7 CLEAR_STENCIL_BUFFER 1 3%nat state_target st' /\
    (forall x, x <> 0%nat -> x <> 1%nat -> x <> 3%nat ->
               heap st' !! x = heap state_target !! x).
Proof.
  apply (Clear_ignores_render_state 0 0 0 0 false false false false false 0 0
           7 10 20 30 255 0 1 0%nat 1%nat 3%nat (Ptr 2%nat 0) state_target);
    first [reflexivity | lia | apply state_target_plane; lia].
Defined.

(** ** Clearing a render target smaller than the display *)

(** A loop whose rounds complete up to round [j], which has no defined
    behaviour, has none. *)
Lemma for_seq_undefined (start n : nat) (body : nat -> M unit)
    (I : nat -> State -> Prop) (j : nat) (st : State) :
  I start st ->
  (start <= j < start + n)%nat ->
  (forall k s, (start <= k < j)%nat -> I k s ->
               exists s', body k s = Done (tt, s') /\ I (S k) s') ->
  (forall s, I j s -> body j s = Undefined) ->
  for_each (seq start n) body st = Undefined.
Proof.
  revert start st. induction n as [|n IH]; intros start st H0 Hj Hstep Hstop;
    [lia|].
  cbn [seq for_each]. run.
  destruct (decide (j = start)) as [->|Hne].
  - apply M_bind_Undefined. apply Hstop. assumption.
  - destruct (Hstep start st ltac:(lia) H0) as (s1 & Hb & H1).
    rewrite (M_bind_Done _ _ _ _ _ Hb).
    apply IH; try assumption; [lia|].
    intros k s Hk. apply Hstep. lia.
Qed.

(** A store past the end of an array has no defined behaviour. *)
Lemma store_cells_overrun (b : block) (ofs : Z) (vs cells : list memval) (st : State) :
  heap st !! b = Some (Some (Array cells)) ->
  Z.of_nat (length cells) < ofs + Z.of_nat (length vs) ->
  store_cells (Ptr b ofs) vs st = Undefined.
Proof.
  intros H Hlen. unfold store_cells.
  rewrite (bind_Done _ _ _ _ _ (load_object_run _ _ _ H)).
  rewrite run_bind. unfold array_store.
  destruct (Z.leb_spec (ofs + Z.of_nat (length vs)) (Z.of_nat (length cells)));
    [lia|].
  rewrite andb_false_r. reflexivity.
Qed.

(** The loop of [Clear] on a plane of fewer than [count] words: the
    rounds fill the whole words of the plane, and the round after them
    writes past its end. *)
Lemma clear_loop_overruns (c : block) (v : Z) (count : nat) (cells : list memval)
    (st : State) :
  heap st !! c = Some (Some (Array cells)) ->
  Z.of_nat (length cells) < 4 * Z.of_nat count ->
  for_loop count (fun i => store_uint32 (Ptr c 0) (Z.of_nat i) v) st = Undefined.
Proof.
  intros Hc Hlen.
  assert (Hword : length (inj_bytes (encode_le 4 v)) = 4%nat)
    by (unfold inj_bytes; rewrite length_map; apply encode_le_length).
  unfold for_loop.
  apply (for_seq_undefined 0 count _
           (fun _ s => exists cells',
                         heap s !! c = Some (Some (Array cells')) /\
                         length cells' = length cells)
           (length cells / 4)%nat).
  - exists cells. auto.
  - pose proof (Nat.div_mod_eq (length cells) 4) as E.
    pose proof (Nat.mod_upper_bound (length cells) 4 ltac:(lia)). lia.
  - intros k s Hk (cells' & Hc' & Hl').
    pose proof (Nat.div_mod_eq (length cells) 4) as E.
    destruct (array_store cells' (4 * Z.of_nat k) (inj_bytes (encode_le 4 v)))
      as [cells''|] eqn:Hst.
    2:{ exfalso. unfold array_store in Hst. rewrite Hword in Hst.
        destruct (Z.leb_spec 0 (4 * Z.of_nat k)); [|lia].
        destruct (Z.leb_spec (4 * Z.of_nat k + Z.of_nat 4) (Z.of_nat (length cells')));
          [discriminate|lia]. }
    eexists. split.
    + unfold store_uint32, store_bytes. cbn [ptr_add]. rewrite Z.add_0_l.
      eapply store_cells_run; eassumption.
    + cbn [heap]. exists cells''. split.
      * apply list_lookup_insert_eq. eapply lookup_lt_Some. eassumption.
      * rewrite (array_store_length _ _ _ _ Hst). assumption.
  - intros s (cells' & Hc' & Hl').
    pose proof (Nat.div_mod_eq (length cells) 4) as E.
    pose proof (Nat.mod_upper_bound (length cells) 4 ltac:(lia)).
    unfold store_uint32, store_bytes. cbn [ptr_add]. rewrite Z.add_0_l.
    apply (store_cells_overrun c _ _ cells' s Hc').
    rewrite Hword, Hl'. lia.
Qed.

(** [Clear] with the colour flag on an active colour plane that holds
    fewer bytes than the display has pixel words writes past its end. *)
Lemma Clear_overruns_plane
    (flags red green blue alpha depth stencil : Z) (fb : FrameBuffer.t)
    (c : block) (cells : list memval) (st : State) :
  Z.land flags CLEAR_COLOUR_BUFFER <> 0 ->
  active_planes st = Some fb ->
  FrameBuffer.m_ColorBuffer fb = Ptr c 0 ->
  heap st !! c = Some (Some (Array cells)) ->
  Z.of_nat (length cells) < 4 * display_pixels st ->
  Clear context_global flags red green blue alpha depth stencil st = Undefined.
Proof.
  intros Hcol Hact Hptr Hc Hlen.
  pose proof (wrap32_range (Device.m_DisplayWidth (gdevice st)
                            * Device.m_DisplayHeight (gdevice st))) as Hn.
  fold (display_pixels st) in Hn.
  unfold Clear. run.
  rewrite (M_bind_Done get_device _ st (gdevice st) st eq_refl).
  apply Z.eqb_neq in Hcol. rewrite Hcol.
  apply M_bind_Undefined.
  assert (Hrb : render_buffer st = Done (fb, st))
    by (rewrite render_buffer_read, Hact; reflexivity).
  step Hrb. rewrite Hptr. fold (display_pixels st).
  apply (clear_loop_overruns c _ _ cells st Hc). lia.
Qed.

(** C8 at its failing inputs.  [NewRenderTarget] sizes the planes of a
    target by the target's width and height, [Clear] sizes its loops by
    the display.  Whatever the device state, a new target whose planes
    are smaller than the display's pixel count ([4 * width * height]
    bytes, fewer than four per display pixel) is created, and
    enable-render-target followed by a clear with the colour flag
    (alone or with the other flags) then writes past the end of the
    target's colour plane instead of modifying that plane and
    returning. *)
Theorem clear_after_enable_overruns_target
    (width height : Z) (format : TextureFormat)
    (flags red green blue alpha depth stencil : Z) (st : State) :
  TEXTURE_FORMAT_SIZE format * wrap16 width * wrap16 height < 2 ^ 31 ->
  Z.land flags CLEAR_COLOUR_BUFFER <> 0 ->
  wrap32 (4 * width * height) < 4 * display_pixels st ->
  exists (r c : block) (rt : RenderTarget.t) (cells : list memval) (st1 : State),
    NewRenderTarget width height format st = Done (Some r, st1) /\
    display_pixels st1 = display_pixels st /\
    heap st1 !! r = Some (Some (RenderTargetObj rt)) /\
    FrameBuffer.m_ColorBuffer (RenderTarget.m_RenderBuffer rt) = Ptr c 0 /\
    heap st1 !! c = Some (Some (Array cells)) /\
    Z.of_nat (length cells) = wrap32 (4 * width * height) /\
    (EnableRenderTarget context_global (Some r);;
     Clear context_global flags red green blue alpha depth stencil) st1
    = Undefined.
Proof.
  intros Hsize Hcol Hsmall.
  pose proof (NewRenderTarget_run_app width height format (gdevice st) (heap st) Hsize)
    as Hrun.
  rewrite app_nil_r, state_eta, Nat.add_0_r, app_assoc in Hrun.
  pose proof (wrap32_range (4 * width * height)) as Hw.
  set (h1 := heap st
             ++ [Some (RenderTargetObj
                         (RenderTarget.mk (Some (length (heap st) + 1)%nat)
                            (planes_at (length (heap st) + 3))));
                 Some (TextureObj
                         (Texture.mk (Ptr (length (heap st) + 2)%nat 0) format
                            (wrap16 width) (wrap16 height)));
                 Some (Array (replicate
                                (Z.to_nat (TEXTURE_FORMAT_SIZE format
                                           * wrap16 width * wrap16 height))
                                Undef))]) in *.
  assert (Hl1 : length h1 = (length (heap st) + 3)%nat)
    by (unfold h1; rewrite length_app; reflexivity).
  assert (Hr : (h1 ++ fresh_arrays 4 (wrap32 (4 * width * height)))
               !! length (heap st)
               = Some (Some (RenderTargetObj
                               (RenderTarget.mk (Some (length (heap st) + 1)%nat)
                                  (planes_at (length (heap st) + 3)))))).
  { unfold h1. rewrite <- app_assoc.
    rewrite <- (Nat.add_0_r (length (heap st))) at 1.
    rewrite lookup_app_plus. reflexivity. }
  assert (Hc : (h1 ++ fresh_arrays 4 (wrap32 (4 * width * height)))
               !! (length (heap st) + 3)%nat
               = Some (Some (Array (replicate (Z.to_nat (wrap32 (4 * width * height)))
                                              Undef)))).
  { rewrite <- Hl1, <- (Nat.add_0_r (length h1)).
    apply fresh_arrays_lookup. lia. }
  eexists (length (heap st)), (length (heap st) + 3)%nat, _, _, _.
  split; [exact Hrun|].
  split; [reflexivity|].
  split; [exact Hr|].
  split; [reflexivity|].
  split; [exact Hc|].
  split; [rewrite length_replicate; lia|].
  run. step (EnableRenderTarget_run (length (heap st))
               (mkState (gdevice st)
                  (h1 ++ fresh_arrays 4 (wrap32 (4 * width * height))))).
  eapply Clear_overruns_plane.
  - exact Hcol.
  - unfold active_planes. cbn [gdevice heap Device.m_RenderBuffer Device.set_RenderBuffer].
    rewrite Hr. reflexivity.
  - reflexivity.
  - exact Hc.
  - rewrite length_replicate.
    change (display_pixels _) with (display_pixels st). lia.
Qed.

Lemma clear_after_enable_overruns_target_witness :
  exists st1,
    NewRenderTarget 1 1 TEXTURE_FORMAT_RGBA (state_opened 2 2)
    = Done (Some 4%nat, st1) /\
    display_pixels st1 = 4 /\
    heap st1 !! 7%nat = Some (Some (Array (replicate 4 Undef))) /\
    (EnableRenderTarget context_global (Some 4%nat);;
     Clear context_global CLEAR_COLOUR_BUFFER 10 20 30 255 0 0) st1 = Undefined.
Proof.
  destruct (clear_after_enable_overruns_target 1 1 TEXTURE_FORMAT_RGBA
              CLEAR_COLOUR_BUFFER 10 20 30 255 0 0 (state_opened 2 2))
    as (r & c & rt & cells & st1 & Hnew & Hpix & Hr & Hptr & Hc & Hlen & Hclear).
  - reflexivity.
  - discriminate.
  - reflexivity.
  - vm_compute in Hnew. injection Hnew as <- <-.
    vm_compute in Hr. injection Hr as <-.
    vm_compute in Hptr. injection Hptr as <-.
    eexists. split; [vm_compute; reflexivity|].
    split; [reflexivity|]. split; [reflexivity|]. exact Hclear.
Defined.
